(** * File Store Bot: access gating and file registry

    A shallow embedding of the two bot implementations of the repository
    that the specification describes:

    - [JsonBot]: [src/index.js], whose database is one in-memory JavaScript
      object [db] mirrored to [database.json];
    - [MongoBot]: the MongoDB implementation (the second program of
      [src/unnamed/part_000], from its line 429 on), whose database is four
      Mongoose collections.

    The first program of [src/unnamed/part_000] (lines 1-428) is an earlier,
    smaller copy of [src/index.js] and is not embedded.

    Handlers are [async] functions that read and write the database, call
    the Telegram API and the link shortener, and may throw.  They are
    embedded in a state-and-exception monad [M] over a [World] holding the
    database, the log of outbound calls in program order, and the number
    of [Math.random] draws consumed.  Answers of the outside world
    (membership queries, shortener responses, transport results, random
    draws, the clock) come from an environment [Env]; every call to
    Telegram or to the shortener may fail.

    Persistence itself ([saveDB], Mongoose queries and updates) is taken to
    succeed and the database component of the [World] is the persisted
    state, with one exception: the insert of a new file document is
    refused when it violates a unique index that [FileSchema] declares. *)

From Stdlib Require Import ZArith Ascii String.
From stdpp Require Import gmap strings list fin_maps.

Local Open Scope Z_scope.
Local Open Scope string_scope.
Local Open Scope list_scope.

(** ** JavaScript values and helpers *)

Module JS.

(** [!s] is false exactly for the empty string. *)
Definition truthy_str (s : string) : bool :=
  match s with
  | EmptyString => false
  | String _ _ => true
  end.

(** A possibly-[undefined] string: truthy when defined and non-empty. *)
Definition truthy_opt (o : option string) : bool :=
  match o with
  | Some s => truthy_str s
  | None => false
  end.

(** [a || b] on possibly-undefined strings. *)
Definition or_else (a : option string) (b : option string) : option string :=
  if truthy_opt a then a else b.

(** [s.split(' ')] *)
Fixpoint split_space (s : string) : list string :=
  match s with
  | EmptyString => [EmptyString]
  | String c r =>
      if Ascii.eqb c " "%char then EmptyString :: split_space r
      else match split_space r with
           | w :: ws => String c w :: ws
           | [] => [String c EmptyString]
           end
  end.

(** Characters [encodeURIComponent] leaves alone:
    [A-Z a-z 0-9 - _ . ! ~ * ' ( )]. *)
Definition uri_unreserved (c : ascii) : bool :=
  let n := nat_of_ascii c in
  ((65 <=? n) && (n <=? 90))%nat || ((97 <=? n) && (n <=? 122))%nat
  || ((48 <=? n) && (n <=? 57))%nat
  || bool_decide (c ∈ ["-"; "_"; "."; "!"; "~"; "*"; "'"; "("; ")"]%char).

Definition hex_digit (n : nat) : ascii :=
  if (n <? 10)%nat then ascii_of_nat (48 + n) else ascii_of_nat (55 + n).

(** [encodeURIComponent] over a string held as its UTF-8 bytes: every byte
    outside the unreserved set becomes [%XX] in upper-case hexadecimal. *)
Fixpoint encodeURIComponent (s : string) : string :=
  match s with
  | EmptyString => EmptyString
  | String c r =>
      if uri_unreserved c then String c (encodeURIComponent r)
      else
        let n := nat_of_ascii c in
        String "%" (String (hex_digit (n / 16)) (String (hex_digit (n mod 16))
          (encodeURIComponent r)))
  end.

(** Parsed JSON, the shape of [response.data]. *)
#[warnings="-register-all"]
Inductive Json : Type :=
| JNull
| JBool (b : bool)
| JNum (n : Z)
| JStr (s : string)
| JArr (items : list Json)
| JObj (fields : list (string * Json)).

(** A JavaScript value as far as the bots handle one: [undefined] or JSON. *)
Inductive Val : Type :=
| Undefined
| Of (j : Json).

(** Own property of an object literal (the last duplicate key wins in
    [JSON.parse]; fields are kept in that resolved form, first match). *)
Fixpoint field (fields : list (string * Json)) (k : string) : Val :=
  match fields with
  | [] => Undefined
  | (k', v) :: rest => if String.eqb k' k then Of v else field rest k
  end.

(** [data.status] and [data.shortenedUrl]: reading a property of [null]
    throws a [TypeError] ([None]); of a primitive or an array it is
    [undefined] for these two names; of an object it is the field. *)
Definition get_prop (data : Json) (k : string) : option Val :=
  match data with
  | JNull => None
  | JObj fields => Some (field fields k)
  | JBool _ | JNum _ | JStr _ | JArr _ => Some Undefined
  end.

(** [v === 'error'] and the like. *)
Definition strict_eq_str (v : Val) (s : string) : bool :=
  match v with
  | Of (JStr s') => String.eqb s' s
  | _ => false
  end.

(** Names every plain object inherits from [Object.prototype]; a lookup
    [obj[k]] with such a [k] finds the inherited member when [obj] has no
    own property [k]. *)
Definition object_prototype_keys : list string :=
  [ "constructor"; "__proto__"; "hasOwnProperty"; "isPrototypeOf";
    "propertyIsEnumerable"; "toLocaleString"; "toString"; "valueOf";
    "__defineGetter__"; "__defineSetter__"; "__lookupGetter__";
    "__lookupSetter__" ].

(** Result of [obj[k]] on a plain object used as a dictionary. *)
Inductive Lookup (A : Type) : Type :=
| Own (a : A)
| Inherited
| Absent.
Arguments Own {A} a.
Arguments Inherited {A}.
Arguments Absent {A}.

Definition obj_get {A : Type} (obj : gmap string A) (k : string) : Lookup A :=
  match obj !! k with
  | Some a => Own a
  | None => if bool_decide (k ∈ object_prototype_keys) then Inherited else Absent
  end.

End JS.

(** ** The outside world *)

(** A force-subscription channel ([db.channels] entries, [ChannelSchema]). *)
Record Channel : Type := mkChannel {
  channelId : string;
  ch_username : string;
  ch_title : string
}.

#[global] Instance Channel_eq_dec : EqDecision Channel.
Proof. solve_decision. Defined.

Inductive FileType : Type := Document | Video | Audio | Photo.

#[global] Instance FileType_eq_dec : EqDecision FileType.
Proof. solve_decision. Defined.

(** The sender of an update, [ctx.from]. *)
Record From : Type := mkFrom {
  from_id : Z;
  first_name : string;
  from_username : option string
}.

(** Messages the bots send to the requesting chat.  The parameters are the
    parts of the payload that depend on data; the fixed wording is in the
    comments.
    - [MsgNotFound]: "File not found or expired." / "File not found or has
      been removed."
    - [MsgBanned]: "You are banned from using this bot."
    - [MsgJoinChannels missing]: the join prompt, one URL button per channel
      of [missing] in that order, then the [verify_sub] callback button.
    - [MsgVerificationRequired url data]: "Verification Required", a URL
      button to [url] and the "I Have Verified" button with callback [data].
    - [MsgSendError]: "Error sending file. Please contact admin."
    - [MsgInternalError]: "An error occurred. Please try again later."
    - [MsgStart text]: the configured start message.
    - [MsgVerified]: "Verification Successful!" / "Congratulations!"
    - [MsgSubscriptionOk]: "Subscription verified! ..."
    - [MsgUploaded link code]: "File Uploaded Successfully!" with the share
      link and the short code.
    - [MsgUploadError]: "Error uploading file. Please try again."
    - [MsgAdminOnly], [MsgUsage], [MsgFileDeleted], [MsgFileMissing],
      [MsgUserBanned]: answers of the admin commands. *)
Inductive Message : Type :=
| MsgNotFound
| MsgBanned
| MsgJoinChannels (missing : list Channel)
| MsgVerificationRequired (url : JS.Val) (callback_data : string)
| MsgSendError
| MsgInternalError
| MsgStart (text : string)
| MsgVerified
| MsgSubscriptionOk
| MsgUploaded (shareLink shortCode : string)
| MsgUploadError
| MsgAdminOnly
| MsgUsage
| MsgFileDeleted (code : string)
| MsgFileMissing (code : string)
| MsgUserBanned (user : Z).

(** Wording of the two error replies, the same in both bots (each is
    preceded by a cross-mark emoji in the source). *)
Definition error_text (m : Message) : option string :=
  match m with
  | MsgSendError => Some "Error sending file. Please contact admin."
  | MsgInternalError => Some "An error occurred. Please try again later."
  | _ => None
  end.

(** Records written to the log channel. *)
Inductive LogRecord : Type :=
| LogDownloaded (user : Z) (code : string)
| LogVerified (user : Z)
| LogUploaded (user : Z) (code : string).

(** Outbound calls, in the order the program issues them. *)
Inductive Call : Type :=
| GetChatMember (channel : string) (user : Z)
| AxiosGet (url : string)
| Reply (m : Message)
| AnswerCbQuery (ok : bool)
| SendFile (kind : FileType) (fileId : string) (caption : option string)
    (protect_content : bool)
| SetTimeout (message_id : Z) (ms : Z)
| LogSend (r : LogRecord)
| ForwardToLog (chat message_id : Z).

Definition is_SendFile (c : Call) : bool :=
  match c with SendFile _ _ _ _ => true | _ => false end.

Definition is_GetChatMember (c : Call) : bool :=
  match c with GetChatMember _ _ => true | _ => false end.

(** What [axios.get] does: reject (time-out, network error, non-2xx
    status) or resolve with a response whose [data] is the parsed body (a
    body that is not JSON arrives as a [JStr]). *)
Inductive AxiosResult : Type :=
| AxiosReject (message : string)
| AxiosResolve (data : JS.Json).

(** Answers of the outside world during one handler run.
    - [getChatMember c u]: [Some status], or [None] when the call rejects;
    - [axios_get url]: the shortener's answer;
    - [sendFile k f]: [Some message_id], or [None] when the send rejects;
    - [reply_ok m], [answer_ok], [log_ok]: whether these sends succeed;
    - [random n]: what the [n]-th call of [generateCode] evaluates to, that
      is [Math.random().toString(36).substr(2, 8)];
    - [now]: the value of [new Date()]. *)
Record Env : Type := mkEnv {
  getChatMember : string -> Z -> option string;
  axios_get : string -> AxiosResult;
  sendFile : FileType -> string -> option Z;
  reply_ok : Message -> bool;
  answer_ok : bool;
  log_ok : bool;
  random : nat -> string;
  now : Z
}.

(** Process configuration ([config]). *)
Record Config : Type := mkConfig {
  botUsername : string;
  logChannel : string;
  ownerId : Z;
  admins : list Z
}.

(** ** The handler monad *)

Inductive Outcome (A : Type) : Type :=
| Done (a : A)            (* the promise resolves *)
| Thrown (err : string)   (* the promise rejects *)
| OutOfFuel.              (* a loop did not finish within its fuel *)
Arguments Done {A} a.
Arguments Thrown {A} err.
Arguments OutOfFuel {A}.

Record World (S : Type) : Type := mkWorld {
  store : S;
  calls : list Call;
  drawn : nat
}.
Arguments mkWorld {S}.
Arguments store {S}.
Arguments calls {S}.
Arguments drawn {S}.

Definition M (S A : Type) : Type := World S -> Outcome A * World S.

Definition ret {S A : Type} (a : A) : M S A := fun w => (Done a, w).

Definition bind {S A B : Type} (m : M S A) (k : A -> M S B) : M S B :=
  fun w =>
    match m w with
    | (Done a, w') => k a w'
    | (Thrown e, w') => (Thrown e, w')
    | (OutOfFuel, w') => (OutOfFuel, w')
    end.

Definition throw {S A : Type} (e : string) : M S A := fun w => (Thrown e, w).

(** [try { m } catch (err) { h err }]: effects of [m] before the throw stay. *)
Definition try_catch {S A : Type} (m : M S A) (h : string -> M S A) : M S A :=
  fun w =>
    match m w with
    | (Thrown e, w') => h e w'
    | r => r
    end.

(** [p.catch(() => {})] *)
Definition swallow {S : Type} (m : M S unit) : M S unit :=
  try_catch m (fun _ => ret tt).

Definition get_store {S : Type} : M S S := fun w => (Done (store w), w).

Definition modify_store {S : Type} (f : S -> S) : M S unit :=
  fun w => (Done tt, mkWorld (f (store w)) (calls w) (drawn w)).

Definition emit {S : Type} (c : Call) : M S unit :=
  fun w => (Done tt, mkWorld (store w) (calls w ++ [c]) (drawn w)).

Declare Scope js_scope.
Delimit Scope js_scope with js.
Notation "x <- m ;; k" := (bind m (fun x => k))
  (at level 100, m at next level, right associativity) : js_scope.
Notation "m ;;; k" := (bind m (fun _ => k))
  (at level 100, right associativity) : js_scope.
Local Open Scope js_scope.

Section Transport.
Context {S : Type} (env : Env).

(** [ctx.telegram.getChatMember(channelId, userId)], giving [member.status]. *)
Definition tg_getChatMember (c : string) (u : Z) : M S string :=
  emit (GetChatMember c u) ;;;
  match getChatMember env c u with
  | Some status => ret status
  | None => throw "getChatMember"
  end.

(** [axios.get(apiUrl, ...)], giving [response.data]. *)
Definition http_get (url : string) : M S JS.Json :=
  emit (AxiosGet url) ;;;
  match axios_get env url with
  | AxiosResolve data => ret data
  | AxiosReject msg => throw msg
  end.

(** [ctx.reply(...)] *)
Definition tg_reply (m : Message) : M S unit :=
  emit (Reply m) ;;;
  if reply_ok env m then ret tt else throw "reply".

(** [ctx.reply(...)] not awaited inside a [catch] block: a rejection is
    not observed by the handler. *)
Definition tg_reply_detached (m : Message) : M S unit :=
  emit (Reply m).

(** [ctx.answerCbQuery(...)] *)
Definition tg_answerCbQuery (ok : bool) : M S unit :=
  emit (AnswerCbQuery ok) ;;;
  if answer_ok env then ret tt else throw "answerCbQuery".

(** [ctx.replyWithDocument] / [Video] / [Audio] / [Photo], giving
    [sentMsg.message_id]. *)
Definition tg_sendFile (k : FileType) (fileId : string)
    (caption : option string) (protect : bool) : M S Z :=
  emit (SendFile k fileId caption protect) ;;;
  match sendFile env k fileId with
  | Some mid => ret mid
  | None => throw "sendFile"
  end.

(** [ctx.telegram.sendMessage(config.logChannel, ...)] *)
Definition tg_log (r : LogRecord) : M S unit :=
  emit (LogSend r) ;;;
  if log_ok env then ret tt else throw "sendMessage".

(** [ctx.telegram.forwardMessage(config.logChannel, chat, message)] *)
Definition tg_forward (chat mid : Z) : M S unit :=
  emit (ForwardToLog chat mid) ;;;
  if log_ok env then ret tt else throw "forwardMessage".

(** [generateCode()]: the next draw. *)
Definition generateCode : M S string :=
  fun w => (Done (random env (drawn w)),
            mkWorld (store w) (calls w) (Datatypes.S (drawn w))).

End Transport.

(** The membership statuses that satisfy a channel requirement:
    [['member', 'administrator', 'creator'].includes(status)]. *)
Definition satisfying (status : string) : bool :=
  bool_decide (status ∈ ["member"; "administrator"; "creator"]).

(** ** The membership loop

    Both bots run the same loop inside [checkSubscription] (index.js lines
    87-97, MongoDB bot lines 561-571):
<<
    const notJoined = [];
    for (const ch of channels) {
      try {
        const member = await ctx.telegram.getChatMember(ch.channelId, ctx.from.id);
        if (!['member', 'administrator', 'creator'].includes(member.status)) {
          notJoined.push(ch);
        }
      } catch (err) {
        console.error('Subscription check error:', err.message);
      }
    }
>> *)
Section Membership.
Context {S : Type} (env : Env).

Local Open Scope js_scope.

(** One turn of the loop: the [catch] block only writes to the console. *)
Definition check_member (uid : Z) (ch : Channel) (notJoined : list Channel)
    : M S (list Channel) :=
  try_catch
    (status <- tg_getChatMember env (channelId ch) uid ;;
     if negb (satisfying status) then ret (notJoined ++ [ch])
     else ret notJoined)
    (fun _ => ret notJoined).

Fixpoint collect_notJoined (uid : Z) (chs : list Channel)
    (notJoined : list Channel) : M S (list Channel) :=
  match chs with
  | [] => ret notJoined
  | ch :: rest =>
      nj <- check_member uid ch notJoined ;;
      collect_notJoined uid rest nj
  end.

End Membership.

(** ** Uploaded media, [ctx.message]

    The upload handlers test [message.document], [.video], [.audio] and
    [.photo] in that order; [Media] is the first one present.  A photo
    arrives as its list of sizes, each with a [file_id] and a [file_size]. *)
Inductive Media : Type :=
| MediaDocument (file_id : string) (file_name : option string) (file_size : Z)
| MediaVideo (file_id : string) (file_name : option string) (file_size : Z)
| MediaAudio (file_id : string) (title file_name : option string) (file_size : Z)
| MediaPhoto (sizes : list (string * Z)).

Record Upload : Type := mkUpload {
  media : Media;
  msg_caption : option string;
  chat_id : Z;
  message_id : Z
}.

(** ** [src/index.js]: the bot over [database.json] *)

Module JsonBot.

Record User : Type := mkUser {
  verified : bool;
  verifiedAt : option Z;
  firstName : option string;
  username : option string
}.

Record File : Type := mkFile {
  fileId : string;
  fileType : FileType;
  caption : option string;
  uploadedBy : Z;
  uploadedAt : Z
}.

Record Settings : Type := mkSettings {
  adlink_domain : string;
  adlink_api : string;
  start_msg : string;
  help_msg : string;
  auto_delete : Z;
  protect_content : bool
}.

(** The global [db].  [users] is keyed by the numeric Telegram id, [files]
    by short code; both are plain objects. *)
Record Db : Type := mkDb {
  users : gmap Z User;
  files : gmap string File;
  settings : Settings;
  channels : list Channel
}.

Definition set_users (f : gmap Z User -> gmap Z User) (d : Db) : Db :=
  mkDb (f (users d)) (files d) (settings d) (channels d).

Definition set_files (f : gmap string File -> gmap string File) (d : Db) : Db :=
  mkDb (users d) (f (files d)) (settings d) (channels d).

Section Handlers.
Variable cfg : Config.
Variable env : Env.

Local Open Scope js_scope.

(** [response.data.<k>] *)
Definition prop (data : JS.Json) (k : string) : M Db JS.Val :=
  match JS.get_prop data k with
  | Some v => ret v
  | None => throw "TypeError"
  end.

(** [createShortLink(url)], index.js lines 55-81. *)
Definition createShortLink (url : string) : M Db JS.Val :=
  try_catch
    (db <- get_store ;;
     let domain := adlink_domain (settings db) in
     let api := adlink_api (settings db) in
     if negb (JS.truthy_str domain) || negb (JS.truthy_str api) then
       ret (JS.Of (JS.JStr url))
     else
       let encodedUrl := JS.encodeURIComponent url in
       let apiUrl := domain +:+ "/api?api=" +:+ api +:+ "&url=" +:+ encodedUrl in
       data <- http_get env apiUrl ;;
       status <- prop data "status" ;;
       if JS.strict_eq_str status "error" then ret (JS.Of (JS.JStr url))
       else prop data "shortenedUrl")
    (fun _ => ret (JS.Of (JS.JStr url))).

(** [checkSubscription(ctx)], lines 84-116, around the membership loop. *)
Definition checkSubscription (from : From) : M Db bool :=
  db <- get_store ;;
  if (length (channels db) =? 0)%nat then ret true
  else
    notJoined <- collect_notJoined env (from_id from) (channels db) [] ;;
    if (0 <? length notJoined)%nat then
      tg_reply env (MsgJoinChannels notJoined) ;;;
      ret false
    else ret true.

(** [autoDelete(ctx, msgId)], lines 119-126. *)
Definition autoDelete (msgId : Z) : M Db unit :=
  db <- get_store ;;
  let seconds := auto_delete (settings db) in
  if (0 <? seconds)%Z then emit (SetTimeout msgId (seconds * 1000)) else ret tt.

(** The [try] block of the start handler, lines 179-220.  For a [file]
    that is not an own record no [fileType] test succeeds, [sentMsg]
    stays [undefined] and reading [sentMsg.message_id] throws. *)
Definition deliver (from : From) (args : string) (file : JS.Lookup File)
    : M Db unit :=
  try_catch
    (db <- get_store ;;
     match file with
     | JS.Own f =>
         mid <- tg_sendFile env (fileType f) (fileId f) (caption f)
                  (protect_content (settings db)) ;;
         autoDelete mid ;;;
         swallow (tg_log env (LogDownloaded (from_id from) args))
     | JS.Inherited | JS.Absent => throw "TypeError"
     end)
    (fun _ => tg_reply_detached MsgSendError).

(** The steps after a successful lookup, lines 139-220: subscription
    check, get-or-create of the user, verification check, delivery. *)
Definition gates (from : From) (args : string) (file : JS.Lookup File)
    : M Db unit :=
  subscribed <- checkSubscription from ;;
  if negb subscribed then ret tt
  else
    let userId := from_id from in
    db <- get_store ;;
    match users db !! userId with
    | None =>
        modify_store (set_users
          (insert userId (mkUser false None (Some (first_name from))
                            (from_username from))))
    | Some _ => ret tt
    end ;;;
    db <- get_store ;;
    match users db !! userId with
    | None => throw "TypeError"
    | Some u =>
        if negb (verified u) then
          let fileUrl :=
            "https://t.me/" +:+ botUsername cfg +:+ "?start=" +:+ args in
          shortUrl <- createShortLink fileUrl ;;
          tg_reply env
            (MsgVerificationRequired shortUrl ("verify_" +:+ args))
        else deliver from args file
    end.

(** The [if (args)] branch of the start handler, lines 133-220: [file]
    is [db.files[args]], and [!file] holds when the lookup finds nothing. *)
Definition redeem (from : From) (args : string) : M Db unit :=
  db <- get_store ;;
  let file := JS.obj_get (files db) args in
  match file with
  | JS.Absent => tg_reply env MsgNotFound
  | JS.Own _ | JS.Inherited => gates from args file
  end.

(** [ctx.message.text.split(' ')[1]] *)
Definition start_arg (text : string) : option string :=
  JS.split_space text !! 1%nat.

(** [bot.start], lines 129-225. *)
Definition start (from : From) (text : string) : M Db unit :=
  if JS.truthy_opt (start_arg text) then
    match start_arg text with
    | Some args => redeem from args
    | None => ret tt
    end
  else
    db <- get_store ;;
    tg_reply env (MsgStart (start_msg (settings db))).

(** [bot.action(/verify_(.+)/)], lines 233-268. *)
Definition verify (from : From) (code : string) : M Db unit :=
  let userId := from_id from in
  db <- get_store ;;
  match users db !! userId with
  | None =>
      modify_store (set_users
        (insert userId (mkUser true (Some (now env))
                          (Some (first_name from)) (from_username from))))
  | Some u =>
      modify_store (set_users
        (insert userId (mkUser true (Some (now env))
                          (firstName u) (username u))))
  end ;;;
  tg_answerCbQuery env true ;;;
  tg_reply env MsgVerified ;;;
  swallow (tg_log env (LogVerified userId)).

(** The [fileId], [fileType] and [caption] the upload handler derives
    from the message, lines 282-304; [None] when the photo array is empty
    and indexing it throws. *)
Definition describe (up : Upload) : option (string * FileType * option string) :=
  let with_caption (c : option string) :=
    if JS.truthy_opt (msg_caption up) then msg_caption up else c in
  match media up with
  | MediaDocument fid name _ => Some (fid, Document, with_caption name)
  | MediaVideo fid name _ =>
      Some (fid, Video, with_caption (JS.or_else name (Some "Video File")))
  | MediaAudio fid title name _ =>
      Some (fid, Audio,
            with_caption (JS.or_else title (JS.or_else name (Some "Audio File"))))
  | MediaPhoto sizes =>
      match last sizes with
      | Some (fid, _) => Some (fid, Photo, with_caption (Some "Photo"))
      | None => None
      end
  end.

(** [bot.on(['document', 'video', 'audio', 'photo'])], lines 281-348.
    The result is the short code shown to the uploader.  A draw consists of
    base-36 digits, so [db.files[shortCode] = ...] creates or replaces an
    own property. *)
Definition upload (from : From) (up : Upload) : M Db string :=
  match describe up with
  | None => throw "TypeError"
  | Some (fid, ftype, cap) =>
      shortCode <- generateCode env ;;
      modify_store (set_files
        (insert shortCode (mkFile fid ftype cap (from_id from) (now env)))) ;;;
      try_catch
        (tg_forward env (chat_id up) (message_id up) ;;;
         tg_log env (LogUploaded (from_id from) shortCode))
        (fun _ => ret tt) ;;;
      let shareLink :=
        "https://t.me/" +:+ botUsername cfg +:+ "?start=" +:+ shortCode in
      tg_reply env (MsgUploaded shareLink shortCode) ;;;
      ret shortCode
  end.

End Handlers.

End JsonBot.

(** ** The MongoDB bot ([src/unnamed/part_000], lines 429-1268) *)

Module MongoBot.

(** [UserSchema], lines 447-458. *)
Record User : Type := mkUser {
  userId : Z;
  firstName : option string;
  username : option string;
  isVerified : bool;
  isBanned : bool;
  verifiedAt : option Z;
  lastActive : Z;
  filesShared : Z;
  filesAccessed : Z;
  joinedAt : Z
}.

(** [FileSchema], lines 460-473.  No handler assigns [fileUniqueId]. *)
Record File : Type := mkFile {
  fileId : string;
  fileUniqueId : option string;
  fileType : FileType;
  fileName : option string;
  fileSize : Z;
  caption : option string;
  shortCode : string;
  uploadedBy : Z;
  views : Z;
  downloads : Z;
  isActive : bool;
  createdAt : Z
}.

(** The [Setting] collection: one optional document per key the program
    reads or writes, its value typed as the program stores it. *)
Record Settings : Type := mkSettings {
  adlink_domain : option string;
  adlink_api : option string;
  start_msg : option string;
  help_msg : option string;
  auto_delete : option Z;
  protect_content : option bool
}.

(** The four collections.  Users are addressed by their unique [userId];
    files and channels are kept in insertion order, and the position of a
    file in its collection stands for its [_id] (no handler removes a file
    document). *)
Record Db : Type := mkDb {
  users : gmap Z User;
  files : list File;
  settings : Settings;
  channels : list Channel
}.

Definition set_users (f : gmap Z User -> gmap Z User) (d : Db) : Db :=
  mkDb (f (users d)) (files d) (settings d) (channels d).

Definition set_files (f : list File -> list File) (d : Db) : Db :=
  mkDb (users d) (f (files d)) (settings d) (channels d).

Definition set_views (n : Z) (f : File) : File :=
  mkFile (fileId f) (fileUniqueId f) (fileType f) (fileName f) (fileSize f)
    (caption f) (shortCode f) (uploadedBy f) n (downloads f) (isActive f)
    (createdAt f).

Definition set_downloads (n : Z) (f : File) : File :=
  mkFile (fileId f) (fileUniqueId f) (fileType f) (fileName f) (fileSize f)
    (caption f) (shortCode f) (uploadedBy f) (views f) n (isActive f)
    (createdAt f).

Definition set_isActive (b : bool) (f : File) : File :=
  mkFile (fileId f) (fileUniqueId f) (fileType f) (fileName f) (fileSize f)
    (caption f) (shortCode f) (uploadedBy f) (views f) (downloads f) b
    (createdAt f).

Definition set_filesAccessed (n : Z) (u : User) : User :=
  mkUser (userId u) (firstName u) (username u) (isVerified u) (isBanned u)
    (verifiedAt u) (lastActive u) (filesShared u) n (joinedAt u).

Definition set_filesShared (n : Z) (u : User) : User :=
  mkUser (userId u) (firstName u) (username u) (isVerified u) (isBanned u)
    (verifiedAt u) (lastActive u) n (filesAccessed u) (joinedAt u).

(** Values an update document assigns to user paths. *)
Inductive UVal : Type :=
| UBool (b : bool)
| UStr (s : option string)
| UDate (t : Z).

(** One [path: value] pair of an update applied to a user document.  The
    schema is strict: a path it does not declare is dropped. *)
Definition set_path (u : User) (kv : string * UVal) : User :=
  match kv with
  | (k, UStr s) =>
      if String.eqb k "firstName" then
        mkUser (userId u) s (username u) (isVerified u) (isBanned u)
          (verifiedAt u) (lastActive u) (filesShared u) (filesAccessed u)
          (joinedAt u)
      else if String.eqb k "username" then
        mkUser (userId u) (firstName u) s (isVerified u) (isBanned u)
          (verifiedAt u) (lastActive u) (filesShared u) (filesAccessed u)
          (joinedAt u)
      else u
  | (k, UBool b) =>
      if String.eqb k "isVerified" then
        mkUser (userId u) (firstName u) (username u) b (isBanned u)
          (verifiedAt u) (lastActive u) (filesShared u) (filesAccessed u)
          (joinedAt u)
      else if String.eqb k "isBanned" then
        mkUser (userId u) (firstName u) (username u) (isVerified u) b
          (verifiedAt u) (lastActive u) (filesShared u) (filesAccessed u)
          (joinedAt u)
      else u
  | (k, UDate t) =>
      if String.eqb k "verifiedAt" then
        mkUser (userId u) (firstName u) (username u) (isVerified u)
          (isBanned u) (Some t) (lastActive u) (filesShared u)
          (filesAccessed u) (joinedAt u)
      else if String.eqb k "lastActive" then
        mkUser (userId u) (firstName u) (username u) (isVerified u)
          (isBanned u) (verifiedAt u) t (filesShared u) (filesAccessed u)
          (joinedAt u)
      else if String.eqb k "joinedAt" then
        mkUser (userId u) (firstName u) (username u) (isVerified u)
          (isBanned u) (verifiedAt u) (lastActive u) (filesShared u)
          (filesAccessed u) t
      else u
  end.

Definition apply_update (upd : list (string * UVal)) (u : User) : User :=
  fold_left set_path upd u.

(** A user document holding only the schema defaults. *)
Definition new_user (uid : Z) (t : Z) : User :=
  mkUser uid None None false false None t 0 0 t.

(** [User.findOneAndUpdate({ userId }, upd, { upsert: true })] *)
Definition upsert_user (uid : Z) (t : Z) (upd : list (string * UVal))
    (us : gmap Z User) : gmap Z User :=
  match us !! uid with
  | Some u => <[uid := apply_update upd u]> us
  | None => <[uid := apply_update upd (new_user uid t)]> us
  end.

(** Whether the document [g] of the collection stands in the way of
    inserting [f]: [FileSchema] declares [fileUniqueId] and [shortCode]
    unique (lines 462 and 467), and the index on [fileUniqueId] holds every
    document without the field under the one key [null]. *)
Definition clashes (f g : File) : bool :=
  bool_decide (fileUniqueId g = fileUniqueId f)
  || String.eqb (shortCode g) (shortCode f).

(** [File.findOne(filter)]: the first matching document and its position. *)
Fixpoint findOne_from (i : nat) (p : File -> bool) (fs : list File)
    : option (nat * File) :=
  match fs with
  | [] => None
  | f :: rest => if p f then Some (i, f) else findOne_from (Datatypes.S i) p rest
  end.

Definition findOne (p : File -> bool) (fs : list File) : option (nat * File) :=
  findOne_from 0 p fs.

(** The filter [{ shortCode: code, isActive: true }]. *)
Definition active_with_code (code : string) (f : File) : bool :=
  String.eqb (shortCode f) code && isActive f.

(** The filter [{ shortCode: code }]. *)
Definition with_code (code : string) (f : File) : bool :=
  String.eqb (shortCode f) code.

Section Handlers.
Variable cfg : Config.
Variable env : Env.

Local Open Scope js_scope.

Definition isOwner (uid : Z) : bool := bool_decide (uid = ownerId cfg).

Definition isAdmin (uid : Z) : bool :=
  bool_decide (uid ∈ admins cfg) || isOwner uid.

(** [response.data.<k>] *)
Definition prop (data : JS.Json) (k : string) : M Db JS.Val :=
  match JS.get_prop data k with
  | Some v => ret v
  | None => throw "TypeError"
  end.

(** [createShortLink(url)], lines 528-553.  [getSetting(key)] is the
    stored value or [null]. *)
Definition createShortLink (url : string) : M Db JS.Val :=
  try_catch
    (db <- get_store ;;
     let domain := adlink_domain (settings db) in
     let api := adlink_api (settings db) in
     if negb (JS.truthy_opt domain) || negb (JS.truthy_opt api) then
       ret (JS.Of (JS.JStr url))
     else
       let encodedUrl := JS.encodeURIComponent url in
       let apiUrl :=
         default "" domain +:+ "/api?api=" +:+ default "" api
           +:+ "&url=" +:+ encodedUrl in
       data <- http_get env apiUrl ;;
       status <- prop data "status" ;;
       if JS.strict_eq_str status "error" then ret (JS.Of (JS.JStr url))
       else prop data "shortenedUrl")
    (fun _ => ret (JS.Of (JS.JStr url))).

(** [checkSubscription(ctx)], lines 556-595: the outer [catch] answers
    [true]. *)
Definition checkSubscription (from : From) : M Db bool :=
  try_catch
    (db <- get_store ;;
     if (length (channels db) =? 0)%nat then ret true
     else
       notJoined <- collect_notJoined env (from_id from) (channels db) [] ;;
       if (0 <? length notJoined)%nat then
         tg_reply env (MsgJoinChannels notJoined) ;;;
         ret false
       else ret true)
    (fun _ => ret true).

(** [autoDelete(ctx, msgId)], lines 598-609.  The function first awaits
    the setting and the caller does not await the function: the call
    returns at that [await], the caller goes on to its next statement,
    and the timer is set when the setting has arrived.  [autoDelete] is
    that second part; the caller places it after the statement that
    follows the call. *)
Definition autoDelete (msgId : Z) : M Db unit :=
  try_catch
    (db <- get_store ;;
     let seconds := default 0 (auto_delete (settings db)) in
     if (0 <? seconds)%Z then emit (SetTimeout msgId (seconds * 1000))
     else ret tt)
    (fun _ => ret tt).

(** [updateUserActivity(userId, data)], lines 612-625. *)
Definition updateUserActivity (uid : Z) (data : list (string * UVal))
    : M Db unit :=
  try_catch
    (modify_store (set_users
       (upsert_user uid (now env) (data ++ [("lastActive", UDate (now env))]))))
    (fun _ => ret tt).

(** The inner [try] block of the start handler, lines 683-734; [i] is the
    position of [file] in its collection.  The call [autoDelete(ctx, ...)]
    of line 716 is not awaited: the log message of lines 719-729, the last
    statement of the block, is sent before the timer is set. *)
Definition deliver (from : From) (args : string) (i : nat) (file : File)
    (user : User) : M Db unit :=
  try_catch
    (db <- get_store ;;
     let protectContent := default false (protect_content (settings db)) in
     mid <- tg_sendFile env (fileType file) (fileId file) (caption file)
              protectContent ;;
     modify_store (set_files (alter (set_downloads (downloads file + 1)) i)) ;;;
     modify_store (set_users
       (alter (set_filesAccessed (filesAccessed user + 1)) (from_id from))) ;;;
     swallow (tg_log env (LogDownloaded (from_id from) args)) ;;;
     autoDelete mid)
    (fun _ => tg_reply_detached MsgSendError).

(** The verification branch, lines 655-680; the reply is the value the
    handler returns. *)
Definition challenge (args : string) (i : nat) (file : File)
    : M Db (option Message) :=
  let fileUrl := "https://t.me/" +:+ botUsername cfg +:+ "?start=" +:+ args in
  shortUrl <- createShortLink fileUrl ;;
  modify_store (set_files (alter (set_views (views file + 1)) i)) ;;;
  ret (Some (MsgVerificationRequired shortUrl ("verify_" +:+ args))).

(** The [if (args)] branch of the start handler, lines 638-734.  A result
    [Some m] stands for [return ctx.reply(m)]: the reply is the last
    action and its promise becomes the handler's. *)
Definition redeem (from : From) (args : string) : M Db (option Message) :=
  db <- get_store ;;
  match findOne (active_with_code args) (files db) with
  | None => ret (Some MsgNotFound)
  | Some (i, file) =>
      let user := users db !! from_id from in
      if match user with Some u => isBanned u | None => false end then
        ret (Some MsgBanned)
      else
        subscribed <- checkSubscription from ;;
        if negb subscribed then ret None
        else
          match user with
          | Some u =>
              if negb (isVerified u) then challenge args i file
              else deliver from args i file u ;;; ret None
          | None => challenge args i file
          end
  end.

(** [ctx.message.text.split(' ')[1]] *)
Definition start_arg (text : string) : option string :=
  JS.split_space text !! 1%nat.

(** The default of [getSetting('start_msg', ...)], lines 737-742, reduced
    to its first sentence. *)
Definition default_start_msg : string :=
  "Welcome to File Store Bot!".

(** [bot.start], lines 628-749.  A returned reply is sent outside the
    handler's [try]: its rejection is the handler's, not an error the
    [catch] block sees. *)
Definition start (from : From) (text : string) : M Db unit :=
  r <- try_catch
         (updateUserActivity (from_id from)
            [("firstName", UStr (Some (first_name from)));
             ("username", UStr (from_username from))] ;;;
          if JS.truthy_opt (start_arg text) then
            match start_arg text with
            | Some args => redeem from args
            | None => ret None
            end
          else
            db <- get_store ;;
            tg_reply env
              (MsgStart (default default_start_msg (start_msg (settings db)))) ;;;
            ret None)
         (fun _ => tg_reply_detached MsgInternalError ;;; ret None) ;;
  match r with
  | Some m => tg_reply env m
  | None => ret tt
  end.

(** [bot.action(/verify_(.+)/)], lines 779-816.  The update document
    names the path [verified]. *)
Definition verify (from : From) (code : string) : M Db unit :=
  try_catch
    (modify_store (set_users
       (upsert_user (from_id from) (now env)
          [("verified", UBool true);
           ("verifiedAt", UDate (now env));
           ("firstName", UStr (Some (first_name from)));
           ("username", UStr (from_username from))])) ;;;
     tg_answerCbQuery env true ;;;
     tg_reply env MsgVerified ;;;
     swallow (tg_log env (LogVerified (from_id from))))
    (fun _ => emit (AnswerCbQuery false)).

(** The fields the upload handler derives from the message, lines
    831-854: [fileId], [fileType], [fileName], [fileSize]. *)
Definition describe (up : Upload)
    : option (string * FileType * option string * Z) :=
  match media up with
  | MediaDocument fid name size => Some (fid, Document, name, size)
  | MediaVideo fid name size =>
      Some (fid, Video, JS.or_else name (Some "Video"), size)
  | MediaAudio fid title name size =>
      Some (fid, Audio,
            JS.or_else title (JS.or_else name (Some "Audio")), size)
  | MediaPhoto sizes =>
      match last sizes with
      | Some (fid, size) => Some (fid, Photo, Some "Photo", size)
      | None => None
      end
  end.

(** The [while (!isUnique)] loop, lines 859-865, run for at most [fuel]
    draws. *)
Fixpoint fresh_code (fuel : nat) : M Db string :=
  match fuel with
  | O => fun w => (OutOfFuel, w)
  | Datatypes.S n =>
      shortCode <- generateCode env ;;
      db <- get_store ;;
      match findOne (with_code shortCode) (files db) with
      | None => ret shortCode
      | Some _ => fresh_code n
      end
  end.

(** [User.findOneAndUpdate({ userId }, { $inc: { filesShared: 1 } },
    { upsert: true })] *)
Definition inc_filesShared (uid : Z) (us : gmap Z User) : gmap Z User :=
  match us !! uid with
  | Some u => <[uid := set_filesShared (filesShared u + 1) u]> us
  | None => <[uid := set_filesShared 1 (new_user uid (now env))]> us
  end.

(** [new File({...}).save()], lines 868-877: the insert is refused with
    a duplicate-key error when a document of the collection clashes with
    the new one. *)
Definition save_new (f : File) : M Db unit :=
  db <- get_store ;;
  if existsb (clashes f) (files db) then throw "E11000 duplicate key"
  else modify_store (set_files (fun fs => fs ++ [f])).

(** [bot.on(['document', 'video', 'audio', 'photo'])], lines 829-934.
    The result is the short code given to the uploader, or [None] after
    the error reply.  The new document is built without [fileUniqueId]. *)
Definition upload (fuel : nat) (from : From) (up : Upload)
    : M Db (option string) :=
  try_catch
    (match describe up with
     | None => throw "TypeError"
     | Some (fid, ftype, fname, fsize) =>
         let cap := JS.or_else (msg_caption up) fname in
         shortCode <- fresh_code fuel ;;
         save_new (mkFile fid None ftype fname fsize cap shortCode
                     (from_id from) 0 0 true (now env)) ;;;
         modify_store (set_users (inc_filesShared (from_id from))) ;;;
         try_catch
           (tg_forward env (chat_id up) (message_id up) ;;;
            tg_log env (LogUploaded (from_id from) shortCode))
           (fun _ => ret tt) ;;;
         let shareLink :=
           "https://t.me/" +:+ botUsername cfg +:+ "?start=" +:+ shortCode in
         tg_reply env (MsgUploaded shareLink shortCode) ;;;
         ret (Some shortCode)
     end)
    (fun _ => tg_reply_detached MsgUploadError ;;; ret None).

(** [/deletefile <code>], lines 1045-1063: the soft delete. *)
Definition deletefile (from : From) (code : option string) : M Db unit :=
  if negb (isAdmin (from_id from)) then tg_reply env MsgAdminOnly
  else if negb (JS.truthy_opt code) then tg_reply env MsgUsage
  else
    let c := default "" code in
    db <- get_store ;;
    match findOne (with_code c) (files db) with
    | Some (i, _) =>
        modify_store (set_files (alter (set_isActive false) i)) ;;;
        tg_reply_detached (MsgFileDeleted c)
    | None => tg_reply_detached (MsgFileMissing c)
    end.

(** [/ban <user_id>], lines 1010-1025; [target] is the parsed id, [None]
    when it is not a number. *)
Definition ban (from : From) (target : option Z) : M Db unit :=
  if negb (isAdmin (from_id from)) then tg_reply env MsgAdminOnly
  else
    match target with
    | None => tg_reply env MsgUsage
    | Some uid =>
        if (uid =? 0)%Z then tg_reply env MsgUsage
        else
          modify_store (set_users
            (upsert_user uid (now env) [("isBanned", UBool true)])) ;;;
          tg_reply_detached (MsgUserBanned uid)
    end.

End Handlers.

End MongoBot.

(** ** Observations on runs *)

(** A handler run starts with an empty call log. *)
Definition fresh {S : Type} (db : S) (n : nat) : World S := mkWorld db [] n.

(** The world after the calls [cs] were issued. *)
Definition logged {S : Type} (cs : list Call) (w : World S) : World S :=
  mkWorld (store w) (calls w ++ cs) (drawn w).

(** The world with its database replaced. *)
Definition stored {S : Type} (s : S) (w : World S) : World S :=
  mkWorld s (calls w) (drawn w).

(** A file was handed to the transport. *)
Definition delivered (cs : list Call) : Prop :=
  Exists (fun c => is_SendFile c = true) cs.

(** *** Subscription gate *)

(** The membership queries of one subscription check, in channel order. *)
Definition queries (uid : Z) (chs : list Channel) : list Call :=
  map (fun ch => GetChatMember (channelId ch) uid) chs.

(** A channel counts as not joined when its query answers with a status
    outside the satisfying three. *)
Definition not_joined (env : Env) (uid : Z) (ch : Channel) : bool :=
  match getChatMember env (channelId ch) uid with
  | Some status => negb (satisfying status)
  | None => false
  end.

(** The channels of [chs] that count as not joined, in the order of [chs]. *)
Definition missing (env : Env) (uid : Z) (chs : list Channel) : list Channel :=
  List.filter (not_joined env uid) chs.

(** A channel lets the user through when its query answers with a
    satisfying status or fails. *)
Definition lets_through (env : Env) (uid : Z) (ch : Channel) : Prop :=
  match getChatMember env (channelId ch) uid with
  | Some status => satisfying status = true
  | None => True
  end.

(** Membership of the channel is established: the query answers with a
    satisfying status. *)
Definition subscribed (env : Env) (uid : Z) (ch : Channel) : Prop :=
  exists status, getChatMember env (channelId ch) uid = Some status
                 /\ satisfying status = true.

(** The calls of one subscription check: the membership queries, then the
    join prompt if some channel counts as not joined. *)
Definition gate_calls (env : Env) (uid : Z) (chs : list Channel) : list Call :=
  queries uid chs ++
  match missing env uid chs with
  | [] => []
  | m => [Reply (MsgJoinChannels m)]
  end.

(** The subscription check of the MongoDB bot answers [true]: no channel
    counts as not joined, or the join prompt could not be sent. *)
Definition gate_open (env : Env) (uid : Z) (chs : list Channel) : Prop :=
  match missing env uid chs with
  | [] => True
  | m => reply_ok env (MsgJoinChannels m) = false
  end.

(** *** Verification gate *)

(** The deep link back to a file, [https://t.me/<bot>?start=<code>]. *)
Definition deep_link (cfg : Config) (code : string) : string :=
  "https://t.me/" +:+ botUsername cfg +:+ "?start=" +:+ code.

(** The request URL of the shortener, [${domain}/api?api=${api}&url=...]. *)
Definition api_url (domain api url : string) : string :=
  domain +:+ "/api?api=" +:+ api +:+ "&url=" +:+ JS.encodeURIComponent url.

(** What the shortener call contributes to a link: the fallback [url]
    when the request rejects, the body is [null] or reports an error, and
    whatever the body holds under [shortenedUrl] otherwise. *)
Definition shortener_answer (env : Env) (apiUrl url : string) : JS.Val :=
  match axios_get env apiUrl with
  | AxiosReject _ => JS.Of (JS.JStr url)
  | AxiosResolve data =>
      match JS.get_prop data "status" with
      | None => JS.Of (JS.JStr url)
      | Some status =>
          if JS.strict_eq_str status "error" then JS.Of (JS.JStr url)
          else default (JS.Of (JS.JStr url)) (JS.get_prop data "shortenedUrl")
      end
  end.

(** What [createShortLink] yields and which calls it makes, given the
    configured domain and API key. *)
Definition issued (env : Env) (domain api : option string) (url : string)
    : JS.Val * list Call :=
  if JS.truthy_opt domain && JS.truthy_opt api then
    let apiUrl := api_url (default "" domain) (default "" api) url in
    (shortener_answer env apiUrl url, [AxiosGet apiUrl])
  else (JS.Of (JS.JStr url), []).

(** *** Redemption *)

(** The record [bot.start] of [src/index.js] creates for a sender it has
    not seen. *)
Definition newcomer (from : From) : JsonBot.User :=
  JsonBot.mkUser false None (Some (first_name from)) (from_username from).

(** The update [bot.start] of the MongoDB bot applies to the sender's
    record. *)
Definition touched (env : Env) (from : From) (u : MongoBot.User) : MongoBot.User :=
  MongoBot.apply_update
    [("firstName", MongoBot.UStr (Some (first_name from)));
     ("username", MongoBot.UStr (from_username from));
     ("lastActive", MongoBot.UDate (now env))] u.

(** The MongoDB database as [bot.start] leaves it after recording the
    sender's activity. *)
Definition seen (env : Env) (from : From) (db : MongoBot.Db) : MongoBot.Db :=
  MongoBot.set_users
    (MongoBot.upsert_user (from_id from) (now env)
       [("firstName", MongoBot.UStr (Some (first_name from)));
        ("username", MongoBot.UStr (from_username from));
        ("lastActive", MongoBot.UDate (now env))]) db.

(** The timer calls of [autoDelete] for a message. *)
Definition purge_calls (seconds : Z) (mid : Z) : list Call :=
  if (0 <? seconds)%Z then [SetTimeout mid (seconds * 1000)] else [].

(** *** Upload *)

(** An upload whose photo array, if it is a photo, has at least one size. *)
Definition well_formed (up : Upload) : Prop :=
  match media up with
  | MediaPhoto [] => False
  | _ => True
  end.

(** The short codes of all file documents, active or not. *)
Definition codes (db : MongoBot.Db) : list string :=
  map MongoBot.shortCode (MongoBot.files db).

(** The kind of the media of a message. *)
Definition media_kind (m : Media) : FileType :=
  match m with
  | MediaDocument _ _ _ => Document
  | MediaVideo _ _ _ => Video
  | MediaAudio _ _ _ _ => Audio
  | MediaPhoto _ => Photo
  end.

(** The Telegram file id of the media of a message; a photo comes in
    several sizes, the largest last. *)
Definition media_file_id (m : Media) : option string :=
  match m with
  | MediaDocument fid _ _ | MediaVideo fid _ _ | MediaAudio fid _ _ _ => Some fid
  | MediaPhoto sizes => fst <$> last sizes
  end.

(** The file collection takes a document without [fileUniqueId]: none of
    its documents lacks the field.  The upload handler never sets the
    field, so a collection it has inserted into no longer does. *)
Definition takes_upload (db : MongoBot.Db) : Prop :=
  Forall (fun f => MongoBot.fileUniqueId f <> None) (MongoBot.files db).

(** The calls of the log-channel block of an upload: the forward, then
    the record unless the forward failed. *)
Definition upload_log (env : Env) (from : From) (up : Upload) (code : string)
    : list Call :=
  ForwardToLog (chat_id up) (message_id up)
    :: (if log_ok env then [LogSend (LogUploaded (from_id from) code)] else []).

(** ** A running example *)

Definition ex_cfg : Config := mkConfig "filestorebot" "-1001000" 1 [1; 2].

Definition ex_channel : Channel := mkChannel "-1001234" "@updates" "Updates".

(** The requester. *)
Definition ada : From := mkFrom 42 "Ada" (Some "ada").

(** The owner of the bot. *)
Definition root : From := mkFrom 1 "Root" None.

(** A shortener answer of the expected shape. *)
Definition ex_short_body : JS.Json :=
  JS.JObj [("status", JS.JStr "success");
           ("shortenedUrl", JS.JStr "https://sho.rt/x1")].

(** A world in which every outside call succeeds and the requester is a
    member of every channel. *)
Definition ex_env : Env :=
  mkEnv (fun _ _ => Some "member") (fun _ => AxiosResolve ex_short_body)
    (fun _ _ => Some 900) (fun _ => true) true true (fun _ => "a1b2c3d4")
    1700000000.

(** The same world, except that membership queries fail. *)
Definition env_query_fails : Env :=
  mkEnv (fun _ _ => None) (axios_get ex_env) (sendFile ex_env)
    (reply_ok ex_env) true true (random ex_env) (now ex_env).

(** The requester has left the channel and the join prompt cannot be sent. *)
Definition env_left_prompt_fails : Env :=
  mkEnv (fun _ _ => Some "left") (axios_get ex_env) (sendFile ex_env)
    (fun m => match m with MsgJoinChannels _ => false | _ => true end)
    true true (random ex_env) (now ex_env).

(** The requester has left the channel, the join prompt cannot be sent
    and the transport refuses the file. *)
Definition env_left_nothing_sent : Env :=
  mkEnv (fun _ _ => Some "left") (axios_get ex_env) (fun _ _ => None)
    (fun m => match m with MsgJoinChannels _ => false | _ => true end)
    true true (random ex_env) (now ex_env).

(** The transport refuses the file. *)
Definition env_send_fails : Env :=
  mkEnv (getChatMember ex_env) (axios_get ex_env) (fun _ _ => None)
    (reply_ok ex_env) true true (random ex_env) (now ex_env).

(** The shortener answers 200 with a body that has no [shortenedUrl]. *)
Definition env_bad_body : Env :=
  mkEnv (getChatMember ex_env)
    (fun _ => AxiosResolve (JS.JObj [("status", JS.JStr "success")]))
    (sendFile ex_env) (reply_ok ex_env) true true (random ex_env) (now ex_env).

(** The shortener answers 200 with an HTML page. *)
Definition env_html_body : Env :=
  mkEnv (getChatMember ex_env)
    (fun _ => AxiosResolve (JS.JStr "<html>Bad gateway</html>"))
    (sendFile ex_env) (reply_ok ex_env) true true (random ex_env) (now ex_env).

Definition ex_json_file : JsonBot.File :=
  JsonBot.mkFile "BQACAgQAAx0" Document (Some "report.pdf") 7 1690000000.

(** [database.json] with one file, one channel, a configured shortener and
    the requester already verified. *)
Definition ex_jdb : JsonBot.Db :=
  JsonBot.mkDb
    {[ 42 := JsonBot.mkUser true (Some 1695000000) (Some "Ada") (Some "ada") ]}
    {[ "a1b2c3d4" := ex_json_file ]}
    (JsonBot.mkSettings "https://sho.rt" "KEY" "Welcome" "Help" 60 false)
    [ex_channel].

(** The same database with the requester not verified yet. *)
Definition ex_jdb_unverified : JsonBot.Db :=
  JsonBot.mkDb
    {[ 42 := JsonBot.mkUser false None (Some "Ada") (Some "ada") ]}
    (JsonBot.files ex_jdb) (JsonBot.settings ex_jdb) (JsonBot.channels ex_jdb).

Definition ex_upload : Upload :=
  mkUpload (MediaDocument "BQACAgQAAx1" (Some "notes.txt") 2048) None 42 314.

Definition ex_mongo_file : MongoBot.File :=
  MongoBot.mkFile "BQACAgQAAx0" None Document (Some "report.pdf") 4096
    (Some "report.pdf") "a1b2c3d4" 7 3 5 true 1690000000.

Definition ex_mongo_user (verified banned : bool) : MongoBot.User :=
  MongoBot.mkUser 42 (Some "Ada") (Some "ada") verified banned None
    1695000000 0 2 1690000000.

(** The collections with one active file, one channel, a configured
    shortener and the requester in the given state. *)
Definition ex_mdb (verified banned : bool) : MongoBot.Db :=
  MongoBot.mkDb {[ 42 := ex_mongo_user verified banned ]} [ex_mongo_file]
    (MongoBot.mkSettings (Some "https://sho.rt") (Some "KEY") None None
       (Some 60) None)
    [ex_channel].

(** The same collections before the first upload. *)
Definition ex_mdb_empty (verified banned : bool) : MongoBot.Db :=
  MongoBot.mkDb {[ 42 := ex_mongo_user verified banned ]} []
    (MongoBot.settings (ex_mdb verified banned)) [ex_channel].

(** The collections after the owner ran [/deletefile a1b2c3d4]. *)
Definition ex_mdb_deleted : MongoBot.Db :=
  store (snd (MongoBot.deletefile ex_cfg ex_env root (Some "a1b2c3d4")
                (fresh (ex_mdb true true) 0))).

(** The first draw is a code already issued, the second is new. *)
Definition env_redraw : Env :=
  mkEnv (getChatMember ex_env) (axios_get ex_env) (sendFile ex_env)
    (reply_ok ex_env) true true
    (fun n => match n with O => "a1b2c3d4" | _ => "k9z8y7x6" end)
    (now ex_env).

(** ** Admin commands of [src/index.js]

    Each command first tests [isAdmin(ctx.from.id)], changes [db], saves it
    and answers with [ctx.reply].  No command looks at what becomes of its
    answer, so a command is a function from the database to the new
    database and the answer it sends. *)

Module JsonAdmin.

(** What a command answers.
    - [AdminOnly]: "This command is only for admins."
    - [Usage]: the usage text of the command.
    - [AdlinkUpdated domain key]: "AdLinkFly Configuration Updated!" with
      the new domain and the first ten characters of the new key.
    - [AutoDeleteDisabled]: "Auto-delete disabled!"
    - [AutoDeleteSet seconds]: "Auto-delete set to ... seconds (...
      minutes)!"
    - [ChannelExists]: "This channel is already added!"
    - [ChannelAdded username title]: "Channel Added Successfully!"
    - [ChannelError]: "Error adding channel!"
    - [ChannelRemoved username]: "Channel ... removed successfully!"
    - [ChannelNotListed username]: "Channel ... not found in the list."
    - [ProtectEnabled] / [ProtectDisabled] *)
Inductive Answer : Type :=
| AdminOnly
| Usage
| AdlinkUpdated (domain key : string)
| AutoDeleteDisabled
| AutoDeleteSet (seconds : Z)
| ChannelExists
| ChannelAdded (username title : string)
| ChannelError
| ChannelRemoved (username : string)
| ChannelNotListed (username : string)
| ProtectEnabled
| ProtectDisabled.

Definition set_settings (f : JsonBot.Settings -> JsonBot.Settings)
    (d : JsonBot.Db) : JsonBot.Db :=
  JsonBot.mkDb (JsonBot.users d) (JsonBot.files d) (f (JsonBot.settings d))
    (JsonBot.channels d).

Definition set_channels (f : list Channel -> list Channel) (d : JsonBot.Db)
    : JsonBot.Db :=
  JsonBot.mkDb (JsonBot.users d) (JsonBot.files d) (JsonBot.settings d)
    (f (JsonBot.channels d)).

Definition set_adlink (domain api : string) (st : JsonBot.Settings)
    : JsonBot.Settings :=
  JsonBot.mkSettings domain api (JsonBot.start_msg st) (JsonBot.help_msg st)
    (JsonBot.auto_delete st) (JsonBot.protect_content st).

Definition set_auto_delete (seconds : Z) (st : JsonBot.Settings)
    : JsonBot.Settings :=
  JsonBot.mkSettings (JsonBot.adlink_domain st) (JsonBot.adlink_api st)
    (JsonBot.start_msg st) (JsonBot.help_msg st) seconds
    (JsonBot.protect_content st).

Definition set_protect_content (b : bool) (st : JsonBot.Settings)
    : JsonBot.Settings :=
  JsonBot.mkSettings (JsonBot.adlink_domain st) (JsonBot.adlink_api st)
    (JsonBot.start_msg st) (JsonBot.help_msg st) (JsonBot.auto_delete st) b.

(** [username.startsWith('@')] *)
Definition startsWith_at (s : string) : bool :=
  match s with
  | String c _ => Ascii.eqb c "@"%char
  | EmptyString => false
  end.

Section Commands.
Variable cfg : Config.

(** [isAdmin], line 51. *)
Definition isAdmin (userId : Z) : bool := bool_decide (userId ∈ admins cfg).

(** [/setadlink <domain> <api_key>], lines 351-377, with
    [args = ctx.message.text.split(' ').slice(1)]. *)
Definition setadlink (from : From) (text : string) (db : JsonBot.Db)
    : JsonBot.Db * Answer :=
  if negb (isAdmin (from_id from)) then (db, AdminOnly)
  else
    match drop 1 (JS.split_space text) with
    | domain :: key :: _ =>
        (set_settings (set_adlink domain key) db,
         AdlinkUpdated domain (String.substring 0 10 key))
    | _ => (db, Usage)
    end.

(** [/autodelete <seconds>], lines 422-447.  [seconds] is the value of
    [parseInt(ctx.message.text.split(' ')[1])], [None] when it is [NaN]. *)
Definition autodelete (from : From) (seconds : option Z) (db : JsonBot.Db)
    : JsonBot.Db * Answer :=
  if negb (isAdmin (from_id from)) then (db, AdminOnly)
  else
    match seconds with
    | None => (db, Usage)
    | Some s =>
        (set_settings (set_auto_delete s) db,
         if (s =? 0)%Z then AutoDeleteDisabled else AutoDeleteSet s)
    end.

(** [/protect <on/off>], lines 548-572. *)
Definition protect (from : From) (text : string) (db : JsonBot.Db)
    : JsonBot.Db * Answer :=
  if negb (isAdmin (from_id from)) then (db, AdminOnly)
  else
    match JS.split_space text !! 1%nat with
    | Some arg =>
        if String.eqb arg "on" then
          (set_settings (set_protect_content true) db, ProtectEnabled)
        else if String.eqb arg "off" then
          (set_settings (set_protect_content false) db, ProtectDisabled)
        else (db, Usage)
    | None => (db, Usage)
    end.

(** [/addchannel @channelname], lines 450-499.  [getChat username] is what
    [ctx.telegram.getChat] resolves to, as [chat.id.toString()] and
    [chat.title], or [None] when it rejects. *)
Definition addchannel (getChat : string -> option (string * string))
    (from : From) (text : string) (db : JsonBot.Db) : JsonBot.Db * Answer :=
  if negb (isAdmin (from_id from)) then (db, AdminOnly)
  else
    match JS.split_space text !! 1%nat with
    | None => (db, Usage)
    | Some username =>
        if negb (JS.truthy_str username) || negb (startsWith_at username) then
          (db, Usage)
        else
          match getChat username with
          | None => (db, ChannelError)
          | Some (id, title) =>
              match List.find (fun ch => String.eqb (channelId ch) id)
                      (JsonBot.channels db) with
              | Some _ => (db, ChannelExists)
              | None =>
                  (set_channels
                     (fun chs => chs ++ [mkChannel id username title]) db,
                   ChannelAdded username title)
              end
          end
    end.

(** [/removechannel @channelname], lines 502-525. *)
Definition removechannel (from : From) (text : string) (db : JsonBot.Db)
    : JsonBot.Db * Answer :=
  if negb (isAdmin (from_id from)) then (db, AdminOnly)
  else
    match JS.split_space text !! 1%nat with
    | None => (db, Usage)
    | Some username =>
        if negb (JS.truthy_str username) then (db, Usage)
        else
          let before := length (JsonBot.channels db) in
          let db' :=
            set_channels
              (List.filter
                 (fun ch => negb (String.eqb (ch_username ch) username)))
              db in
          (db',
           if (length (JsonBot.channels db') <? before)%nat
           then ChannelRemoved username else ChannelNotListed username)
    end.

End Commands.

(** [bot.action('verify_sub')], lines 271-278: the body of the handler.
    It is registered after the handler of the pattern [/verify_(.+)/]
    (line 233), which the data [verify_sub] matches as well, with the
    code [sub]; this definition is what runs when the update reaches the
    handler, and says nothing on which of the two the dispatcher picks. *)
Definition verify_sub (env : Env) (from : From) : M JsonBot.Db unit :=
  ok <- JsonBot.checkSubscription env from ;;
  if ok then
    tg_answerCbQuery env true ;;;
    tg_reply env MsgSubscriptionOk
  else tg_answerCbQuery env false.

End JsonAdmin.

(** ** Admin commands of the MongoDB bot *)

Module MongoAdmin.

(** What a command answers.
    - [AdminOnly]: "Admin only command."
    - [Usage]: the usage text of the command.
    - [AdlinkUpdated domain key]: "AdLinkFly Updated!"
    - [AutoDeleteSet seconds]: "Auto-delete set to ...s!"
    - [ChannelExists]: "Channel already added!"
    - [ChannelAdded username]: "Channel ... added!"
    - [ChannelError]: "Error! Make sure bot is admin in the channel."
    - [ChannelRemoved username]: "Channel ... removed!"
    - [ProtectEnabled] / [ProtectDisabled]
    - [Unbanned user]: "User ... has been unbanned." *)
Inductive Answer : Type :=
| AdminOnly
| Usage
| AdlinkUpdated (domain key : string)
| AutoDeleteSet (seconds : Z)
| ChannelExists
| ChannelAdded (username : string)
| ChannelError
| ChannelRemoved (username : string)
| ProtectEnabled
| ProtectDisabled
| Unbanned (user : Z).

Definition set_settings (f : MongoBot.Settings -> MongoBot.Settings)
    (d : MongoBot.Db) : MongoBot.Db :=
  MongoBot.mkDb (MongoBot.users d) (MongoBot.files d) (f (MongoBot.settings d))
    (MongoBot.channels d).

Definition set_channels (f : list Channel -> list Channel) (d : MongoBot.Db)
    : MongoBot.Db :=
  MongoBot.mkDb (MongoBot.users d) (MongoBot.files d) (MongoBot.settings d)
    (f (MongoBot.channels d)).

(** [setSetting('adlink_domain', domain)] then
    [setSetting('adlink_api', api)], lines 509-515. *)
Definition set_adlink (domain api : string) (st : MongoBot.Settings)
    : MongoBot.Settings :=
  MongoBot.mkSettings (Some domain) (Some api) (MongoBot.start_msg st)
    (MongoBot.help_msg st) (MongoBot.auto_delete st)
    (MongoBot.protect_content st).

Definition set_auto_delete (seconds : Z) (st : MongoBot.Settings)
    : MongoBot.Settings :=
  MongoBot.mkSettings (MongoBot.adlink_domain st) (MongoBot.adlink_api st)
    (MongoBot.start_msg st) (MongoBot.help_msg st) (Some seconds)
    (MongoBot.protect_content st).

Definition set_protect_content (b : bool) (st : MongoBot.Settings)
    : MongoBot.Settings :=
  MongoBot.mkSettings (MongoBot.adlink_domain st) (MongoBot.adlink_api st)
    (MongoBot.start_msg st) (MongoBot.help_msg st) (MongoBot.auto_delete st)
    (Some b).

(** [Channel.deleteOne({ username })]: the first match goes. *)
Fixpoint deleteOne (username : string) (chs : list Channel) : list Channel :=
  match chs with
  | [] => []
  | ch :: rest =>
      if String.eqb (ch_username ch) username then rest
      else ch :: deleteOne username rest
  end.

Section Commands.
Variable cfg : Config.

(** [/setadlink <domain> <api>], lines 937-959. *)
Definition setadlink (from : From) (text : string) (db : MongoBot.Db)
    : MongoBot.Db * Answer :=
  if negb (MongoBot.isAdmin cfg (from_id from)) then (db, AdminOnly)
  else
    match drop 1 (JS.split_space text) with
    | domain :: key :: _ =>
        (set_settings (set_adlink domain key) db,
         AdlinkUpdated domain (String.substring 0 10 key))
    | _ => (db, Usage)
    end.

(** [/autodelete <seconds>], lines 1092-1105; [seconds] as parsed, [None]
    for [NaN]. *)
Definition autodelete (from : From) (seconds : option Z) (db : MongoBot.Db)
    : MongoBot.Db * Answer :=
  if negb (MongoBot.isAdmin cfg (from_id from)) then (db, AdminOnly)
  else
    match seconds with
    | None => (db, Usage)
    | Some s => (set_settings (set_auto_delete s) db, AutoDeleteSet s)
    end.

(** [/protect <on/off>], lines 1166-1179. *)
Definition protect (from : From) (text : string) (db : MongoBot.Db)
    : MongoBot.Db * Answer :=
  if negb (MongoBot.isAdmin cfg (from_id from)) then (db, AdminOnly)
  else
    match JS.split_space text !! 1%nat with
    | Some arg =>
        if String.eqb arg "on" then
          (set_settings (set_protect_content true) db, ProtectEnabled)
        else if String.eqb arg "off" then
          (set_settings (set_protect_content false) db, ProtectDisabled)
        else (db, Usage)
    | None => (db, Usage)
    end.

(** [/addchannel @channelname], lines 1108-1134; [getChat] as for the
    other bot. *)
Definition addchannel (getChat : string -> option (string * string))
    (from : From) (text : string) (db : MongoBot.Db) : MongoBot.Db * Answer :=
  if negb (MongoBot.isAdmin cfg (from_id from)) then (db, AdminOnly)
  else
    match JS.split_space text !! 1%nat with
    | None => (db, Usage)
    | Some username =>
        if negb (JS.truthy_str username)
           || negb (JsonAdmin.startsWith_at username) then
          (db, Usage)
        else
          match getChat username with
          | None => (db, ChannelError)
          | Some (id, title) =>
              match List.find (fun ch => String.eqb (channelId ch) id)
                      (MongoBot.channels db) with
              | Some _ => (db, ChannelExists)
              | None =>
                  (set_channels
                     (fun chs => chs ++ [mkChannel id username title]) db,
                   ChannelAdded username)
              end
          end
    end.

(** [/removechannel @channelname], lines 1137-1147. *)
Definition removechannel (from : From) (text : string) (db : MongoBot.Db)
    : MongoBot.Db * Answer :=
  if negb (MongoBot.isAdmin cfg (from_id from)) then (db, AdminOnly)
  else
    match JS.split_space text !! 1%nat with
    | None => (db, Usage)
    | Some username =>
        if negb (JS.truthy_str username) then (db, Usage)
        else (set_channels (deleteOne username) db, ChannelRemoved username)
    end.

(** [/unban <user_id>], lines 1028-1042: the update of [/ban] without
    [upsert].  [target] is the parsed id, [None] when it is not a number. *)
Definition unban (from : From) (target : option Z) (db : MongoBot.Db)
    : MongoBot.Db * Answer :=
  if negb (MongoBot.isAdmin cfg (from_id from)) then (db, AdminOnly)
  else
    match target with
    | None => (db, Usage)
    | Some uid =>
        if (uid =? 0)%Z then (db, Usage)
        else
          (MongoBot.set_users
             (fun us =>
                match us !! uid with
                | Some u =>
                    <[uid := MongoBot.apply_update
                               [("isBanned", MongoBot.UBool false)] u]> us
                | None => us
                end) db,
           Unbanned uid)
    end.

End Commands.

(** [bot.action('verify_sub')], lines 819-826: the body of the handler;
    the reply reads "Great! You can now use the bot. Click your file link
    again."  As in [src/index.js] it is registered after the handler of
    the pattern [/verify_(.+)/] (line 779), which matches the data
    [verify_sub] too; which of the two the dispatcher picks is not
    modelled. *)
Definition verify_sub (env : Env) (from : From) : M MongoBot.Db unit :=
  ok <- MongoBot.checkSubscription env from ;;
  if ok then
    tg_answerCbQuery env true ;;;
    tg_reply env MsgSubscriptionOk
  else tg_answerCbQuery env false.

(** The counters of a broadcast, the recipients tried in order, and the
    counter pairs shown by the progress edits. *)
Record Tally : Type := mkTally {
  success : nat;
  failed : nat;
  tried : list Z;
  progress : list (nat * nat)
}.

(** The [for (const user of users)] loop of [/broadcast], lines 980-998.
    [send_ok uid] tells whether [sendMessage(uid, msg)] resolves; a
    failed progress edit is swallowed. *)
Fixpoint broadcast_loop (send_ok : Z -> bool) (users : list MongoBot.User)
    (t : Tally) : Tally :=
  match users with
  | [] => t
  | user :: rest =>
      let uid := MongoBot.userId user in
      if send_ok uid then
        let s := Datatypes.S (success t) in
        broadcast_loop send_ok rest
          (mkTally s (failed t) (tried t ++ [uid])
             (if (s mod 10 =? 0)%nat then progress t ++ [(s, failed t)]
              else progress t))
      else
        broadcast_loop send_ok rest
          (mkTally (success t) (Datatypes.S (failed t)) (tried t ++ [uid])
             (progress t))
  end.

(** [User.find({ isBanned: false })], in the order the engine returns the
    documents. *)
Definition find_not_banned (db : MongoBot.Db) : list MongoBot.User :=
  List.filter (fun u => negb (MongoBot.isBanned u))
    (snd <$> map_to_list (MongoBot.users db)).

(** [/broadcast <message>], lines 962-1007.  [msg] is the message text
    with the command removed and trimmed, which is the whole text when no
    message follows the command.  [None] stands for the early exits: the
    sender is not the owner, there is no message, or the status message
    could not be sent. *)
Definition broadcast (cfg : Config) (send_ok : Z -> bool) (status_ok : bool)
    (from : From) (msg : string) (db : MongoBot.Db) : option Tally :=
  if negb (MongoBot.isOwner cfg (from_id from)) then None
  else if String.eqb msg "/broadcast" then None
  else if negb status_ok then None
  else Some (broadcast_loop send_ok (find_not_banned db) (mkTally 0 0 [] [])).

End MongoAdmin.

(** ** Sequences of updates

    The bot handles one update after the other; each leaves the database
    and the number of draws to the next.  Every update comes with the
    answers the outside world gives while it is handled.

    An [Event] is an update for one of the embedded handlers.  The
    handlers that are not embedded only read the database ([/help],
    [/listchannels], [/settings], [/stats], and [/broadcast], whose loop
    is embedded on its own) or assign the start and help texts
    ([/setstart], [/sethelp]). *)

Module JsonTrace.

Inductive Event : Type :=
| Start (from : From) (text : string)
| Verify (from : From) (code : string)
| VerifySub (from : From)
| FileMessage (from : From) (up : Upload)
| Setadlink (from : From) (text : string)
| Autodelete (from : From) (seconds : option Z)
| Protect (from : From) (text : string)
| Addchannel (getChat : string -> option (string * string)) (from : From)
    (text : string)
| Removechannel (from : From) (text : string).

Definition sender (ev : Event) : From :=
  match ev with
  | Start from _ | Verify from _ | VerifySub from | FileMessage from _
  | Setadlink from _ | Autodelete from _ | Protect from _
  | Addchannel _ from _ | Removechannel from _ => from
  end.

(** What a handler run leaves behind. *)
Definition after {A : Type} (r : Outcome A * World JsonBot.Db)
    : JsonBot.Db * nat :=
  (store (snd r), drawn (snd r)).

Definition step (cfg : Config) (s : JsonBot.Db * nat) (x : Env * Event)
    : JsonBot.Db * nat :=
  let db := fst s in
  let n := snd s in
  let env := fst x in
  match snd x with
  | Start from text => after (JsonBot.start cfg env from text (fresh db n))
  | Verify from code => after (JsonBot.verify env from code (fresh db n))
  | VerifySub from => after (JsonAdmin.verify_sub env from (fresh db n))
  | FileMessage from up => after (JsonBot.upload cfg env from up (fresh db n))
  | Setadlink from text => (fst (JsonAdmin.setadlink cfg from text db), n)
  | Autodelete from seconds =>
      (fst (JsonAdmin.autodelete cfg from seconds db), n)
  | Protect from text => (fst (JsonAdmin.protect cfg from text db), n)
  | Addchannel getChat from text =>
      (fst (JsonAdmin.addchannel cfg getChat from text db), n)
  | Removechannel from text =>
      (fst (JsonAdmin.removechannel cfg from text db), n)
  end.

Definition run (cfg : Config) (evs : list (Env * Event))
    (s : JsonBot.Db * nat) : JsonBot.Db * nat :=
  fold_left (step cfg) evs s.

End JsonTrace.

Module MongoTrace.

(** [FileMessage fuel from up]: an upload whose code loop is run for at
    most [fuel] draws. *)
Inductive Event : Type :=
| Start (from : From) (text : string)
| Verify (from : From) (code : string)
| VerifySub (from : From)
| FileMessage (fuel : nat) (from : From) (up : Upload)
| Ban (from : From) (target : option Z)
| Unban (from : From) (target : option Z)
| Deletefile (from : From) (code : option string)
| Setadlink (from : From) (text : string)
| Autodelete (from : From) (seconds : option Z)
| Protect (from : From) (text : string)
| Addchannel (getChat : string -> option (string * string)) (from : From)
    (text : string)
| Removechannel (from : From) (text : string).

Definition sender (ev : Event) : From :=
  match ev with
  | Start from _ | Verify from _ | VerifySub from | FileMessage _ from _
  | Ban from _ | Unban from _ | Deletefile from _
  | Setadlink from _ | Autodelete from _ | Protect from _
  | Addchannel _ from _ | Removechannel from _ => from
  end.

Definition after {A : Type} (r : Outcome A * World MongoBot.Db)
    : MongoBot.Db * nat :=
  (store (snd r), drawn (snd r)).

Definition step (cfg : Config) (s : MongoBot.Db * nat) (x : Env * Event)
    : MongoBot.Db * nat :=
  let db := fst s in
  let n := snd s in
  let env := fst x in
  match snd x with
  | Start from text => after (MongoBot.start cfg env from text (fresh db n))
  | Verify from code => after (MongoBot.verify env from code (fresh db n))
  | VerifySub from => after (MongoAdmin.verify_sub env from (fresh db n))
  | FileMessage fuel from up =>
      after (MongoBot.upload cfg env fuel from up (fresh db n))
  | Ban from target => after (MongoBot.ban cfg env from target (fresh db n))
  | Unban from target => (fst (MongoAdmin.unban cfg from target db), n)
  | Deletefile from code =>
      after (MongoBot.deletefile cfg env from code (fresh db n))
  | Setadlink from text => (fst (MongoAdmin.setadlink cfg from text db), n)
  | Autodelete from seconds =>
      (fst (MongoAdmin.autodelete cfg from seconds db), n)
  | Protect from text => (fst (MongoAdmin.protect cfg from text db), n)
  | Addchannel getChat from text =>
      (fst (MongoAdmin.addchannel cfg getChat from text db), n)
  | Removechannel from text =>
      (fst (MongoAdmin.removechannel cfg from text db), n)
  end.

Definition run (cfg : Config) (evs : list (Env * Event))
    (s : MongoBot.Db * nat) : MongoBot.Db * nat :=
  fold_left (step cfg) evs s.

End MongoTrace.

(** *** Words and links *)

(** A string without a space: one word of [split(' ')]. *)
Fixpoint space_free (s : string) : bool :=
  match s with
  | EmptyString => true
  | String c r => negb (Ascii.eqb c " "%char) && space_free r
  end.

(** [ws.join(' ')] *)
Fixpoint join_space (ws : list string) : string :=
  match ws with
  | [] => EmptyString
  | [w] => w
  | w :: rest => w +:+ " " +:+ join_space rest
  end.

(** The characters of an encoded URI component: the unreserved ones and
    the percent sign of an escape. *)
Fixpoint uri_safe (s : string) : bool :=
  match s with
  | EmptyString => true
  | String c r => (JS.uri_unreserved c || Ascii.eqb c "%"%char) && uri_safe r
  end.

(** A user is verified, in the sense the start handler of the MongoDB bot
    tests. *)
Definition is_verified (db : MongoBot.Db) (uid : Z) : bool :=
  from_option MongoBot.isVerified false (MongoBot.users db !! uid).

Definition ex_getChat (username : string) : option (string * string) :=
  if String.eqb username "@news" then Some ("-1005678", "News") else None.

(** *** Sequences of updates *)

(** What one update of [src/index.js] can do to the database: verified
    users stay verified, no file record goes away, channel ids stay
    distinct, and without an admin as sender the settings and the channel
    list stay as they are. *)
Definition json_frame (admin : bool) (db db' : JsonBot.Db) : Prop :=
  (forall uid u,
     JsonBot.users db !! uid = Some u -> JsonBot.verified u = true ->
     exists u', JsonBot.users db' !! uid = Some u' /\ JsonBot.verified u' = true)
  /\ dom (JsonBot.files db) ⊆ dom (JsonBot.files db')
  /\ (admin = false ->
      JsonBot.settings db' = JsonBot.settings db
      /\ JsonBot.channels db' = JsonBot.channels db)
  /\ (NoDup (map channelId (JsonBot.channels db)) ->
      NoDup (map channelId (JsonBot.channels db'))).


(** The database after a challenge was issued for the file at position [i]. *)
Definition viewed (i : nat) (file : MongoBot.File) (db : MongoBot.Db)
    : MongoBot.Db :=
  MongoBot.set_files (alter (MongoBot.set_views (MongoBot.views file + 1)) i) db.

(** The database after the file at position [i] was sent to [uid]. *)
Definition downloaded (uid : Z) (user : MongoBot.User) (i : nat)
    (file : MongoBot.File) (db : MongoBot.Db) : MongoBot.Db :=
  MongoBot.set_users
    (alter (MongoBot.set_filesAccessed (MongoBot.filesAccessed user + 1)) uid)
    (MongoBot.set_files
       (alter (MongoBot.set_downloads (MongoBot.downloads file + 1)) i) db).

(** A user is banned, in the sense the start handler tests. *)
Definition is_banned (db : MongoBot.Db) (uid : Z) : bool :=
  from_option MongoBot.isBanned false (MongoBot.users db !! uid).

(** A code that was issued and whose documents are all inactive. *)
Definition retired (code : string) (db : MongoBot.Db) : Prop :=
  code ∈ codes db
  /\ Forall (fun f => MongoBot.shortCode f = code -> MongoBot.isActive f = false)
       (MongoBot.files db).

(** Every user document sits under its own [userId]. *)
Definition keyed (db : MongoBot.Db) : Prop :=
  forall uid u, MongoBot.users db !! uid = Some u -> MongoBot.userId u = uid.

(** What one update of the MongoDB bot can do to the collections: no
    [isVerified] flag changes, codes are only added and stay distinct, a
    retired code stays retired, user documents stay under their ids, and
    without an admin as sender no ban flag, setting or channel changes. *)
Definition mongo_frame (admin : bool) (db db' : MongoBot.Db) : Prop :=
  (forall uid, is_verified db' uid = is_verified db uid)
  /\ (exists more, codes db' = codes db ++ more)
  /\ (NoDup (codes db) -> NoDup (codes db'))
  /\ (forall code, retired code db -> retired code db')
  /\ (keyed db -> keyed db')
  /\ (admin = false ->
      (forall uid, is_banned db' uid = is_banned db uid)
      /\ MongoBot.settings db' = MongoBot.settings db
      /\ MongoBot.channels db' = MongoBot.channels db).

(** The database after an upload stored [record] for the sender [uid]. *)
Definition uploaded (env : Env) (uid : Z) (record : MongoBot.File)
    (db : MongoBot.Db) : MongoBot.Db :=
  MongoBot.set_users (MongoBot.inc_filesShared env uid)
    (MongoBot.set_files (fun fs => fs ++ [record]) db).

(** *** The calls of a redemption in [src/index.js] *)

(** The calls of the delivery block for the looked-up [file]. *)
Definition json_delivery_calls (env : Env) (from : From) (args : string)
    (st : JsonBot.Settings) (file : JS.Lookup JsonBot.File) : list Call :=
  match file with
  | JS.Own f =>
      let send := SendFile (JsonBot.fileType f) (JsonBot.fileId f)
                    (JsonBot.caption f) (JsonBot.protect_content st) in
      match sendFile env (JsonBot.fileType f) (JsonBot.fileId f) with
      | None => [send; Reply MsgSendError]
      | Some mid =>
          [send] ++ purge_calls (JsonBot.auto_delete st) mid
            ++ [LogSend (LogDownloaded (from_id from) args)]
      end
  | JS.Inherited | JS.Absent => [Reply MsgSendError]
  end.

(** The calls of the steps after a successful lookup. *)
Definition json_gates_calls (cfg : Config) (env : Env) (from : From)
    (args : string) (db : JsonBot.Db) (file : JS.Lookup JsonBot.File)
    : list Call :=
  let uid := from_id from in
  let st := JsonBot.settings db in
  queries uid (JsonBot.channels db) ++
  match missing env uid (JsonBot.channels db) with
  | [] =>
      if from_option JsonBot.verified false (JsonBot.users db !! uid) then
        json_delivery_calls env from args st file
      else
        let r := issued env (Some (JsonBot.adlink_domain st))
                   (Some (JsonBot.adlink_api st)) (deep_link cfg args) in
        snd r ++ [Reply (MsgVerificationRequired (fst r) ("verify_" +:+ args))]
  | m => [Reply (MsgJoinChannels m)]
  end.

(** The calls of one [/start] update. *)
Definition json_start_calls (cfg : Config) (env : Env) (from : From)
    (text : string) (db : JsonBot.Db) : list Call :=
  match JsonBot.start_arg text with
  | Some args =>
      if JS.truthy_str args then
        match JS.obj_get (JsonBot.files db) args with
        | JS.Absent => [Reply MsgNotFound]
        | file => json_gates_calls cfg env from args db file
        end
      else [Reply (MsgStart (JsonBot.start_msg (JsonBot.settings db)))]
  | None => [Reply (MsgStart (JsonBot.start_msg (JsonBot.settings db)))]
  end.

(** The files handed to the transport, among the calls [cs]. *)
Definition sends (cs : list Call) : list Call := List.filter is_SendFile cs.

(** *** Examples of sequences *)

(** A member uploads, someone else asks for a file and verifies, and a
    user who is no admin tries the admin commands. *)
Definition ex_json_trace : list (Env * JsonTrace.Event) :=
  [(ex_env, JsonTrace.FileMessage ada ex_upload);
   (ex_env, JsonTrace.Start (mkFrom 77 "Bob" None) "/start a1b2c3d4");
   (ex_env, JsonTrace.Verify (mkFrom 77 "Bob" None) "a1b2c3d4");
   (ex_env, JsonTrace.Setadlink ada "/setadlink https://evil.example KEY2");
   (ex_env, JsonTrace.Removechannel ada "/removechannel @updates");
   (ex_env, JsonTrace.Protect ada "/protect on")].

(** The same kind of sequence for the MongoDB bot. *)
Definition ex_mongo_trace : list (Env * MongoTrace.Event) :=
  [(env_redraw, MongoTrace.FileMessage 2 ada ex_upload);
   (ex_env, MongoTrace.Start ada "/start a1b2c3d4");
   (ex_env, MongoTrace.Verify ada "a1b2c3d4");
   (ex_env, MongoTrace.VerifySub ada);
   (ex_env, MongoTrace.Unban ada (Some 42));
   (ex_env, MongoTrace.Deletefile ada (Some "a1b2c3d4"));
   (ex_env, MongoTrace.Start ada "/start a1b2c3d4")].

(** The same outside world with the log channel reachable or not. *)
Definition with_log_ok (b : bool) (env : Env) : Env :=
  mkEnv (getChatMember env) (axios_get env) (sendFile env) (reply_ok env)
    (answer_ok env) b (random env) (now env).

(** The answers given to callback queries, among the calls [cs]. *)
Definition answers (cs : list Call) : list bool :=
  omap (fun c => match c with AnswerCbQuery ok => Some ok | _ => None end) cs.

(** * Facts *)

Local Open Scope js_scope.

(** ** Worlds and calls *)

Lemma logged_nil {S : Type} (w : World S) : logged [] w = w.
Proof. destruct w; unfold logged; simpl. rewrite app_nil_r. reflexivity. Qed.

Lemma tg_reply_run {S : Type} (env : Env) (m : Message) (w : World S) :
  tg_reply env m w =
    (if reply_ok env m then Done tt else Thrown "reply", logged [Reply m] w).
Proof.
  unfold tg_reply, bind, emit, ret, throw, logged. cbn.
  destruct (reply_ok env m); reflexivity.
Qed.

Lemma queries_not_delivered (uid : Z) (chs : list Channel) :
  ~ delivered (queries uid chs).
Proof.
  unfold delivered, queries. rewrite Exists_exists.
  intros (c & Hin & Hc). apply list_elem_of_In, in_map_iff in Hin.
  destruct Hin as (ch & <- & _). discriminate.
Qed.

Lemma issued_not_delivered env domain api url :
  ~ delivered (snd (issued env domain api url)).
Proof.
  unfold issued, delivered. destruct (_ && _); cbn [snd];
    rewrite ?Exists_cons, ?Exists_nil; cbn; intuition discriminate.
Qed.

Ltac not_delivered H :=
  unfold delivered in H;
  repeat (rewrite Exists_app in H || rewrite Exists_cons in H || rewrite Exists_nil in H);
  simpl in H;
  repeat match type of H with
  | _ \/ _ => destruct H as [H|H]
  | _ /\ _ => destruct H as [H _]
  end;
  try discriminate; try contradiction;
  try (exfalso;
       first [ eapply queries_not_delivered; exact H
             | eapply issued_not_delivered; exact H ]).

Lemma upload_log_run {S : Type} (env : Env) (from : From) (up : Upload)
    (code : string) (w : World S) :
  try_catch
    (tg_forward env (chat_id up) (message_id up) ;;;
     tg_log env (LogUploaded (from_id from) code))
    (fun _ => ret tt) w
  = (Done tt, logged (upload_log env from up code) w).
Proof.
  unfold try_catch, bind, tg_forward, tg_log, bind, emit, ret, throw, logged,
    upload_log.
  cbn [store calls drawn]. destruct (log_ok env); cbn [store calls drawn];
    rewrite <- ?app_assoc; reflexivity.
Qed.

Lemma upload_log_no_query (env : Env) (from : From) (up : Upload) (code : string) :
  Forall (fun c => is_GetChatMember c = false) (upload_log env from up code).
Proof. unfold upload_log. destruct (log_ok env); repeat constructor. Qed.

(** ** The membership loop *)

Lemma check_member_run {S : Type} (env : Env) (uid : Z) (ch : Channel)
    (acc : list Channel) (w : World S) :
  check_member env uid ch acc w =
    (Done (if not_joined env uid ch then acc ++ [ch] else acc),
     logged [GetChatMember (channelId ch) uid] w).
Proof.
  unfold check_member, try_catch, bind, tg_getChatMember, emit, not_joined,
    logged, ret, throw.
  simpl. destruct (getChatMember env (channelId ch) uid) as [status|]; simpl.
  - destruct (satisfying status); reflexivity.
  - reflexivity.
Qed.

Lemma collect_notJoined_run {S : Type} (env : Env) (uid : Z)
    (chs : list Channel) :
  forall (acc : list Channel) (w : World S),
    collect_notJoined env uid chs acc w =
      (Done (acc ++ missing env uid chs), logged (queries uid chs) w).
Proof.
  induction chs as [|ch rest IH]; intros acc w.
  - simpl. unfold ret, logged. destruct w; simpl.
    rewrite !app_nil_r. reflexivity.
  - simpl. unfold bind. rewrite check_member_run, IH.
    unfold logged; simpl. rewrite <- !app_assoc. simpl.
    destruct (not_joined env uid ch); simpl.
    + rewrite <- app_assoc. reflexivity.
    + reflexivity.
Qed.

Lemma satisfying_iff (status : string) :
  satisfying status = true <-> status ∈ ["member"; "administrator"; "creator"].
Proof. unfold satisfying. apply bool_decide_eq_true. Qed.

Lemma elem_of_missing (env : Env) (uid : Z) (chs : list Channel)
    (ch : Channel) :
  ch ∈ missing env uid chs <->
  ch ∈ chs /\
  exists status, getChatMember env (channelId ch) uid = Some status
                 /\ satisfying status = false.
Proof.
  unfold missing. rewrite !list_elem_of_In, filter_In, <- list_elem_of_In.
  unfold not_joined. split.
  - intros [Hin Hq]. split; [exact Hin|].
    destruct (getChatMember env (channelId ch) uid) as [status|]; [|discriminate].
    exists status. split; [reflexivity|].
    destruct (satisfying status); [discriminate|reflexivity].
  - intros [Hin (status & -> & ->)]. split; [exact Hin|reflexivity].
Qed.

Lemma missing_nil_iff (env : Env) (uid : Z) (chs : list Channel) :
  missing env uid chs = [] <-> Forall (lets_through env uid) chs.
Proof.
  unfold missing. induction chs as [|ch rest IH]; simpl.
  - split; [constructor|reflexivity].
  - unfold not_joined at 1, lets_through at 1.
    rewrite Forall_cons, <- IH. clear IH.
    unfold lets_through.
    destruct (getChatMember env (channelId ch) uid) as [status|]; simpl.
    + destruct (satisfying status); simpl; split; try tauto;
        try discriminate. intros [? _]; discriminate.
    + tauto.
Qed.

(** ** [src/index.js] *)

Lemma JsonBot_checkSubscription_run (env : Env) (from : From)
    (w : World JsonBot.Db) :
  JsonBot.checkSubscription env from w =
    let chs := JsonBot.channels (store w) in
    match missing env (from_id from) chs with
    | [] => (Done true, logged (queries (from_id from) chs) w)
    | m =>
        (if reply_ok env (MsgJoinChannels m) then Done false else Thrown "reply",
         logged (queries (from_id from) chs ++ [Reply (MsgJoinChannels m)]) w)
    end.
Proof.
  unfold JsonBot.checkSubscription, bind, get_store.
  cbv beta iota zeta.
  destruct (JsonBot.channels (store w)) as [|ch rest] eqn:Hchs.
  - simpl. unfold ret. rewrite logged_nil. reflexivity.
  - cbn [length Nat.eqb]. cbv beta.
    rewrite collect_notJoined_run. cbn [app].
    destruct (missing env (from_id from) (ch :: rest)) as [|c m] eqn:Hm.
    + reflexivity.
    + cbn [length Nat.ltb Nat.leb].
      unfold tg_reply, bind, emit, ret, throw, logged. cbn [store calls drawn].
      rewrite <- app_assoc.
      destruct (reply_ok env (MsgJoinChannels (c :: m))); reflexivity.
Qed.

Lemma JsonBot_createShortLink_run (env : Env) (url : string)
    (w : World JsonBot.Db) :
  JsonBot.createShortLink env url w =
    let st := JsonBot.settings (store w) in
    let domain := JsonBot.adlink_domain st in
    let api := JsonBot.adlink_api st in
    if JS.truthy_str domain && JS.truthy_str api then
      (Done (shortener_answer env (api_url domain api url) url),
       logged [AxiosGet (api_url domain api url)] w)
    else (Done (JS.Of (JS.JStr url)), w).
Proof.
  unfold JsonBot.createShortLink, try_catch, bind, get_store. simpl.
  destruct (JS.truthy_str (JsonBot.adlink_domain (JsonBot.settings (store w))));
    simpl; [|reflexivity].
  destruct (JS.truthy_str (JsonBot.adlink_api (JsonBot.settings (store w))));
    simpl; [|reflexivity].
  unfold http_get, bind, emit, shortener_answer, api_url, JsonBot.prop. simpl.
  destruct (axios_get env _) as [msg|data]; simpl; [reflexivity|].
  destruct (JS.get_prop data "status") as [status|] eqn:Hs; simpl;
    [|reflexivity].
  destruct (JS.strict_eq_str status "error"); simpl; [reflexivity|].
  destruct (JS.get_prop data "shortenedUrl") as [v|] eqn:Hv; simpl;
    [reflexivity|].
  destruct data; simpl in Hs, Hv; discriminate.
Qed.

Lemma JsonBot_createShortLink_issued (env : Env) (url : string)
    (w : World JsonBot.Db) :
  JsonBot.createShortLink env url w =
    let st := JsonBot.settings (store w) in
    let r := issued env (Some (JsonBot.adlink_domain st))
               (Some (JsonBot.adlink_api st)) url in
    (Done (fst r), logged (snd r) w).
Proof.
  rewrite JsonBot_createShortLink_run. cbv zeta. unfold issued.
  cbn [JS.truthy_opt default].
  destruct (_ && _); cbn [fst snd]; [reflexivity|].
  rewrite logged_nil. reflexivity.
Qed.



Lemma JsonBot_deliver_store (env : Env) (from : From) (args : string)
    (file : JS.Lookup JsonBot.File) (w : World JsonBot.Db) :
  store (snd (JsonBot.deliver env from args file w)) = store w.
Proof.
  unfold JsonBot.deliver, try_catch, bind, get_store, tg_sendFile, bind, emit,
    JsonBot.autoDelete, bind, get_store, swallow, try_catch, tg_log, bind, emit,
    tg_reply_detached, emit, throw, ret.
  destruct file as [f| |]; cbn [store calls drawn]; try reflexivity.
  destruct (sendFile env _ _); cbn [store calls drawn snd]; [|reflexivity].
  destruct (0 <? _)%Z; cbn [store calls drawn snd];
    destruct (log_ok env); reflexivity.
Qed.

Lemma JsonBot_gates_store (cfg : Config) (env : Env) (from : From)
    (args : string) (file : JS.Lookup JsonBot.File) (w : World JsonBot.Db)
    (P : JsonBot.Db -> Prop) :
  P (store w) ->
  (JsonBot.users (store w) !! from_id from = None ->
   P (JsonBot.set_users (insert (from_id from) (newcomer from)) (store w))) ->
  P (store (snd (JsonBot.gates cfg env from args file w))).
Proof.
  intros Hsame Hnew.
  unfold JsonBot.gates, bind at 1. rewrite JsonBot_checkSubscription_run.
  cbv zeta.
  destruct (missing env (from_id from) (JsonBot.channels (store w))) as [|c m].
  2:{ destruct (reply_ok env _); exact Hsame. }
  cbn [negb]. unfold bind at 1, get_store at 1, logged. cbn [store].
  destruct (JsonBot.users (store w) !! from_id from) as [u|] eqn:Hu.
  - unfold bind, ret, get_store. cbn [store]. rewrite Hu.
    destruct (JsonBot.verified u); cbn [negb].
    + rewrite JsonBot_deliver_store. exact Hsame.
    + rewrite JsonBot_createShortLink_issued. cbv beta iota zeta.
      rewrite tg_reply_run. exact Hsame.
  - unfold bind, modify_store, get_store.
    cbn [store JsonBot.set_users JsonBot.users].
    rewrite lookup_insert_eq. cbn [JsonBot.verified negb].
    rewrite JsonBot_createShortLink_issued. cbv beta iota zeta.
    rewrite tg_reply_run. apply Hnew. reflexivity.
Qed.

Lemma JsonBot_start_store (cfg : Config) (env : Env) (from : From)
    (text : string) (w : World JsonBot.Db) (P : JsonBot.Db -> Prop) :
  P (store w) ->
  (JsonBot.users (store w) !! from_id from = None ->
   P (JsonBot.set_users (insert (from_id from) (newcomer from)) (store w))) ->
  P (store (snd (JsonBot.start cfg env from text w))).
Proof.
  intros Hsame Hnew. unfold JsonBot.start.
  destruct (JsonBot.start_arg text) as [args|]; cbn [JS.truthy_opt].
  2:{ unfold bind, get_store. rewrite tg_reply_run. exact Hsame. }
  destruct (JS.truthy_str args).
  2:{ unfold bind, get_store. rewrite tg_reply_run. exact Hsame. }
  unfold JsonBot.redeem, bind at 1, get_store at 1.
  destruct (JS.obj_get (JsonBot.files (store w)) args).
  3:{ rewrite tg_reply_run. exact Hsame. }
  all: apply JsonBot_gates_store; assumption.
Qed.

Lemma JsonBot_verify_store (env : Env) (from : From) (code : string)
    (w : World JsonBot.Db) :
  store (snd (JsonBot.verify env from code w)) =
    JsonBot.set_users
      (insert (from_id from)
         (match JsonBot.users (store w) !! from_id from with
          | Some u =>
              JsonBot.mkUser true (Some (now env)) (JsonBot.firstName u)
                (JsonBot.username u)
          | None =>
              JsonBot.mkUser true (Some (now env)) (Some (first_name from))
                (from_username from)
          end))
      (store w).
Proof.
  unfold JsonBot.verify, bind at 1, get_store at 1.
  destruct (JsonBot.users (store w) !! from_id from) as [u|];
    unfold bind, modify_store, tg_answerCbQuery, bind, emit, tg_reply, bind,
      emit, swallow, try_catch, tg_log, bind, emit, ret, throw;
    cbn [store calls drawn];
    destruct (answer_ok env); cbn [store calls drawn snd]; try reflexivity;
    destruct (reply_ok env _); cbn [store calls drawn snd]; try reflexivity;
    destruct (log_ok env); reflexivity.
Qed.

(** The verify action of [src/index.js] sets the flag its gate reads. *)
Lemma JsonBot_verify_sets_flag (env : Env) (from : From) (code : string)
    (db : JsonBot.Db) (n : nat) :
  exists u',
    JsonBot.users (store (snd (JsonBot.verify env from code (fresh db n))))
      !! from_id from = Some u'
    /\ JsonBot.verified u' = true.
Proof.
  rewrite JsonBot_verify_store. unfold fresh.
  cbn [store JsonBot.set_users JsonBot.users]. rewrite lookup_insert_eq.
  destruct (JsonBot.users db !! from_id from); eexists; split; reflexivity.
Qed.

(** No redemption, by anyone, changes the record of a user the database
    of [src/index.js] already knows; a verified user stays verified. *)
Lemma JsonBot_start_keeps_users (cfg : Config) (env : Env) (from : From)
    (text : string) (w : World JsonBot.Db) (uid : Z) (u : JsonBot.User) :
  JsonBot.users (store w) !! uid = Some u ->
  JsonBot.users (store (snd (JsonBot.start cfg env from text w))) !! uid = Some u.
Proof.
  intros Hu. apply JsonBot_start_store; [exact Hu|].
  intros Hnone. cbn [JsonBot.set_users JsonBot.users].
  rewrite lookup_insert_ne; [exact Hu|]. intros Heq. congruence.
Qed.

(** A code that names nothing, not even an inherited member, is rejected
    by [src/index.js] at the lookup. *)
Lemma JsonBot_absent_is_not_found (cfg : Config) (env : Env) (from : From)
    (text args : string) (db : JsonBot.Db) (n : nat) :
  JsonBot.start_arg text = Some args ->
  JS.truthy_str args = true ->
  JsonBot.files db !! args = None ->
  args ∉ JS.object_prototype_keys ->
  JsonBot.start cfg env from text (fresh db n) =
    (if reply_ok env MsgNotFound then Done tt else Thrown "reply",
     mkWorld db [Reply MsgNotFound] n).
Proof.
  intros Harg Htruthy Hnone Hproto.
  unfold JsonBot.start. rewrite Harg. cbn [JS.truthy_opt]. rewrite Htruthy.
  unfold JsonBot.redeem, bind, get_store, fresh, JS.obj_get. cbn [store].
  rewrite Hnone, bool_decide_eq_false_2 by exact Hproto.
  apply tg_reply_run.
Qed.

(** A code that is the name of an inherited member passes the lookup and
    goes on to the gates. *)
Lemma JsonBot_inherited_passes_lookup (cfg : Config) (env : Env) (from : From)
    (args : string) (w : World JsonBot.Db) :
  JsonBot.files (store w) !! args = None ->
  args ∈ JS.object_prototype_keys ->
  JsonBot.redeem cfg env from args w
    = JsonBot.gates cfg env from args JS.Inherited w.
Proof.
  intros Hnone Hproto. unfold JsonBot.redeem, bind, get_store, JS.obj_get.
  rewrite Hnone, bool_decide_eq_true_2 by exact Hproto. reflexivity.
Qed.

Lemma last_cons_Some {A : Type} (x : A) (l : list A) : exists y, last (x :: l) = Some y.
Proof.
  revert x. induction l as [|z l IH]; intros x; [exists x; reflexivity|].
  destruct (IH z) as [y Hy]. exists y. exact Hy.
Qed.

Lemma JsonBot_describe_Some (up : Upload) :
  well_formed up -> exists d, JsonBot.describe up = Some d.
Proof.
  unfold well_formed, JsonBot.describe.
  destruct (media up) as [fid name sz|fid name sz|fid title name sz|sizes];
    try (intros _; eexists; reflexivity).
  destruct sizes as [|s sizes]; [contradiction|]. intros _.
  destruct (last_cons_Some s sizes) as [[fid sz] ->]. eexists; reflexivity.
Qed.

Lemma JsonBot_upload_run (cfg : Config) (env : Env) (from : From) (up : Upload)
    (db : JsonBot.Db) (n : nat) (fid : string) (ftype : FileType)
    (cap : option string) :
  JsonBot.describe up = Some (fid, ftype, cap) ->
  let code := random env n in
  let answer := MsgUploaded (deep_link cfg code) code in
  JsonBot.upload cfg env from up (fresh db n) =
    (if reply_ok env answer then Done code else Thrown "reply",
     mkWorld
       (JsonBot.set_files
          (insert code (JsonBot.mkFile fid ftype cap (from_id from) (now env))) db)
       (upload_log env from up code ++ [Reply answer])
       (Datatypes.S n)).
Proof.
  intros Hd. cbv zeta. unfold JsonBot.upload. rewrite Hd.
  unfold bind at 1, generateCode, fresh. cbn [store calls drawn].
  unfold bind at 1, modify_store. cbn [store calls drawn].
  unfold bind at 1. rewrite upload_log_run.
  unfold bind. rewrite tg_reply_run. unfold logged, deep_link.
  cbn [store calls drawn app].
  destruct (reply_ok env _); reflexivity.
Qed.

(** ** The MongoDB bot: collections *)

Lemma findOne_from_None (p : MongoBot.File -> bool) (fs : list MongoBot.File) :
  forall i, MongoBot.findOne_from i p fs = None <-> Forall (fun f => p f = false) fs.
Proof.
  induction fs as [|f rest IH]; intros i; simpl.
  - split; [constructor|reflexivity].
  - rewrite Forall_cons. destruct (p f) eqn:Hp.
    + split; [discriminate|]. intros [? _]; discriminate.
    + rewrite IH. tauto.
Qed.

Lemma findOne_from_Some (p : MongoBot.File -> bool) (fs : list MongoBot.File) :
  forall i j f, MongoBot.findOne_from i p fs = Some (j, f) ->
    (i <= j)%nat /\ fs !! (j - i)%nat = Some f /\ p f = true.
Proof.
  induction fs as [|g rest IH]; intros i j f; simpl; [discriminate|].
  destruct (p g) eqn:Hp.
  - intros [= <- <-]. rewrite Nat.sub_diag. auto.
  - intros H. apply IH in H as (Hle & Hl & Hpf).
    split; [lia|]. split; [|exact Hpf].
    replace (j - i)%nat with (Datatypes.S (j - Datatypes.S i)) by lia. exact Hl.
Qed.

Lemma findOne_Some (p : MongoBot.File -> bool) (fs : list MongoBot.File) j f :
  MongoBot.findOne p fs = Some (j, f) -> fs !! j = Some f /\ p f = true.
Proof.
  unfold MongoBot.findOne. intros H. apply findOne_from_Some in H as (_ & Hl & Hp).
  rewrite Nat.sub_0_r in Hl. auto.
Qed.

Lemma findOne_from_app_new (p : MongoBot.File -> bool) (fs : list MongoBot.File)
    (f : MongoBot.File) :
  forall i, Forall (fun g => p g = false) fs -> p f = true ->
    MongoBot.findOne_from i p (fs ++ [f]) = Some ((i + length fs)%nat, f).
Proof.
  induction fs as [|g rest IH]; intros i Hall Hf; cbn [app MongoBot.findOne_from length].
  - rewrite Hf, Nat.add_0_r. reflexivity.
  - apply Forall_cons in Hall as [Hg Hrest]. rewrite Hg, IH by assumption.
    do 2 f_equal. lia.
Qed.

Lemma with_code_None (code : string) (fs : list MongoBot.File) :
  MongoBot.findOne (MongoBot.with_code code) fs = None <->
  code ∉ map MongoBot.shortCode fs.
Proof.
  unfold MongoBot.findOne. rewrite findOne_from_None.
  rewrite Forall_forall, list_elem_of_In, in_map_iff. unfold MongoBot.with_code.
  split.
  - intros H (f & Hc & Hin). apply list_elem_of_In in Hin.
    specialize (H f Hin). rewrite Hc, String.eqb_refl in H. discriminate.
  - intros H f Hin. destruct (String.eqb_spec (MongoBot.shortCode f) code) as [Heq|];
      [|reflexivity].
    exfalso. apply H. exists f. split; [exact Heq|]. apply list_elem_of_In, Hin.
Qed.

Lemma fresh_record_found (code : string) (fs : list MongoBot.File)
    (f : MongoBot.File) :
  code ∉ map MongoBot.shortCode fs ->
  MongoBot.shortCode f = code ->
  MongoBot.isActive f = true ->
  MongoBot.findOne (MongoBot.active_with_code code) (fs ++ [f])
    = Some (length fs, f).
Proof.
  intros Hfree Hc Ha. unfold MongoBot.findOne.
  rewrite findOne_from_app_new.
  - reflexivity.
  - rewrite Forall_forall. intros g Hg. unfold MongoBot.active_with_code.
    destruct (String.eqb_spec (MongoBot.shortCode g) code) as [Heq|]; [|reflexivity].
    exfalso. apply Hfree. rewrite <- Heq. apply list_elem_of_fmap_2. exact Hg.
  - unfold MongoBot.active_with_code. rewrite Hc, String.eqb_refl, Ha. reflexivity.
Qed.

Lemma MongoBot_activity_lookup env from (us : gmap Z MongoBot.User) :
  MongoBot.upsert_user (from_id from) (now env)
    [("firstName", MongoBot.UStr (Some (first_name from)));
     ("username", MongoBot.UStr (from_username from));
     ("lastActive", MongoBot.UDate (now env))] us !! from_id from
  = Some (touched env from
            (default (MongoBot.new_user (from_id from) (now env)) (us !! from_id from))).
Proof.
  unfold MongoBot.upsert_user.
  destruct (us !! from_id from) as [u|]; rewrite lookup_insert_eq; reflexivity.
Qed.

Lemma seen_lookup (env : Env) (from : From) (db : MongoBot.Db) :
  MongoBot.users (seen env from db) !! from_id from =
    Some (touched env from
            (default (MongoBot.new_user (from_id from) (now env))
               (MongoBot.users db !! from_id from))).
Proof. apply MongoBot_activity_lookup. Qed.

Lemma seen_counters (env : Env) (from : From) (db : MongoBot.Db)
    (u : MongoBot.User) :
  MongoBot.users db !! from_id from = Some u ->
  MongoBot.filesAccessed <$> (MongoBot.users (seen env from db) !! from_id from)
    = Some (MongoBot.filesAccessed u).
Proof. intros Hu. rewrite seen_lookup, Hu. reflexivity. Qed.

(** ** The MongoDB bot: handlers *)

Lemma MongoBot_checkSubscription_run (env : Env) (from : From)
    (w : World MongoBot.Db) :
  MongoBot.checkSubscription env from w =
    let chs := MongoBot.channels (store w) in
    match missing env (from_id from) chs with
    | [] => (Done true, logged (queries (from_id from) chs) w)
    | m =>
        (Done (negb (reply_ok env (MsgJoinChannels m))),
         logged (queries (from_id from) chs ++ [Reply (MsgJoinChannels m)]) w)
    end.
Proof.
  unfold MongoBot.checkSubscription, try_catch, bind, get_store.
  cbv beta iota zeta.
  destruct (MongoBot.channels (store w)) as [|ch rest] eqn:Hchs.
  - simpl. unfold ret. rewrite logged_nil. reflexivity.
  - cbn [length Nat.eqb]. cbv beta.
    rewrite collect_notJoined_run. cbn [app].
    destruct (missing env (from_id from) (ch :: rest)) as [|c m] eqn:Hm.
    + reflexivity.
    + cbn [length Nat.ltb Nat.leb].
      unfold tg_reply, bind, emit, ret, throw, logged. cbn [store calls drawn].
      rewrite <- app_assoc.
      destruct (reply_ok env (MsgJoinChannels (c :: m))); reflexivity.
Qed.

Lemma MongoBot_createShortLink_run (env : Env) (url : string)
    (w : World MongoBot.Db) :
  MongoBot.createShortLink env url w =
    let st := MongoBot.settings (store w) in
    let domain := MongoBot.adlink_domain st in
    let api := MongoBot.adlink_api st in
    if JS.truthy_opt domain && JS.truthy_opt api then
      (Done (shortener_answer env (api_url (default "" domain) (default "" api) url) url),
       logged [AxiosGet (api_url (default "" domain) (default "" api) url)] w)
    else (Done (JS.Of (JS.JStr url)), w).
Proof.
  unfold MongoBot.createShortLink, try_catch, bind, get_store. simpl.
  destruct (JS.truthy_opt (MongoBot.adlink_domain (MongoBot.settings (store w))));
    simpl; [|reflexivity].
  destruct (JS.truthy_opt (MongoBot.adlink_api (MongoBot.settings (store w))));
    simpl; [|reflexivity].
  unfold http_get, bind, emit, shortener_answer, api_url, MongoBot.prop. simpl.
  destruct (axios_get env _) as [msg|data]; simpl; [reflexivity|].
  destruct (JS.get_prop data "status") as [status|] eqn:Hs; simpl;
    [|reflexivity].
  destruct (JS.strict_eq_str status "error"); simpl; [reflexivity|].
  destruct (JS.get_prop data "shortenedUrl") as [v|] eqn:Hv; simpl;
    [reflexivity|].
  destruct data; simpl in Hs, Hv; discriminate.
Qed.

Lemma MongoBot_createShortLink_issued (env : Env) (url : string)
    (w : World MongoBot.Db) :
  MongoBot.createShortLink env url w =
    let st := MongoBot.settings (store w) in
    let r := issued env (MongoBot.adlink_domain st) (MongoBot.adlink_api st) url in
    (Done (fst r), logged (snd r) w).
Proof.
  rewrite MongoBot_createShortLink_run. cbv zeta. unfold issued.
  destruct (_ && _); cbn [fst snd]; [reflexivity|].
  rewrite logged_nil. reflexivity.
Qed.

(** [createShortLink] never throws, and falls back to the link it was
    given when the shortener is not configured, the request rejects, the
    body is [null], or the body reports an error. *)
Lemma createShortLink_falls_back (env : Env) (domain api : option string)
    (url : string) :
  (JS.truthy_opt domain && JS.truthy_opt api = false ->
   issued env domain api url = (JS.Of (JS.JStr url), []))
  /\ (forall apiUrl msg, axios_get env apiUrl = AxiosReject msg ->
        shortener_answer env apiUrl url = JS.Of (JS.JStr url))
  /\ (forall apiUrl, axios_get env apiUrl = AxiosResolve JS.JNull ->
        shortener_answer env apiUrl url = JS.Of (JS.JStr url))
  /\ (forall apiUrl fields,
        axios_get env apiUrl = AxiosResolve (JS.JObj fields) ->
        JS.field fields "status" = JS.Of (JS.JStr "error") ->
        shortener_answer env apiUrl url = JS.Of (JS.JStr url)).
Proof.
  split; [|split; [|split]].
  - intros H. unfold issued. rewrite H. reflexivity.
  - intros apiUrl msg H. unfold shortener_answer. rewrite H. reflexivity.
  - intros apiUrl H. unfold shortener_answer. rewrite H. reflexivity.
  - intros apiUrl fields H Hs. unfold shortener_answer. rewrite H.
    cbn [JS.get_prop]. rewrite Hs. reflexivity.
Qed.

Lemma MongoBot_deliver_run (env : Env) (from : From) (args : string) (i : nat)
    (file : MongoBot.File) (user : MongoBot.User) (w : World MongoBot.Db) :
  MongoBot.deliver env from args i file user w =
    let st := MongoBot.settings (store w) in
    let send := SendFile (MongoBot.fileType file) (MongoBot.fileId file)
                  (MongoBot.caption file)
                  (default false (MongoBot.protect_content st)) in
    match sendFile env (MongoBot.fileType file) (MongoBot.fileId file) with
    | None => (Done tt, logged [send; Reply MsgSendError] w)
    | Some mid =>
        (Done tt,
         logged ([send] ++ [LogSend (LogDownloaded (from_id from) args)]
                   ++ purge_calls (default 0 (MongoBot.auto_delete st)) mid)
           (stored
              (MongoBot.set_users
                 (alter (MongoBot.set_filesAccessed (MongoBot.filesAccessed user + 1))
                    (from_id from))
                 (MongoBot.set_files
                    (alter (MongoBot.set_downloads (MongoBot.downloads file + 1)) i)
                    (store w)))
              w))
    end.
Proof.
  unfold MongoBot.deliver, try_catch, bind, get_store, tg_sendFile, bind, emit.
  cbn [store calls drawn].
  destruct (sendFile env (MongoBot.fileType file) (MongoBot.fileId file)) as [mid|].
  - unfold ret, modify_store, MongoBot.autoDelete, try_catch, bind, get_store,
      swallow, try_catch, tg_log, bind, emit, purge_calls, logged, stored.
    cbn [store calls drawn MongoBot.set_users MongoBot.set_files MongoBot.settings].
    destruct (log_ok env); cbn;
      destruct (0 <? default 0 (MongoBot.auto_delete (MongoBot.settings (store w))))%Z;
      cbn; rewrite <- ?app_assoc; reflexivity.
  - unfold throw, tg_reply_detached, emit, logged. cbn [store calls drawn].
    rewrite <- app_assoc. reflexivity.
Qed.

Lemma MongoBot_challenge_run (cfg : Config) (env : Env) (args : string)
    (i : nat) (file : MongoBot.File) (w : World MongoBot.Db) :
  MongoBot.challenge cfg env args i file w =
    let r := MongoBot.createShortLink env (deep_link cfg args) w in
    match fst r with
    | Done link =>
        (Done (Some (MsgVerificationRequired link ("verify_" +:+ args))),
         stored (MongoBot.set_files
                   (alter (MongoBot.set_views (MongoBot.views file + 1)) i)
                   (store (snd r))) (snd r))
    | Thrown e => (Thrown e, snd r)
    | OutOfFuel => (OutOfFuel, snd r)
    end.
Proof.
  unfold MongoBot.challenge, bind, deep_link.
  destruct (MongoBot.createShortLink env _ w) as [[link|e|] w1]; reflexivity.
Qed.

Lemma MongoBot_challenge_issued (cfg : Config) (env : Env) (args : string)
    (i : nat) (file : MongoBot.File) (w : World MongoBot.Db) :
  MongoBot.challenge cfg env args i file w =
    let st := MongoBot.settings (store w) in
    let r := issued env (MongoBot.adlink_domain st) (MongoBot.adlink_api st)
               (deep_link cfg args) in
    (Done (Some (MsgVerificationRequired (fst r) ("verify_" +:+ args))),
     stored (MongoBot.set_files
               (alter (MongoBot.set_views (MongoBot.views file + 1)) i) (store w))
       (logged (snd r) w)).
Proof.
  rewrite MongoBot_challenge_run. cbv zeta.
  rewrite MongoBot_createShortLink_issued. reflexivity.
Qed.

Lemma MongoBot_start_redeem (cfg : Config) (env : Env) (from : From)
    (text args : string) (w : World MongoBot.Db) :
  MongoBot.start_arg text = Some args ->
  JS.truthy_str args = true ->
  MongoBot.start cfg env from text w =
    let w1 := stored (MongoBot.set_users
                (MongoBot.upsert_user (from_id from) (now env)
                   [("firstName", MongoBot.UStr (Some (first_name from)));
                    ("username", MongoBot.UStr (from_username from));
                    ("lastActive", MongoBot.UDate (now env))])
                (store w)) w in
    match MongoBot.redeem cfg env from args w1 with
    | (Done (Some m), w2) => tg_reply env m w2
    | (Done None, w2) => (Done tt, w2)
    | (Thrown e, w2) => (Done tt, logged [Reply MsgInternalError] w2)
    | (OutOfFuel, w2) => (OutOfFuel, w2)
    end.
Proof.
  intros Harg Htruthy.
  unfold MongoBot.start, bind at 1, try_catch at 1.
  unfold bind at 1, MongoBot.updateUserActivity, try_catch at 1, modify_store.
  rewrite Harg. cbn [JS.truthy_opt]. rewrite Htruthy.
  cbn [app]. unfold stored.
  destruct (MongoBot.redeem cfg env from args _) as [[[m|]|e|] w2]; reflexivity.
Qed.

Lemma MongoBot_start_run (cfg : Config) (env : Env) (from : From)
    (text args : string) (db : MongoBot.Db) (n : nat) :
  MongoBot.start_arg text = Some args ->
  JS.truthy_str args = true ->
  MongoBot.start cfg env from text (fresh db n) =
    match MongoBot.redeem cfg env from args (fresh (seen env from db) n) with
    | (Done (Some m), w2) => tg_reply env m w2
    | (Done None, w2) => (Done tt, w2)
    | (Thrown e, w2) => (Done tt, logged [Reply MsgInternalError] w2)
    | (OutOfFuel, w2) => (OutOfFuel, w2)
    end.
Proof. intros Harg Htruthy. apply MongoBot_start_redeem; assumption. Qed.

Lemma MongoBot_redeem_not_found (cfg : Config) (env : Env) (from : From)
    (args : string) (w : World MongoBot.Db) :
  MongoBot.findOne (MongoBot.active_with_code args) (MongoBot.files (store w)) = None ->
  MongoBot.redeem cfg env from args w = (Done (Some MsgNotFound), w).
Proof.
  intros Hfile. unfold MongoBot.redeem, bind, get_store. rewrite Hfile. reflexivity.
Qed.

Lemma MongoBot_redeem_banned (cfg : Config) (env : Env) (from : From)
    (args : string) (w : World MongoBot.Db) (i : nat) (file : MongoBot.File)
    (u : MongoBot.User) :
  MongoBot.findOne (MongoBot.active_with_code args) (MongoBot.files (store w))
    = Some (i, file) ->
  MongoBot.users (store w) !! from_id from = Some u ->
  MongoBot.isBanned u = true ->
  MongoBot.redeem cfg env from args w = (Done (Some MsgBanned), w).
Proof.
  intros Hfile Hu Hban. unfold MongoBot.redeem, bind, get_store.
  rewrite Hfile, Hu, Hban. reflexivity.
Qed.

Lemma MongoBot_redeem_gated (cfg : Config) (env : Env) (from : From)
    (args : string) (w : World MongoBot.Db) (i : nat) (file : MongoBot.File)
    (u : MongoBot.User) :
  MongoBot.findOne (MongoBot.active_with_code args) (MongoBot.files (store w))
    = Some (i, file) ->
  MongoBot.users (store w) !! from_id from = Some u ->
  MongoBot.isBanned u = false ->
  MongoBot.redeem cfg env from args w =
    let chs := MongoBot.channels (store w) in
    let m := missing env (from_id from) chs in
    let asked := queries (from_id from) chs in
    match m with
    | [] =>
        if MongoBot.isVerified u then
          (Done None, snd (MongoBot.deliver env from args i file u (logged asked w)))
        else MongoBot.challenge cfg env args i file (logged asked w)
    | _ =>
        let w1 := logged (asked ++ [Reply (MsgJoinChannels m)]) w in
        if reply_ok env (MsgJoinChannels m) then (Done None, w1)
        else if MongoBot.isVerified u then
          (Done None, snd (MongoBot.deliver env from args i file u w1))
        else MongoBot.challenge cfg env args i file w1
    end.
Proof.
  intros Hfile Hu Hban. unfold MongoBot.redeem, bind at 1, get_store at 1.
  rewrite Hfile, Hu, Hban. unfold bind at 1.
  rewrite MongoBot_checkSubscription_run. cbv zeta.
  destruct (missing env (from_id from) (MongoBot.channels (store w))) as [|c m].
  - cbn [negb]. destruct (MongoBot.isVerified u); cbn [negb]; [|reflexivity].
    unfold bind. rewrite MongoBot_deliver_run. cbv zeta.
    destruct (sendFile env _ _); reflexivity.
  - destruct (reply_ok env _); cbn [negb]; [reflexivity|].
    destruct (MongoBot.isVerified u); cbn [negb]; [|reflexivity].
    unfold bind. rewrite MongoBot_deliver_run. cbv zeta.
    destruct (sendFile env _ _); reflexivity.
Qed.

Lemma MongoBot_banned_run (cfg : Config) (env : Env) (from : From)
    (text args : string) (db : MongoBot.Db) (n i : nat) (file : MongoBot.File)
    (u : MongoBot.User) :
  MongoBot.start_arg text = Some args ->
  JS.truthy_str args = true ->
  MongoBot.findOne (MongoBot.active_with_code args) (MongoBot.files db) = Some (i, file) ->
  MongoBot.users db !! from_id from = Some u ->
  MongoBot.isBanned u = true ->
  MongoBot.start cfg env from text (fresh db n) =
    (if reply_ok env MsgBanned then Done tt else Thrown "reply",
     mkWorld (seen env from db) [Reply MsgBanned] n).
Proof.
  intros Harg Htruthy Hfile Hu Hban.
  rewrite (MongoBot_start_run cfg env from text args db n Harg Htruthy).
  rewrite (MongoBot_redeem_banned cfg env from args _ i file (touched env from u)).
  - apply tg_reply_run.
  - exact Hfile.
  - cbn [store fresh]. rewrite seen_lookup, Hu. reflexivity.
  - exact Hban.
Qed.

Lemma MongoBot_unknown_is_not_found (cfg : Config) (env : Env) (from : From)
    (text args : string) (db : MongoBot.Db) (n : nat) :
  MongoBot.start_arg text = Some args ->
  JS.truthy_str args = true ->
  Forall (fun f => MongoBot.shortCode f = args -> MongoBot.isActive f = false)
    (MongoBot.files db) ->
  MongoBot.start cfg env from text (fresh db n) =
    (if reply_ok env MsgNotFound then Done tt else Thrown "reply",
     mkWorld (seen env from db) [Reply MsgNotFound] n).
Proof.
  intros Harg Htruthy Hnone.
  rewrite (MongoBot_start_run cfg env from text args db n Harg Htruthy).
  rewrite MongoBot_redeem_not_found.
  - apply tg_reply_run.
  - cbn [store fresh seen MongoBot.set_users MongoBot.files].
    apply findOne_from_None. eapply Forall_impl; [exact Hnone|].
    intros f Hf. unfold MongoBot.active_with_code.
    destruct (String.eqb (MongoBot.shortCode f) args) eqn:Heq; [|reflexivity].
    apply String.eqb_eq in Heq. rewrite (Hf Heq). reflexivity.
Qed.


Lemma MongoBot_deliver_start_run (cfg : Config) (env : Env) (from : From)
    (text args : string) (db : MongoBot.Db) (n i : nat) (file : MongoBot.File)
    (u : MongoBot.User) :
  MongoBot.start_arg text = Some args ->
  JS.truthy_str args = true ->
  MongoBot.findOne (MongoBot.active_with_code args) (MongoBot.files db) = Some (i, file) ->
  MongoBot.users db !! from_id from = Some u ->
  MongoBot.isBanned u = false ->
  MongoBot.isVerified u = true ->
  Forall (lets_through env (from_id from)) (MongoBot.channels db) ->
  let st := MongoBot.settings db in
  let asked := queries (from_id from) (MongoBot.channels db) in
  let send := SendFile (MongoBot.fileType file) (MongoBot.fileId file)
                (MongoBot.caption file)
                (default false (MongoBot.protect_content st)) in
  MongoBot.start cfg env from text (fresh db n) =
    (Done tt,
     match sendFile env (MongoBot.fileType file) (MongoBot.fileId file) with
     | None =>
         mkWorld (seen env from db) (asked ++ [send; Reply MsgSendError]) n
     | Some mid =>
         mkWorld
           (MongoBot.set_users
              (alter (MongoBot.set_filesAccessed (MongoBot.filesAccessed u + 1))
                 (from_id from))
              (MongoBot.set_files
                 (alter (MongoBot.set_downloads (MongoBot.downloads file + 1)) i)
                 (seen env from db)))
           (asked ++ [send]
              ++ [LogSend (LogDownloaded (from_id from) args)]
              ++ purge_calls (default 0 (MongoBot.auto_delete st)) mid)
           n
     end).
Proof.
  intros Harg Htruthy Hfile Hu Hban Hver Hsub. cbv zeta.
  rewrite (MongoBot_start_run cfg env from text args db n Harg Htruthy).
  rewrite (MongoBot_redeem_gated cfg env from args _ i file (touched env from u)).
  2: exact Hfile.
  2: { cbn [store fresh]. rewrite seen_lookup, Hu. reflexivity. }
  2: { exact Hban. }
  cbv zeta. cbn [store fresh seen MongoBot.set_users MongoBot.channels].
  apply missing_nil_iff in Hsub. rewrite Hsub.
  replace (MongoBot.isVerified (touched env from u)) with true
    by (symmetry; exact Hver).
  rewrite MongoBot_deliver_run. cbv zeta.
  destruct (sendFile env _ _) as [mid|]; cbn [snd];
    unfold logged, stored, fresh;
    cbn [store calls drawn seen MongoBot.settings MongoBot.set_users
           MongoBot.set_files app];
    rewrite <- ?app_assoc; reflexivity.
Qed.

Lemma MongoBot_delivery_requires_gates (cfg : Config) (env : Env) (from : From)
    (text : string) (db : MongoBot.Db) (n : nat) :
  delivered (calls (snd (MongoBot.start cfg env from text (fresh db n)))) ->
  exists u, MongoBot.users db !! from_id from = Some u
    /\ MongoBot.isVerified u = true
    /\ MongoBot.isBanned u = false
    /\ (Forall (lets_through env (from_id from)) (MongoBot.channels db)
        \/ reply_ok env
             (MsgJoinChannels (missing env (from_id from) (MongoBot.channels db)))
           = false).
Proof.
  destruct (MongoBot.start_arg text) as [args|] eqn:Harg.
  2:{ unfold MongoBot.start. rewrite Harg. cbn [JS.truthy_opt].
      unfold bind, try_catch, MongoBot.updateUserActivity, try_catch,
        modify_store, get_store, tg_reply, tg_reply_detached, bind, emit. cbn.
      destruct (reply_ok env _); cbn; intros H; not_delivered H. }
  destruct (JS.truthy_str args) eqn:Htruthy.
  2:{ unfold MongoBot.start. rewrite Harg. cbn [JS.truthy_opt]. rewrite Htruthy.
      unfold bind, try_catch, MongoBot.updateUserActivity, try_catch,
        modify_store, get_store, tg_reply, tg_reply_detached, bind, emit. cbn.
      destruct (reply_ok env _); cbn; intros H; not_delivered H. }
  rewrite (MongoBot_start_run cfg env from text args db n Harg Htruthy).
  destruct (MongoBot.findOne (MongoBot.active_with_code args) (MongoBot.files db))
    as [[i file]|] eqn:Hfile.
  2:{ rewrite MongoBot_redeem_not_found by exact Hfile. rewrite tg_reply_run.
      cbn. intros H; not_delivered H. }
  set (u0 := default (MongoBot.new_user (from_id from) (now env))
               (MongoBot.users db !! from_id from)).
  assert (Hseen : MongoBot.users (store (fresh (seen env from db) n)) !! from_id from
                  = Some (touched env from u0)) by apply seen_lookup.
  destruct (MongoBot.isBanned (touched env from u0)) eqn:Hban.
  { rewrite (MongoBot_redeem_banned cfg env from args (fresh (seen env from db) n) i file
               _ Hfile Hseen Hban).
    rewrite tg_reply_run. cbn. intros H; not_delivered H. }
  rewrite (MongoBot_redeem_gated cfg env from args (fresh (seen env from db) n) i file
             _ Hfile Hseen Hban).
  cbv zeta. cbn [store fresh seen MongoBot.set_users MongoBot.channels].
  destruct (MongoBot.isVerified (touched env from u0)) eqn:Hver.
  - assert (Hex : forall P : Prop, P ->
        exists u, MongoBot.users db !! from_id from = Some u
          /\ MongoBot.isVerified u = true /\ MongoBot.isBanned u = false /\ P).
    { intros P HP. subst u0.
      destruct (MongoBot.users db !! from_id from) as [u|] eqn:Hu; cbn in Hver;
        [|discriminate].
      exists u. auto. }
    destruct (missing env (from_id from) (MongoBot.channels db)) as [|c m] eqn:Hm.
    + intros _. apply Hex. left. apply missing_nil_iff. exact Hm.
    + destruct (reply_ok env (MsgJoinChannels (c :: m))) eqn:Hr.
      * unfold logged, fresh. cbn [store calls drawn snd].
        intros H; not_delivered H.
      * intros _. apply Hex. right. reflexivity.
  - destruct (missing env (from_id from) (MongoBot.channels db)) as [|c m] eqn:Hm.
    + rewrite MongoBot_challenge_issued. cbv beta iota zeta. rewrite tg_reply_run.
      unfold logged, stored, fresh. cbn [store calls drawn snd].
      intros H; not_delivered H.
    + destruct (reply_ok env (MsgJoinChannels (c :: m))).
      * unfold logged, fresh. cbn [store calls drawn snd].
        intros H; not_delivered H.
      * rewrite MongoBot_challenge_issued. cbv beta iota zeta. rewrite tg_reply_run.
        unfold logged, stored, fresh. cbn [store calls drawn snd].
        intros H; not_delivered H.
Qed.

Lemma MongoBot_verify_store (env : Env) (from : From) (code : string)
    (w : World MongoBot.Db) :
  store (snd (MongoBot.verify env from code w)) =
    MongoBot.set_users
      (MongoBot.upsert_user (from_id from) (now env)
         [("verified", MongoBot.UBool true);
          ("verifiedAt", MongoBot.UDate (now env));
          ("firstName", MongoBot.UStr (Some (first_name from)));
          ("username", MongoBot.UStr (from_username from))])
      (store w).
Proof.
  unfold MongoBot.verify, try_catch, bind, modify_store, tg_answerCbQuery, bind,
    emit, tg_reply, bind, emit, swallow, try_catch, tg_log, bind, emit, ret, throw.
  cbn [store calls drawn].
  destruct (answer_ok env); cbn [store calls drawn snd]; try reflexivity;
    destruct (reply_ok env _); cbn [store calls drawn snd]; try reflexivity;
    destruct (log_ok env); reflexivity.
Qed.

Lemma MongoBot_verify_flag (env : Env) (from : From) (code : string)
    (db : MongoBot.Db) (n : nat) :
  exists u',
    MongoBot.users (store (snd (MongoBot.verify env from code (fresh db n))))
      !! from_id from = Some u'
    /\ MongoBot.verifiedAt u' = Some (now env)
    /\ MongoBot.isVerified u'
       = from_option MongoBot.isVerified false (MongoBot.users db !! from_id from).
Proof.
  rewrite MongoBot_verify_store. unfold fresh. cbn [store MongoBot.set_users MongoBot.users].
  unfold MongoBot.upsert_user.
  destruct (MongoBot.users db !! from_id from) as [u|]; rewrite lookup_insert_eq;
    eexists; split; try reflexivity; split; reflexivity.
Qed.

Lemma MongoBot_describe_Some (up : Upload) :
  well_formed up -> exists d, MongoBot.describe up = Some d.
Proof.
  unfold well_formed, MongoBot.describe.
  destruct (media up) as [fid name sz|fid name sz|fid title name sz|sizes];
    try (intros _; eexists; reflexivity).
  destruct sizes as [|s sizes]; [contradiction|]. intros _.
  destruct (last_cons_Some s sizes) as [[fid sz] ->]. eexists; reflexivity.
Qed.

Lemma MongoBot_fresh_code_run (env : Env) (k : nat) :
  forall (fuel : nat) (w : World MongoBot.Db),
    (forall j, (j < k)%nat ->
       random env (drawn w + j) ∈ map MongoBot.shortCode (MongoBot.files (store w))) ->
    random env (drawn w + k) ∉ map MongoBot.shortCode (MongoBot.files (store w)) ->
    (k < fuel)%nat ->
    MongoBot.fresh_code env fuel w =
      (Done (random env (drawn w + k)),
       mkWorld (store w) (calls w) (drawn w + Datatypes.S k)).
Proof.
  induction k as [|k IH]; intros fuel w Htaken Hfree Hfuel.
  - destruct fuel as [|fuel]; [lia|]. cbn [MongoBot.fresh_code].
    unfold bind, generateCode, get_store. cbn [store calls drawn].
    rewrite Nat.add_0_r in Hfree. apply with_code_None in Hfree. rewrite Hfree.
    unfold ret. rewrite Nat.add_0_r, Nat.add_1_r. reflexivity.
  - destruct fuel as [|fuel]; [lia|]. cbn [MongoBot.fresh_code].
    unfold bind at 1, generateCode. cbn [store calls drawn].
    unfold bind at 1, get_store. cbn [store calls drawn].
    destruct (MongoBot.findOne (MongoBot.with_code (random env (drawn w)))
                (MongoBot.files (store w))) as [hit|] eqn:Hhit.
    + rewrite IH; cbn [store calls drawn].
      * f_equal; [f_equal; f_equal; lia | f_equal; lia].
      * intros j Hj. replace (Datatypes.S (drawn w) + j)%nat
          with (drawn w + Datatypes.S j)%nat by lia. apply Htaken. lia.
      * replace (Datatypes.S (drawn w) + k)%nat
          with (drawn w + Datatypes.S k)%nat by lia. exact Hfree.
      * lia.
    + exfalso. apply with_code_None in Hhit. apply Hhit.
      specialize (Htaken 0%nat ltac:(lia)). rewrite Nat.add_0_r in Htaken.
      exact Htaken.
Qed.

Lemma MongoBot_save_new_run (f : MongoBot.File) (w : World MongoBot.Db) :
  MongoBot.save_new f w =
    if existsb (MongoBot.clashes f) (MongoBot.files (store w))
    then (Thrown "E11000 duplicate key", w)
    else (Done tt, stored (MongoBot.set_files (fun fs => fs ++ [f]) (store w)) w).
Proof.
  unfold MongoBot.save_new, bind, get_store.
  destruct (existsb _ _); reflexivity.
Qed.

Lemma takes_upload_no_clash (f : MongoBot.File) (db : MongoBot.Db) :
  takes_upload db ->
  MongoBot.fileUniqueId f = None ->
  MongoBot.shortCode f ∉ codes db ->
  existsb (MongoBot.clashes f) (MongoBot.files db) = false.
Proof.
  unfold takes_upload, codes. intros Hids Hnone Hfree.
  induction Hids as [|g gs Hg _ IH]; [reflexivity|].
  cbn [existsb]. rewrite IH.
  2:{ intros Hin. apply Hfree. cbn [map]. right. exact Hin. }
  unfold MongoBot.clashes. rewrite Hnone.
  rewrite bool_decide_eq_false_2 by exact Hg.
  destruct (String.eqb (MongoBot.shortCode g) (MongoBot.shortCode f)) eqn:E;
    [|reflexivity].
  apply String.eqb_eq in E. exfalso. apply Hfree. cbn [map]. rewrite <- E. left.
Qed.

Lemma lacking_id_clashes (f : MongoBot.File) (db : MongoBot.Db) :
  Exists (fun g => MongoBot.fileUniqueId g = None) (MongoBot.files db) ->
  MongoBot.fileUniqueId f = None ->
  existsb (MongoBot.clashes f) (MongoBot.files db) = true.
Proof.
  intros Hex Hnone. apply existsb_exists.
  apply Exists_exists in Hex as (g & Hg & Hid).
  exists g. split; [apply list_elem_of_In, Hg|].
  unfold MongoBot.clashes. rewrite Hnone.
  rewrite bool_decide_eq_true_2 by exact Hid. reflexivity.
Qed.

(** An upload, given what the code loop returns. *)
Lemma MongoBot_upload_with_code (cfg : Config) (env : Env) (fuel : nat)
    (from : From) (up : Upload) (w w1 : World MongoBot.Db) (code : string)
    (fid : string) (ftype : FileType) (fname : option string) (fsize : Z) :
  MongoBot.describe up = Some (fid, ftype, fname, fsize) ->
  MongoBot.fresh_code env fuel w = (Done code, w1) ->
  let answer := MsgUploaded (deep_link cfg code) code in
  let record :=
    MongoBot.mkFile fid None ftype fname fsize
      (JS.or_else (msg_caption up) fname) code (from_id from) 0 0 true (now env) in
  MongoBot.upload cfg env fuel from up w =
    if existsb (MongoBot.clashes record) (MongoBot.files (store w1)) then
      (Done None, logged [Reply MsgUploadError] w1)
    else
      (Done (if reply_ok env answer then Some code else None),
       mkWorld
         (MongoBot.set_users (MongoBot.inc_filesShared env (from_id from))
            (MongoBot.set_files (fun fs => fs ++ [record]) (store w1)))
         (calls w1 ++ upload_log env from up code ++ [Reply answer]
            ++ (if reply_ok env answer then [] else [Reply MsgUploadError]))
         (drawn w1)).
Proof.
  intros Hd Hcode. cbv zeta.
  unfold MongoBot.upload, try_catch at 1. rewrite Hd.
  unfold bind at 1. rewrite Hcode.
  unfold bind at 1. rewrite MongoBot_save_new_run.
  destruct (existsb _ _); [reflexivity|].
  unfold stored. cbn [store calls drawn].
  unfold bind at 1, modify_store. cbn [store calls drawn].
  unfold bind at 1. rewrite upload_log_run.
  unfold bind. rewrite tg_reply_run. unfold logged, deep_link.
  cbn [store calls drawn app].
  destruct (reply_ok env _).
  - unfold ret. rewrite <- ?app_assoc. cbn [app]. rewrite ?app_nil_r. reflexivity.
  - unfold tg_reply_detached, emit. cbn [store calls drawn].
    rewrite <- ?app_assoc. reflexivity.
Qed.

Lemma MongoBot_upload_run (cfg : Config) (env : Env) (from : From) (up : Upload)
    (db : MongoBot.Db) (n k fuel : nat) (fid : string) (ftype : FileType)
    (fname : option string) (fsize : Z) :
  MongoBot.describe up = Some (fid, ftype, fname, fsize) ->
  (forall j, (j < k)%nat -> random env (n + j) ∈ codes db) ->
  random env (n + k) ∉ codes db ->
  (k < fuel)%nat ->
  takes_upload db ->
  let code := random env (n + k) in
  let answer := MsgUploaded (deep_link cfg code) code in
  let record :=
    MongoBot.mkFile fid None ftype fname fsize
      (JS.or_else (msg_caption up) fname) code (from_id from) 0 0 true (now env) in
  MongoBot.upload cfg env fuel from up (fresh db n) =
    (Done (if reply_ok env answer then Some code else None),
     mkWorld
       (MongoBot.set_users (MongoBot.inc_filesShared env (from_id from))
          (MongoBot.set_files (fun fs => fs ++ [record]) db))
       (upload_log env from up code ++ [Reply answer]
          ++ (if reply_ok env answer then [] else [Reply MsgUploadError]))
       (n + Datatypes.S k)).
Proof.
  intros Hd Htaken Hfree Hfuel Htakes. cbv zeta.
  rewrite (MongoBot_upload_with_code cfg env fuel from up _ _ _ fid ftype fname fsize
             Hd (MongoBot_fresh_code_run env k fuel (fresh db n) Htaken Hfree Hfuel)).
  cbn [fresh store calls drawn app].
  rewrite takes_upload_no_clash; [reflexivity|exact Htakes|reflexivity|exact Hfree].
Qed.

(** The insert is refused when a document of the collection has no
    [fileUniqueId]: the handler ends in its [catch] block. *)
Lemma MongoBot_upload_refused (cfg : Config) (env : Env) (from : From)
    (up : Upload) (db : MongoBot.Db) (n k fuel : nat) :
  well_formed up ->
  (forall j, (j < k)%nat -> random env (n + j) ∈ codes db) ->
  random env (n + k) ∉ codes db ->
  (k < fuel)%nat ->
  Exists (fun g => MongoBot.fileUniqueId g = None) (MongoBot.files db) ->
  MongoBot.upload cfg env fuel from up (fresh db n) =
    (Done None, mkWorld db [Reply MsgUploadError] (n + Datatypes.S k)).
Proof.
  intros Hwf Htaken Hfree Hfuel Hlack.
  destruct (MongoBot_describe_Some up Hwf) as [[[[fid ftype] fname] fsize] Hd].
  rewrite (MongoBot_upload_with_code cfg env fuel from up _ _ _ fid ftype fname fsize
             Hd (MongoBot_fresh_code_run env k fuel (fresh db n) Htaken Hfree Hfuel)).
  cbn [fresh store calls drawn app].
  rewrite lacking_id_clashes; [reflexivity|exact Hlack|reflexivity].
Qed.

(** The MongoDB bot issues a code that no file document carries, inactive
    ones included, and keeps the short codes of the collection distinct. *)
Lemma MongoBot_upload_code_is_new (cfg : Config) (env : Env) (from : From)
    (up : Upload) (db : MongoBot.Db) (n k fuel : nat) :
  well_formed up ->
  (forall j, (j < k)%nat -> random env (n + j) ∈ codes db) ->
  random env (n + k) ∉ codes db ->
  (k < fuel)%nat ->
  let r := MongoBot.upload cfg env fuel from up (fresh db n) in
  (takes_upload db -> codes (store (snd r)) = codes db ++ [random env (n + k)])
  /\ (forall code, fst r = Done (Some code) ->
        code = random env (n + k)
        /\ Forall (fun f => MongoBot.shortCode f <> code) (MongoBot.files db))
  /\ (NoDup (codes db) -> NoDup (codes (store (snd r)))).
Proof.
  intros Hwf Htaken Hfree Hfuel. cbv zeta.
  destruct (MongoBot_describe_Some up Hwf) as [[[[fid ftype] fname] fsize] Hd].
  assert (Hnew : Forall (fun f => MongoBot.shortCode f <> random env (n + k))
                   (MongoBot.files db)).
  { rewrite Forall_forall. intros f Hf Heq. apply Hfree.
    unfold codes. rewrite <- Heq. apply list_elem_of_fmap_2. exact Hf. }
  assert (Hnd : NoDup (codes db) -> NoDup (codes db ++ [random env (n + k)])).
  { intros Hnodup. apply NoDup_app. split; [exact Hnodup|]. split.
    - intros c Hc Hin. apply list_elem_of_singleton in Hin. subst c.
      apply Hfree. exact Hc.
    - apply NoDup_singleton. }
  split.
  { intros Htakes.
    rewrite (MongoBot_upload_run cfg env from up db n k fuel fid ftype fname
               fsize Hd Htaken Hfree Hfuel Htakes).
    cbv zeta. cbn [fst snd store]. unfold codes.
    cbn [MongoBot.set_users MongoBot.set_files MongoBot.files].
    rewrite map_app. reflexivity. }
  rewrite (MongoBot_upload_with_code cfg env fuel from up _ _ _ fid ftype fname fsize
             Hd (MongoBot_fresh_code_run env k fuel (fresh db n) Htaken Hfree Hfuel)).
  cbn [fresh store calls drawn app].
  destruct (existsb _ _); cbn [fst snd store logged].
  - split; [discriminate|auto].
  - split.
    + intros code Hcode. destruct (reply_ok env _); [|discriminate].
      injection Hcode as <-. split; [reflexivity|exact Hnew].
    + intros Hnodup. unfold codes in *.
      cbn [MongoBot.set_users MongoBot.set_files MongoBot.files].
      rewrite map_app. apply Hnd, Hnodup.
Qed.

(** ** Words of a message text *)

Lemma split_space_nonempty (s : string) : JS.split_space s <> [].
Proof.
  destruct s as [|c r]; simpl; [discriminate|].
  destruct (Ascii.eqb c " "); [discriminate|].
  destruct (JS.split_space r); discriminate.
Qed.

Lemma split_space_free (w : string) :
  space_free w = true -> JS.split_space w = [w].
Proof.
  induction w as [|c r IH]; simpl; [reflexivity|].
  intros H. apply andb_true_iff in H as [Hc Hr].
  apply negb_true_iff in Hc. rewrite Hc, (IH Hr). reflexivity.
Qed.

Lemma split_space_word (w rest : string) :
  space_free w = true ->
  JS.split_space (w +:+ " " +:+ rest) = w :: JS.split_space rest.
Proof.
  induction w as [|c r IH]; simpl; [reflexivity|].
  intros H. apply andb_true_iff in H as [Hc Hr].
  apply negb_true_iff in Hc. rewrite Hc.
  change (String.app r (String " " rest)) with (r +:+ " " +:+ rest).
  rewrite (IH Hr). reflexivity.
Qed.

Lemma split_join_space (ws : list string) :
  ws <> [] ->
  Forall (fun w => space_free w = true) ws ->
  JS.split_space (join_space ws) = ws.
Proof.
  induction ws as [|w rest IH]; [congruence|].
  intros _ Hall. inversion Hall as [|? ? Hw Hrest]; subst.
  destruct rest as [|w' rest'].
  - simpl. apply split_space_free, Hw.
  - change (join_space (w :: w' :: rest'))
      with (w +:+ " " +:+ join_space (w' :: rest')).
    rewrite split_space_word by exact Hw.
    rewrite IH; [reflexivity|discriminate|exact Hrest].
Qed.

Lemma split_space_words (s : string) :
  Forall (fun w => space_free w = true) (JS.split_space s).
Proof.
  induction s as [|c r IH]; simpl.
  - repeat constructor.
  - destruct (Ascii.eqb c " ") eqn:Hc.
    + constructor; [reflexivity|exact IH].
    + destruct (JS.split_space r) as [|w ws].
      * repeat constructor. simpl. rewrite Hc. reflexivity.
      * inversion IH; subst. constructor; [|assumption].
        simpl. rewrite Hc. assumption.
Qed.

Lemma join_split_space (s : string) : join_space (JS.split_space s) = s.
Proof.
  induction s as [|c r IH]; simpl; [reflexivity|].
  destruct (Ascii.eqb c " ") eqn:Hc.
  - apply Ascii.eqb_eq in Hc. subst c.
    pose proof (split_space_nonempty r) as Hne.
    destruct (JS.split_space r) as [|w ws] eqn:E; [congruence|].
    change (join_space ("" :: w :: ws)) with ("" +:+ " " +:+ join_space (w :: ws)).
    rewrite IH. reflexivity.
  - pose proof (split_space_nonempty r) as Hne.
    destruct (JS.split_space r) as [|w ws] eqn:E; [congruence|].
    destruct ws as [|w' ws'].
    + simpl in *. rewrite IH. reflexivity.
    + change (join_space (String c w :: w' :: ws'))
        with (String c (w +:+ " " +:+ join_space (w' :: ws'))).
      change (join_space (w :: w' :: ws'))
        with (w +:+ " " +:+ join_space (w' :: ws')) in IH.
      rewrite IH. reflexivity.
Qed.

Lemma start_arg_of_code (code : string) :
  space_free code = true ->
  JsonBot.start_arg ("/start " +:+ code) = Some code
  /\ MongoBot.start_arg ("/start " +:+ code) = Some code.
Proof.
  intros Hc.
  change ("/start " +:+ code) with (join_space ["/start"; code]).
  unfold JsonBot.start_arg, MongoBot.start_arg.
  rewrite split_join_space; [auto|discriminate|].
  repeat constructor. exact Hc.
Qed.

(** ** [src/index.js]: delivery *)

Lemma JsonBot_deliver_run (env : Env) (from : From) (args : string)
    (f : JsonBot.File) (w : World JsonBot.Db) :
  JsonBot.deliver env from args (JS.Own f) w =
    let st := JsonBot.settings (store w) in
    let send := SendFile (JsonBot.fileType f) (JsonBot.fileId f)
                  (JsonBot.caption f) (JsonBot.protect_content st) in
    match sendFile env (JsonBot.fileType f) (JsonBot.fileId f) with
    | None => (Done tt, logged [send; Reply MsgSendError] w)
    | Some mid =>
        (Done tt,
         logged ([send] ++ purge_calls (JsonBot.auto_delete st) mid
                   ++ [LogSend (LogDownloaded (from_id from) args)]) w)
    end.
Proof.
  unfold JsonBot.deliver, try_catch, bind, get_store, tg_sendFile, bind, emit.
  cbn [store calls drawn].
  destruct (sendFile env (JsonBot.fileType f) (JsonBot.fileId f)) as [mid|].
  - unfold ret, JsonBot.autoDelete, bind, get_store, swallow, try_catch, tg_log,
      bind, emit, purge_calls, logged.
    cbn [store calls drawn].
    destruct (0 <? JsonBot.auto_delete (JsonBot.settings (store w)))%Z;
      cbn [store calls drawn]; destruct (log_ok env); cbn;
      rewrite <- ?app_assoc; reflexivity.
  - unfold throw, tg_reply_detached, emit, logged. cbn [store calls drawn].
    rewrite <- app_assoc. reflexivity.
Qed.

Lemma JsonBot_start_redeem (cfg : Config) (env : Env) (from : From)
    (text args : string) (w : World JsonBot.Db) :
  JsonBot.start_arg text = Some args ->
  JS.truthy_str args = true ->
  JsonBot.start cfg env from text w = JsonBot.redeem cfg env from args w.
Proof.
  intros Harg Htruthy. unfold JsonBot.start.
  rewrite Harg. cbn [JS.truthy_opt]. rewrite Htruthy. reflexivity.
Qed.

Lemma JsonBot_redeem_own (cfg : Config) (env : Env) (from : From)
    (args : string) (f : JsonBot.File) (w : World JsonBot.Db) :
  JsonBot.files (store w) !! args = Some f ->
  JsonBot.redeem cfg env from args w = JsonBot.gates cfg env from args (JS.Own f) w.
Proof.
  intros Hf. unfold JsonBot.redeem, bind, get_store, JS.obj_get.
  rewrite Hf. reflexivity.
Qed.

Lemma JsonBot_gates_verified_run (cfg : Config) (env : Env) (from : From)
    (args : string) (file : JS.Lookup JsonBot.File) (u : JsonBot.User)
    (w : World JsonBot.Db) :
  JsonBot.users (store w) !! from_id from = Some u ->
  JsonBot.verified u = true ->
  Forall (lets_through env (from_id from)) (JsonBot.channels (store w)) ->
  JsonBot.gates cfg env from args file w =
    JsonBot.deliver env from args file
      (logged (queries (from_id from) (JsonBot.channels (store w))) w).
Proof.
  intros Hu Hv Hsub.
  unfold JsonBot.gates, bind at 1. rewrite JsonBot_checkSubscription_run.
  cbv zeta. apply missing_nil_iff in Hsub. rewrite Hsub.
  cbn [negb]. unfold bind at 1, get_store at 1, logged. cbn [store calls drawn].
  rewrite Hu. unfold bind, ret, get_store. cbn [store]. rewrite Hu, Hv.
  reflexivity.
Qed.

Lemma JsonBot_gates_blocked_run (cfg : Config) (env : Env) (from : From)
    (args : string) (file : JS.Lookup JsonBot.File) (c : Channel)
    (m : list Channel) (w : World JsonBot.Db) :
  missing env (from_id from) (JsonBot.channels (store w)) = c :: m ->
  JsonBot.gates cfg env from args file w =
    (if reply_ok env (MsgJoinChannels (c :: m)) then Done tt else Thrown "reply",
     logged (queries (from_id from) (JsonBot.channels (store w))
               ++ [Reply (MsgJoinChannels (c :: m))]) w).
Proof.
  intros Hm.
  unfold JsonBot.gates, bind at 1. rewrite JsonBot_checkSubscription_run.
  cbv zeta. rewrite Hm.
  destruct (reply_ok env _); reflexivity.
Qed.

Lemma JsonBot_deliver_start_run (cfg : Config) (env : Env) (from : From)
    (text args : string) (db : JsonBot.Db) (n : nat) (f : JsonBot.File)
    (u : JsonBot.User) :
  JsonBot.start_arg text = Some args ->
  JS.truthy_str args = true ->
  JsonBot.files db !! args = Some f ->
  JsonBot.users db !! from_id from = Some u ->
  JsonBot.verified u = true ->
  Forall (lets_through env (from_id from)) (JsonBot.channels db) ->
  let st := JsonBot.settings db in
  let asked := queries (from_id from) (JsonBot.channels db) in
  let send := SendFile (JsonBot.fileType f) (JsonBot.fileId f)
                (JsonBot.caption f) (JsonBot.protect_content st) in
  JsonBot.start cfg env from text (fresh db n) =
    (Done tt,
     mkWorld db
       (asked ++
        match sendFile env (JsonBot.fileType f) (JsonBot.fileId f) with
        | None => [send; Reply MsgSendError]
        | Some mid =>
            [send] ++ purge_calls (JsonBot.auto_delete st) mid
              ++ [LogSend (LogDownloaded (from_id from) args)]
        end)
       n).
Proof.
  intros Harg Htruthy Hf Hu Hv Hsub. cbv zeta.
  rewrite (JsonBot_start_redeem cfg env from text args _ Harg Htruthy).
  rewrite (JsonBot_redeem_own cfg env from args f) by exact Hf.
  rewrite (JsonBot_gates_verified_run cfg env from args _ u) by assumption.
  rewrite JsonBot_deliver_run. cbv zeta.
  destruct (sendFile env _ _) as [mid|];
    unfold logged, fresh; cbn [store calls drawn app];
    rewrite <- ?app_assoc; reflexivity.
Qed.

Lemma JsonBot_deliver_calls (env : Env) (from : From) (args : string)
    (file : JS.Lookup JsonBot.File) (w : World JsonBot.Db) :
  JsonBot.deliver env from args file w =
    (Done tt,
     logged (json_delivery_calls env from args (JsonBot.settings (store w)) file) w).
Proof.
  destruct file as [f| |].
  - rewrite JsonBot_deliver_run. cbv zeta. unfold json_delivery_calls.
    destruct (sendFile env _ _); reflexivity.
  - reflexivity.
  - reflexivity.
Qed.

Lemma JsonBot_gates_calls (cfg : Config) (env : Env) (from : From)
    (args : string) (file : JS.Lookup JsonBot.File) (db : JsonBot.Db) (n : nat) :
  calls (snd (JsonBot.gates cfg env from args file (fresh db n)))
  = json_gates_calls cfg env from args db file.
Proof.
  unfold json_gates_calls. cbv zeta.
  unfold JsonBot.gates, bind at 1.
  rewrite JsonBot_checkSubscription_run. unfold fresh. cbn [store].
  destruct (missing env (from_id from) (JsonBot.channels db)) as [|c m] eqn:Hm.
  2:{ destruct (reply_ok env _); reflexivity. }
  cbn [negb]. unfold bind at 1, get_store at 1, logged. cbn [store calls drawn app].
  destruct (JsonBot.users db !! from_id from) as [u|] eqn:Hu.
  - unfold bind, ret, get_store. cbn [store]. rewrite Hu. cbn [from_option].
    destruct (JsonBot.verified u) eqn:Hv; cbn [negb].
    + rewrite JsonBot_deliver_calls. reflexivity.
    + rewrite JsonBot_createShortLink_issued. cbv beta iota zeta.
      rewrite tg_reply_run. unfold logged, deep_link. cbn [store calls drawn snd].
      rewrite <- app_assoc. reflexivity.
  - unfold bind, modify_store, get_store. cbn [store JsonBot.set_users JsonBot.users].
    rewrite lookup_insert_eq. cbn [JsonBot.verified negb from_option].
    rewrite JsonBot_createShortLink_issued. cbv beta iota zeta.
    rewrite tg_reply_run. unfold logged, deep_link.
    cbn [store calls drawn snd JsonBot.settings].
    rewrite <- app_assoc. reflexivity.
Qed.

Lemma JsonBot_start_calls (cfg : Config) (env : Env) (from : From)
    (text : string) (db : JsonBot.Db) (n : nat) :
  calls (snd (JsonBot.start cfg env from text (fresh db n)))
  = json_start_calls cfg env from text db.
Proof.
  unfold json_start_calls, JsonBot.start.
  destruct (JsonBot.start_arg text) as [args|]; cbn [JS.truthy_opt].
  2:{ unfold bind, get_store. rewrite tg_reply_run. reflexivity. }
  destruct (JS.truthy_str args).
  2:{ unfold bind, get_store. rewrite tg_reply_run. reflexivity. }
  unfold JsonBot.redeem, bind at 1, get_store at 1. cbn [fresh store].
  destruct (JS.obj_get (JsonBot.files db) args) eqn:E.
  3:{ rewrite tg_reply_run. reflexivity. }
  all: apply JsonBot_gates_calls.
Qed.

Lemma purge_calls_not_delivered (s mid : Z) : ~ delivered (purge_calls s mid).
Proof.
  unfold purge_calls. destruct (0 <? s)%Z; intros H; not_delivered H.
Qed.

Lemma sends_app (a b : list Call) : sends (a ++ b) = sends a ++ sends b.
Proof. apply List.filter_app. Qed.

Lemma sends_queries (uid : Z) (chs : list Channel) : sends (queries uid chs) = [].
Proof. induction chs as [|ch chs IH]; [reflexivity|exact IH]. Qed.

Lemma sends_issued env domain api url : sends (snd (issued env domain api url)) = [].
Proof. unfold issued. destruct (_ && _); reflexivity. Qed.

Lemma sends_purge (s mid : Z) : sends (purge_calls s mid) = [].
Proof. unfold purge_calls. destruct (0 <? s)%Z; reflexivity. Qed.

Lemma sends_delivery (env : Env) (from : From) (args : string)
    (st : JsonBot.Settings) (file : JS.Lookup JsonBot.File) :
  sends (json_delivery_calls env from args st file) =
    match file with
    | JS.Own f =>
        [SendFile (JsonBot.fileType f) (JsonBot.fileId f) (JsonBot.caption f)
           (JsonBot.protect_content st)]
    | _ => []
    end.
Proof.
  destruct file as [f| |]; try reflexivity.
  unfold json_delivery_calls.
  destruct (sendFile env _ _); [|reflexivity].
  rewrite !sends_app, sends_purge. reflexivity.
Qed.

Lemma JsonBot_deliver_start_sends (cfg : Config) (env : Env) (from : From)
    (text args : string) (db : JsonBot.Db) (n : nat) (f : JsonBot.File)
    (u : JsonBot.User) :
  JsonBot.start_arg text = Some args ->
  JS.truthy_str args = true ->
  JsonBot.files db !! args = Some f ->
  JsonBot.users db !! from_id from = Some u ->
  JsonBot.verified u = true ->
  Forall (lets_through env (from_id from)) (JsonBot.channels db) ->
  sends (calls (snd (JsonBot.start cfg env from text (fresh db n))))
  = [SendFile (JsonBot.fileType f) (JsonBot.fileId f) (JsonBot.caption f)
       (JsonBot.protect_content (JsonBot.settings db))].
Proof.
  intros Harg Htruthy Hf Hu Hv Hsub.
  rewrite (JsonBot_deliver_start_run cfg env from text args db n f u
             Harg Htruthy Hf Hu Hv Hsub).
  cbv zeta. cbn [snd calls].
  rewrite sends_app, sends_queries.
  destruct (sendFile env _ _) as [mid|]; [|reflexivity].
  rewrite !sends_app, sends_purge. reflexivity.
Qed.

(** ** What the upload handlers derive from a message *)

Lemma JsonBot_describe_media (up : Upload) (fid : string) (ftype : FileType)
    (cap : option string) :
  JsonBot.describe up = Some (fid, ftype, cap) ->
  media_file_id (media up) = Some fid
  /\ ftype = media_kind (media up)
  /\ (JS.truthy_opt (msg_caption up) = true -> cap = msg_caption up).
Proof.
  unfold JsonBot.describe, media_file_id, media_kind.
  destruct (media up) as [f name size|f name size|f title name size|sizes].
  - intros [= <- <- <-]. repeat split. intros ->. reflexivity.
  - intros [= <- <- <-]. repeat split. intros ->. reflexivity.
  - intros [= <- <- <-]. repeat split. intros ->. reflexivity.
  - destruct (last sizes) as [[f size]|] eqn:E; [|discriminate].
    intros [= <- <- <-]. repeat split. intros ->. reflexivity.
Qed.

Lemma MongoBot_describe_media (up : Upload) (fid : string) (ftype : FileType)
    (fname : option string) (fsize : Z) :
  MongoBot.describe up = Some (fid, ftype, fname, fsize) ->
  media_file_id (media up) = Some fid
  /\ ftype = media_kind (media up)
  /\ (JS.truthy_opt (msg_caption up) = true ->
      JS.or_else (msg_caption up) fname = msg_caption up).
Proof.
  unfold MongoBot.describe, media_file_id, media_kind, JS.or_else.
  destruct (media up) as [f name size|f name size|f title name size|sizes].
  - intros [= <- <- <- <-]. repeat split. intros ->. reflexivity.
  - intros [= <- <- <- <-]. repeat split. intros ->. reflexivity.
  - intros [= <- <- <- <-]. repeat split. intros ->. reflexivity.
  - destruct (last sizes) as [[f size]|] eqn:E; [|discriminate].
    intros [= <- <- <- <-]. repeat split. intros ->. reflexivity.
Qed.

(** ** The MongoDB bot: upload counters *)

Lemma inc_filesShared_lookup (env : Env) (uid : Z) (us : gmap Z MongoBot.User)
    (k : Z) :
  MongoBot.inc_filesShared env uid us !! k =
    if decide (k = uid)
    then Some (match us !! uid with
               | Some u => MongoBot.set_filesShared (MongoBot.filesShared u + 1) u
               | None => MongoBot.set_filesShared 1 (MongoBot.new_user uid (now env))
               end)
    else us !! k.
Proof.
  unfold MongoBot.inc_filesShared.
  destruct (decide (k = uid)) as [->|Hne].
  - destruct (us !! uid); rewrite lookup_insert_eq; reflexivity.
  - destruct (us !! uid); rewrite lookup_insert_ne by congruence; reflexivity.
Qed.

Lemma inc_filesShared_flags (env : Env) (uid k : Z) (us : gmap Z MongoBot.User)
    (u : MongoBot.User) :
  us !! k = Some u ->
  exists u', MongoBot.inc_filesShared env uid us !! k = Some u'
    /\ MongoBot.isVerified u' = MongoBot.isVerified u
    /\ MongoBot.isBanned u' = MongoBot.isBanned u.
Proof.
  intros Hu. rewrite inc_filesShared_lookup.
  destruct (decide (k = uid)) as [->|].
  - rewrite Hu. eexists. split; [reflexivity|]. destruct u; split; reflexivity.
  - exists u. auto.
Qed.

(** ** The MongoDB bot: delivery through either way past the gate *)

Lemma gate_open_lets_through (env : Env) (uid : Z) (chs : list Channel) :
  Forall (lets_through env uid) chs ->
  gate_open env uid chs /\ gate_calls env uid chs = queries uid chs.
Proof.
  intros H. apply missing_nil_iff in H. unfold gate_open, gate_calls.
  rewrite H, app_nil_r. auto.
Qed.

Lemma sends_gate_calls (env : Env) (uid : Z) (chs : list Channel) :
  sends (gate_calls env uid chs) = [].
Proof.
  unfold gate_calls. rewrite sends_app, sends_queries.
  destruct (missing env uid chs); reflexivity.
Qed.

Lemma MongoBot_deliver_start_open (cfg : Config) (env : Env) (from : From)
    (text args : string) (db : MongoBot.Db) (n i : nat) (file : MongoBot.File)
    (u : MongoBot.User) :
  MongoBot.start_arg text = Some args ->
  JS.truthy_str args = true ->
  MongoBot.findOne (MongoBot.active_with_code args) (MongoBot.files db) = Some (i, file) ->
  MongoBot.users db !! from_id from = Some u ->
  MongoBot.isBanned u = false ->
  MongoBot.isVerified u = true ->
  gate_open env (from_id from) (MongoBot.channels db) ->
  let st := MongoBot.settings db in
  let asked := gate_calls env (from_id from) (MongoBot.channels db) in
  let send := SendFile (MongoBot.fileType file) (MongoBot.fileId file)
                (MongoBot.caption file)
                (default false (MongoBot.protect_content st)) in
  MongoBot.start cfg env from text (fresh db n) =
    (Done tt,
     match sendFile env (MongoBot.fileType file) (MongoBot.fileId file) with
     | None =>
         mkWorld (seen env from db) (asked ++ [send; Reply MsgSendError]) n
     | Some mid =>
         mkWorld
           (MongoBot.set_users
              (alter (MongoBot.set_filesAccessed (MongoBot.filesAccessed u + 1))
                 (from_id from))
              (MongoBot.set_files
                 (alter (MongoBot.set_downloads (MongoBot.downloads file + 1)) i)
                 (seen env from db)))
           (asked ++ [send]
              ++ [LogSend (LogDownloaded (from_id from) args)]
              ++ purge_calls (default 0 (MongoBot.auto_delete st)) mid)
           n
     end).
Proof.
  intros Harg Htruthy Hfile Hu Hban Hver Hopen. cbv zeta.
  rewrite (MongoBot_start_run cfg env from text args db n Harg Htruthy).
  rewrite (MongoBot_redeem_gated cfg env from args _ i file (touched env from u)).
  2: exact Hfile.
  2: { cbn [store fresh]. rewrite seen_lookup, Hu. reflexivity. }
  2: { exact Hban. }
  cbv zeta. cbn [store fresh seen MongoBot.set_users MongoBot.channels].
  unfold gate_open, gate_calls in *.
  replace (MongoBot.isVerified (touched env from u)) with true
    by (symmetry; exact Hver).
  destruct (missing env (from_id from) (MongoBot.channels db)) as [|c m].
  - rewrite MongoBot_deliver_run. cbv zeta.
    destruct (sendFile env _ _) as [mid|]; cbn [snd];
      unfold logged, stored, fresh;
      cbn [store calls drawn seen MongoBot.settings MongoBot.set_users
             MongoBot.set_files app];
      rewrite ?app_nil_r, <- ?app_assoc; reflexivity.
  - rewrite Hopen. rewrite MongoBot_deliver_run. cbv zeta.
    destruct (sendFile env _ _) as [mid|]; cbn [snd];
      unfold logged, stored, fresh;
      cbn [store calls drawn seen MongoBot.settings MongoBot.set_users
             MongoBot.set_files app];
      rewrite <- ?app_assoc; reflexivity.
Qed.

Lemma MongoBot_deliver_start_sends (cfg : Config) (env : Env) (from : From)
    (text args : string) (db : MongoBot.Db) (n i : nat) (file : MongoBot.File)
    (u : MongoBot.User) :
  MongoBot.start_arg text = Some args ->
  JS.truthy_str args = true ->
  MongoBot.findOne (MongoBot.active_with_code args) (MongoBot.files db) = Some (i, file) ->
  MongoBot.users db !! from_id from = Some u ->
  MongoBot.isBanned u = false ->
  MongoBot.isVerified u = true ->
  gate_open env (from_id from) (MongoBot.channels db) ->
  sends (calls (snd (MongoBot.start cfg env from text (fresh db n))))
  = [SendFile (MongoBot.fileType file) (MongoBot.fileId file) (MongoBot.caption file)
       (default false (MongoBot.protect_content (MongoBot.settings db)))].
Proof.
  intros Harg Htruthy Hfile Hu Hban Hver Hopen.
  rewrite (MongoBot_deliver_start_open cfg env from text args db n i file u
             Harg Htruthy Hfile Hu Hban Hver Hopen).
  cbv zeta. cbn [snd].
  destruct (sendFile env _ _) as [mid|]; cbn [calls];
    rewrite !sends_app, sends_gate_calls, ?sends_purge; reflexivity.
Qed.

(** ** The claims *)




(** C2 (code defect in [src/index.js]): the upload handler stores the file
    under the drawn code without consulting [db.files].  When the draw is a
    code already issued, that code is issued again and the earlier record
    is replaced by the new one. *)
Theorem C2_json_upload_reissues_taken_code (cfg : Config) (env : Env)
    (from : From) (up : Upload) (db : JsonBot.Db) (n : nat)
    (earlier : JsonBot.File) :
  well_formed up ->
  JsonBot.files db !! random env n = Some earlier ->
  let r := JsonBot.upload cfg env from up (fresh db n) in
  let code := random env n in
  fst r = (if reply_ok env (MsgUploaded (deep_link cfg code) code)
           then Done code else Thrown "reply")
  /\ exists record,
       JsonBot.files (store (snd r)) !! code = Some record
       /\ JsonBot.uploadedBy record = from_id from
       /\ JsonBot.uploadedAt record = now env
       /\ dom (JsonBot.files (store (snd r))) = dom (JsonBot.files db).
Proof.
  intros Hwf Hold. cbv zeta.
  destruct (JsonBot_describe_Some up Hwf) as [[[fid ftype] cap] Hd].
  rewrite (JsonBot_upload_run cfg env from up db n fid ftype cap Hd).
  cbv zeta. cbn [fst snd store JsonBot.set_files JsonBot.files].
  split; [reflexivity|]. eexists. split; [apply lookup_insert_eq|].
  split; [reflexivity|]. split; [reflexivity|].
  rewrite dom_insert_L. apply subseteq_union_1_L, singleton_subseteq_l.
  apply elem_of_dom_2 in Hold. exact Hold.
Qed.

Lemma C2_collision_witness :
  let r := JsonBot.upload ex_cfg ex_env ada ex_upload (fresh ex_jdb 0) in
  fst r = Done "a1b2c3d4"
  /\ exists record,
       JsonBot.files (store (snd r)) !! "a1b2c3d4" = Some record
       /\ JsonBot.uploadedBy record = 42
       /\ JsonBot.uploadedAt record = 1700000000
       /\ dom (JsonBot.files (store (snd r))) = dom (JsonBot.files ex_jdb).
Proof.
  apply (C2_json_upload_reissues_taken_code ex_cfg ex_env ada ex_upload ex_jdb 0
           ex_json_file).
  - exact I.
  - reflexivity.
Defined.

(** The sibling path in action: after the soft delete of [a1b2c3d4], the
    code loop of the MongoDB upload handler, whose first draw is that
    retired code, draws again. *)
Lemma mongo_retired_code_is_not_reissued :
  MongoBot.fresh_code env_redraw 2 (fresh ex_mdb_deleted 0)
    = (Done "k9z8y7x6", mkWorld ex_mdb_deleted [] 2).
Proof. reflexivity. Qed.

(** C3 (as amended): the subscription check of both bots records as missing
    exactly the configured channels whose membership query answered with a
    status other than member, administrator or creator, in configured order;
    a channel whose query fails is not recorded.  With nothing missing the
    check passes; otherwise it sends one join prompt listing the missing
    channels and fails (in the MongoDB bot it passes when that prompt cannot
    be sent). *)
Theorem C3_membership_classification (env : Env) (from : From)
    (jw : World JsonBot.Db) (mw : World MongoBot.Db) :
  let uid := from_id from in
  (forall chs ch,
     ch ∈ missing env uid chs <->
     ch ∈ chs /\
     exists status, getChatMember env (channelId ch) uid = Some status
                    /\ status ∉ ["member"; "administrator"; "creator"])
  /\ (forall S (w : World S) chs,
        collect_notJoined env uid chs [] w
        = (Done (missing env uid chs), logged (queries uid chs) w))
  /\ JsonBot.checkSubscription env from jw =
       (let chs := JsonBot.channels (store jw) in
        match missing env uid chs with
        | [] => (Done true, logged (queries uid chs) jw)
        | m =>
            (if reply_ok env (MsgJoinChannels m) then Done false
             else Thrown "reply",
             logged (queries uid chs ++ [Reply (MsgJoinChannels m)]) jw)
        end)
  /\ MongoBot.checkSubscription env from mw =
       (let chs := MongoBot.channels (store mw) in
        match missing env uid chs with
        | [] => (Done true, logged (queries uid chs) mw)
        | m =>
            (Done (negb (reply_ok env (MsgJoinChannels m))),
             logged (queries uid chs ++ [Reply (MsgJoinChannels m)]) mw)
        end).
Proof.
  cbv zeta. split; [|split; [|split]].
  - intros chs ch. rewrite elem_of_missing. split.
    + intros [Hin (status & Hq & Hs)]. split; [exact Hin|].
      exists status. split; [exact Hq|].
      rewrite <- satisfying_iff, Hs. discriminate.
    + intros [Hin (status & Hq & Hs)]. split; [exact Hin|].
      exists status. split; [exact Hq|].
      rewrite <- satisfying_iff in Hs. destruct (satisfying status); congruence.
  - intros S w chs. apply collect_notJoined_run.
  - apply JsonBot_checkSubscription_run.
  - apply MongoBot_checkSubscription_run.
Qed.

(** C3 (as stated) fails: in both bots a channel whose membership query
    fails is left out of the missing set, no join prompt is sent and the
    check passes. *)
Lemma C3_failed_query_is_skipped :
  getChatMember env_query_fails (channelId ex_channel) 42 = None
  /\ (ex_channel ∉ missing env_query_fails 42 [ex_channel])
  /\ JsonBot.checkSubscription env_query_fails ada (fresh ex_jdb 0)
     = (Done true, mkWorld ex_jdb [GetChatMember "-1001234" 42] 0)
  /\ MongoBot.checkSubscription env_query_fails ada (fresh (ex_mdb true false) 0)
     = (Done true, mkWorld (ex_mdb true false) [GetChatMember "-1001234" 42] 0).
Proof.
  split; [reflexivity|]. split; [|split; reflexivity].
  cbn. apply not_elem_of_nil.
Qed.

(** C4 (code defect in the MongoDB bot): the verify action writes the path
    [verified], which [UserSchema] does not declare, while the gate reads
    [isVerified].  After the action the user's record carries a
    [verifiedAt] date, yet [isVerified] is what it was before (false for a
    new record). *)
Theorem C4_mongo_verify_leaves_isVerified (env : Env) (from : From)
    (code : string) (db : MongoBot.Db) (n : nat) :
  exists u',
    MongoBot.users (store (snd (MongoBot.verify env from code (fresh db n))))
      !! from_id from = Some u'
    /\ MongoBot.verifiedAt u' = Some (now env)
    /\ MongoBot.isVerified u'
       = from_option MongoBot.isVerified false (MongoBot.users db !! from_id from).
Proof. apply MongoBot_verify_flag. Qed.

(** The user is told the verification succeeded and is asked to verify
    again on the next redemption. *)
Lemma mongo_verified_user_is_challenged_again :
  let w1 := snd (MongoBot.verify ex_env ada "a1b2c3d4" (fresh (ex_mdb false false) 0)) in
  let w2 := snd (MongoBot.start ex_cfg ex_env ada "/start a1b2c3d4"
                   (fresh (store w1) 0)) in
  calls w1 = [AnswerCbQuery true; Reply MsgVerified; LogSend (LogVerified 42)]
  /\ calls w2
     = [GetChatMember "-1001234" 42;
        AxiosGet (api_url "https://sho.rt" "KEY" (deep_link ex_cfg "a1b2c3d4"));
        Reply (MsgVerificationRequired (JS.Of (JS.JStr "https://sho.rt/x1"))
                 "verify_a1b2c3d4")].
Proof. split; reflexivity. Qed.

(** C5 (code defect in [src/index.js]): [db.files[args]] is a lookup in a
    plain object, so the unknown code [constructor] finds the inherited
    member and is not rejected.  A verified requester goes through the
    subscription check and gets the send-error reply; an unverified one is
    sent the verification prompt for that code. *)
Theorem C5_json_inherited_name_is_not_rejected :
  JsonBot.files ex_jdb !! "constructor" = None
  /\ JsonBot.start ex_cfg ex_env ada "/start constructor" (fresh ex_jdb 0)
     = (Done tt, mkWorld ex_jdb [GetChatMember "-1001234" 42; Reply MsgSendError] 0)
  /\ JsonBot.start ex_cfg ex_env ada "/start constructor"
       (fresh ex_jdb_unverified 0)
     = (Done tt,
        mkWorld ex_jdb_unverified
          [GetChatMember "-1001234" 42;
           AxiosGet (api_url "https://sho.rt" "KEY"
                       (deep_link ex_cfg "constructor"));
           Reply (MsgVerificationRequired (JS.Of (JS.JStr "https://sho.rt/x1"))
                    "verify_constructor")]
          0).
Proof. split; [reflexivity|]. split; reflexivity. Qed.

(** In the MongoDB bot a soft-deleted file is not found, whoever asks. *)
Lemma mongo_soft_deleted_is_not_found :
  MongoBot.start ex_cfg ex_env ada "/start a1b2c3d4" (fresh ex_mdb_deleted 0)
    = (Done tt, mkWorld (seen ex_env ada ex_mdb_deleted) [Reply MsgNotFound] 0).
Proof.
  apply (MongoBot_unknown_is_not_found ex_cfg ex_env ada "/start a1b2c3d4"
           "a1b2c3d4" ex_mdb_deleted 0); try reflexivity.
  repeat constructor.
Qed.

(** C6: in the MongoDB bot a redemption of an active file by a banned user
    ends at the ban check: the one outbound call is the "banned" reply, so
    no membership query, no shortener request and no file send is made, and
    the file documents (their [views] and [downloads]) are untouched. *)
Theorem C6_banned_user_is_blocked (cfg : Config) (env : Env) (from : From)
    (text args : string) (db : MongoBot.Db) (n i : nat) (file : MongoBot.File)
    (u : MongoBot.User) :
  MongoBot.start_arg text = Some args ->
  JS.truthy_str args = true ->
  MongoBot.findOne (MongoBot.active_with_code args) (MongoBot.files db)
    = Some (i, file) ->
  MongoBot.users db !! from_id from = Some u ->
  MongoBot.isBanned u = true ->
  let r := MongoBot.start cfg env from text (fresh db n) in
  calls (snd r) = [Reply MsgBanned]
  /\ fst r = (if reply_ok env MsgBanned then Done tt else Thrown "reply")
  /\ MongoBot.files (store (snd r)) = MongoBot.files db.
Proof.
  intros Harg Htruthy Hfile Hu Hban. cbv zeta.
  rewrite (MongoBot_banned_run cfg env from text args db n i file u
             Harg Htruthy Hfile Hu Hban).
  repeat split.
Qed.

Lemma C6_banned_witness :
  let r := MongoBot.start ex_cfg ex_env ada "/start a1b2c3d4"
             (fresh (ex_mdb true true) 0) in
  calls (snd r) = [Reply MsgBanned]
  /\ fst r = Done tt
  /\ MongoBot.files (store (snd r)) = [ex_mongo_file].
Proof.
  apply (C6_banned_user_is_blocked ex_cfg ex_env ada "/start a1b2c3d4"
           "a1b2c3d4" (ex_mdb true true) 0 0 ex_mongo_file
           (ex_mongo_user true true)); reflexivity.
Defined.

(** The same through the admin command: once the owner has run [/ban 42],
    the user's redemption is blocked. *)
Lemma mongo_ban_then_redeem :
  let banned :=
    store (snd (MongoBot.ban ex_cfg ex_env root (Some 42)
                  (fresh (ex_mdb true false) 0))) in
  calls (snd (MongoBot.start ex_cfg ex_env ada "/start a1b2c3d4" (fresh banned 0)))
    = [Reply MsgBanned].
Proof. reflexivity. Qed.



(** C8 (as amended): in the MongoDB bot, when a redemption reaches the
    delivery step, that is, the file is active, the requester is verified
    and not banned, and the subscription check answers [true] (no channel
    counts as not joined, or the join prompt could not be sent), and the
    transport send fails, the handler ends normally after the generic
    reply "Error sending file. Please contact admin.", the file documents
    are unchanged (so [downloads] is) and the requester's [filesAccessed]
    is unchanged; when the send succeeds, the [downloads] of the file and
    the [filesAccessed] of the requester each grow by exactly one and no
    other file document changes. *)
Theorem C8_failed_send_mutates_no_counter (cfg : Config) (env : Env)
    (from : From) (text args : string) (db : MongoBot.Db) (n i : nat)
    (file : MongoBot.File) (u : MongoBot.User) :
  MongoBot.start_arg text = Some args ->
  JS.truthy_str args = true ->
  MongoBot.findOne (MongoBot.active_with_code args) (MongoBot.files db)
    = Some (i, file) ->
  MongoBot.users db !! from_id from = Some u ->
  MongoBot.isBanned u = false ->
  MongoBot.isVerified u = true ->
  gate_open env (from_id from) (MongoBot.channels db) ->
  let r := MongoBot.start cfg env from text (fresh db n) in
  let files' := MongoBot.files (store (snd r)) in
  let accessed :=
    MongoBot.filesAccessed <$> (MongoBot.users (store (snd r)) !! from_id from) in
  match sendFile env (MongoBot.fileType file) (MongoBot.fileId file) with
  | None =>
      fst r = Done tt
      /\ last (calls (snd r)) = Some (Reply MsgSendError)
      /\ error_text MsgSendError = Some "Error sending file. Please contact admin."
      /\ files' = MongoBot.files db
      /\ (MongoBot.downloads <$> files' !! i) = Some (MongoBot.downloads file)
      /\ accessed = Some (MongoBot.filesAccessed u)
  | Some _ =>
      fst r = Done tt
      /\ (MongoBot.downloads <$> files' !! i) = Some (MongoBot.downloads file + 1)
      /\ files' !! i
         = Some (MongoBot.mkFile (MongoBot.fileId file) (MongoBot.fileUniqueId file)
                   (MongoBot.fileType file) (MongoBot.fileName file)
                   (MongoBot.fileSize file) (MongoBot.caption file)
                   (MongoBot.shortCode file) (MongoBot.uploadedBy file)
                   (MongoBot.views file) (MongoBot.downloads file + 1)
                   (MongoBot.isActive file) (MongoBot.createdAt file))
      /\ (forall j, j <> i -> files' !! j = MongoBot.files db !! j)
      /\ accessed = Some (MongoBot.filesAccessed u + 1)
  end.
Proof.
  intros Harg Htruthy Hfile Hu Hban Hver Hopen. cbv zeta.
  rewrite (MongoBot_deliver_start_open cfg env from text args db n i file u
             Harg Htruthy Hfile Hu Hban Hver Hopen).
  cbv zeta. cbn [fst snd].
  pose proof (findOne_Some _ _ _ _ Hfile) as [Hl _].
  destruct (sendFile env (MongoBot.fileType file) (MongoBot.fileId file)) as [mid|];
    cbn [store calls].
  - cbn [MongoBot.set_users MongoBot.set_files MongoBot.files seen].
    split; [reflexivity|]. split.
    { rewrite list_lookup_alter_eq, Hl. reflexivity. }
    split.
    { rewrite list_lookup_alter_eq, Hl. destruct file; reflexivity. }
    split.
    { intros j Hj. apply list_lookup_alter_ne. congruence. }
    cbn [MongoBot.set_users MongoBot.users].
    rewrite lookup_alter_eq.
    change (MongoBot.users (MongoBot.set_files _ (seen env from db)))
      with (MongoBot.users (seen env from db)).
    rewrite seen_lookup, Hu. reflexivity.
  - split; [reflexivity|]. split.
    + change [SendFile (MongoBot.fileType file) (MongoBot.fileId file)
                (MongoBot.caption file)
                (default false (MongoBot.protect_content (MongoBot.settings db)));
              Reply MsgSendError]
        with ([SendFile (MongoBot.fileType file) (MongoBot.fileId file)
                 (MongoBot.caption file)
                 (default false (MongoBot.protect_content (MongoBot.settings db)))]
              ++ [Reply MsgSendError]).
      rewrite app_assoc. apply last_snoc.
    + split; [reflexivity|]. split; [reflexivity|].
      split; [cbn [seen MongoBot.set_users MongoBot.files]; rewrite Hl; reflexivity|].
      apply seen_counters. exact Hu.
Qed.

(** The witness takes the second way to the delivery step: the requester
    has left the channel, the join prompt cannot be sent, and the send
    fails. *)
Lemma C8_failed_send_witness :
  let r := MongoBot.start ex_cfg env_left_nothing_sent ada "/start a1b2c3d4"
             (fresh (ex_mdb true false) 0) in
  fst r = Done tt
  /\ last (calls (snd r)) = Some (Reply MsgSendError)
  /\ error_text MsgSendError = Some "Error sending file. Please contact admin."
  /\ MongoBot.files (store (snd r)) = [ex_mongo_file]
  /\ (MongoBot.downloads <$> MongoBot.files (store (snd r)) !! 0%nat) = Some 5
  /\ MongoBot.filesAccessed <$> (MongoBot.users (store (snd r)) !! 42) = Some 2.
Proof.
  apply (C8_failed_send_mutates_no_counter ex_cfg env_left_nothing_sent ada
           "/start a1b2c3d4" "a1b2c3d4" (ex_mdb true false) 0 0 ex_mongo_file
           (ex_mongo_user true false));
    reflexivity.
Defined.

(** C8 (as stated) fails in one point: the reply after a failed send is
    not the try-again-later message, which the handler keeps for errors
    outside the delivery step, but the one that refers the user to the
    admin. *)
Lemma C8_reply_is_not_retry_later :
  let r := MongoBot.start ex_cfg env_send_fails ada "/start a1b2c3d4"
             (fresh (ex_mdb true false) 0) in
  last (calls (snd r)) = Some (Reply MsgSendError)
  /\ (Reply MsgInternalError ∉ calls (snd r))
  /\ error_text MsgSendError = Some "Error sending file. Please contact admin."
  /\ error_text MsgInternalError = Some "An error occurred. Please try again later.".
Proof.
  split; [reflexivity|]. split; [|split; reflexivity].
  cbn. intros H. repeat (apply elem_of_cons in H as [H|H]; [discriminate|]).
  apply not_elem_of_nil in H. exact H.
Qed.

(** C9 (code defect, both bots): when the shortener answers 200 with a
    body that carries no [shortenedUrl] and does not report an error (an
    object without that field, or a page that is not JSON),
    [createShortLink] returns [undefined], not the link it was given. *)
Theorem C9_malformed_body_yields_undefined :
  let url := deep_link ex_cfg "a1b2c3d4" in
  fst (JsonBot.createShortLink env_bad_body url (fresh ex_jdb 0)) = Done JS.Undefined
  /\ fst (MongoBot.createShortLink env_bad_body url (fresh (ex_mdb false false) 0))
     = Done JS.Undefined
  /\ fst (JsonBot.createShortLink env_html_body url (fresh ex_jdb 0))
     = Done JS.Undefined
  /\ fst (MongoBot.createShortLink env_html_body url (fresh (ex_mdb false false) 0))
     = Done JS.Undefined
  /\ JS.Undefined <> JS.Of (JS.JStr url).
Proof. repeat split; try reflexivity. discriminate. Qed.

(** The prompt built from such an answer has no link. *)
Lemma mongo_challenge_without_link :
  calls (snd (MongoBot.start ex_cfg env_bad_body ada "/start a1b2c3d4"
                (fresh (ex_mdb false false) 0)))
  = [GetChatMember "-1001234" 42;
     AxiosGet (api_url "https://sho.rt" "KEY" (deep_link ex_cfg "a1b2c3d4"));
     Reply (MsgVerificationRequired JS.Undefined "verify_a1b2c3d4")].
Proof. reflexivity. Qed.

(** C10 (code defect in the MongoDB bot): the upload handlers of both
    bots apply no gate: whatever the database says about the uploader
    (banned, unverified, member of no channel, or unknown), no membership
    query is made, and what the handler answers and stores is the same.

    In [src/index.js] every well-formed upload is accepted: the record
    stored under the issued code carries the file id and kind of the
    media sent, the caption of the message if it has one, and the
    uploader; the reply carries the share link
    [https://t.me/<bot>?start=<code>]; and the link works: if the code is
    not empty, [/start <code>] of a verified requester whom every channel
    lets through hands exactly that file to the transport.

    In the MongoDB bot the same holds as long as no document of the file
    collection lacks [fileUniqueId].  The handler itself stores every
    document without that field, which the schema declares unique: once
    a document without it is there, the insert of the next upload is
    refused, the handler answers "Error uploading file. Please try
    again.", and neither a file document nor the uploader's [filesShared]
    is written. *)
Theorem C10_upload_ungated_mongo_refuses_second (cfg : Config) (env : Env)
    (from : From) (up : Upload) (jdb : JsonBot.Db) (mdb : MongoBot.Db)
    (n k fuel : nat) :
  well_formed up ->
  (forall j, (j < k)%nat -> random env (n + j) ∈ codes mdb) ->
  random env (n + k) ∉ codes mdb ->
  (k < fuel)%nat ->
  let rj := JsonBot.upload cfg env from up (fresh jdb n) in
  let rm := MongoBot.upload cfg env fuel from up (fresh mdb n) in
  let jcode := random env n in
  let mcode := random env (n + k) in
  let janswer := MsgUploaded (deep_link cfg jcode) jcode in
  let manswer := MsgUploaded (deep_link cfg mcode) mcode in
  (fst rj = (if reply_ok env janswer then Done jcode else Thrown "reply")
   /\ last (calls (snd rj)) = Some (Reply janswer)
   /\ Forall (fun c => is_GetChatMember c = false) (calls (snd rj))
   /\ JsonBot.users (store (snd rj)) = JsonBot.users jdb
   /\ exists record,
        JsonBot.files (store (snd rj)) !! jcode = Some record
        /\ media_file_id (media up) = Some (JsonBot.fileId record)
        /\ JsonBot.fileType record = media_kind (media up)
        /\ (JS.truthy_opt (msg_caption up) = true ->
            JsonBot.caption record = msg_caption up)
        /\ JsonBot.uploadedBy record = from_id from
        /\ (JS.truthy_str jcode = true -> space_free jcode = true ->
            forall (env2 : Env) (req : From) (u : JsonBot.User) (n' : nat),
              JsonBot.users jdb !! from_id req = Some u ->
              JsonBot.verified u = true ->
              Forall (lets_through env2 (from_id req)) (JsonBot.channels jdb) ->
              sends (calls (snd (JsonBot.start cfg env2 req ("/start " +:+ jcode)
                                   (fresh (store (snd rj)) n'))))
              = [SendFile (JsonBot.fileType record) (JsonBot.fileId record)
                   (JsonBot.caption record)
                   (JsonBot.protect_content (JsonBot.settings jdb))]))
  /\ Forall (fun c => is_GetChatMember c = false) (calls (snd rm))
  /\ (takes_upload mdb ->
      fst rm = Done (if reply_ok env manswer then Some mcode else None)
      /\ Reply manswer ∈ calls (snd rm)
      /\ exists record,
           MongoBot.files (store (snd rm)) = MongoBot.files mdb ++ [record]
           /\ MongoBot.shortCode record = mcode
           /\ MongoBot.isActive record = true
           /\ MongoBot.views record = 0
           /\ MongoBot.downloads record = 0
           /\ media_file_id (media up) = Some (MongoBot.fileId record)
           /\ MongoBot.fileType record = media_kind (media up)
           /\ (JS.truthy_opt (msg_caption up) = true ->
               MongoBot.caption record = msg_caption up)
           /\ MongoBot.uploadedBy record = from_id from
           /\ (JS.truthy_str mcode = true -> space_free mcode = true ->
               forall (env2 : Env) (req : From) (u : MongoBot.User) (n' : nat),
                 MongoBot.users mdb !! from_id req = Some u ->
                 MongoBot.isBanned u = false ->
                 MongoBot.isVerified u = true ->
                 gate_open env2 (from_id req) (MongoBot.channels mdb) ->
                 sends (calls (snd (MongoBot.start cfg env2 req ("/start " +:+ mcode)
                                      (fresh (store (snd rm)) n'))))
                 = [SendFile (MongoBot.fileType record) (MongoBot.fileId record)
                      (MongoBot.caption record)
                      (default false
                         (MongoBot.protect_content (MongoBot.settings mdb)))]))
  /\ (Exists (fun g => MongoBot.fileUniqueId g = None) (MongoBot.files mdb) ->
      rm = (Done None, mkWorld mdb [Reply MsgUploadError] (n + Datatypes.S k))).
Proof.
  intros Hwf Htaken Hfree Hfuel. cbv zeta.
  split; [|split; [|split]].
  - destruct (JsonBot_describe_Some up Hwf) as [[[fid ftype] cap] Hd].
    destruct (JsonBot_describe_media up fid ftype cap Hd) as (Hid & Hkind & Hcap).
    rewrite (JsonBot_upload_run cfg env from up jdb n fid ftype cap Hd).
    cbv zeta. cbn [fst snd store calls].
    split; [reflexivity|]. split; [apply last_snoc|].
    split; [apply Forall_app; split; [apply upload_log_no_query|repeat constructor]|].
    split; [reflexivity|].
    exists (JsonBot.mkFile fid ftype cap (from_id from) (now env)).
    cbn [JsonBot.set_files JsonBot.files JsonBot.fileId JsonBot.fileType
           JsonBot.caption JsonBot.uploadedBy].
    split; [apply lookup_insert_eq|]. split; [exact Hid|]. split; [exact Hkind|].
    split; [exact Hcap|]. split; [reflexivity|].
    intros Htruthy Hsf env2 req u n' Hu Hv Hsub.
    destruct (start_arg_of_code (random env n) Hsf) as [Harg _].
    rewrite (JsonBot_deliver_start_sends cfg env2 req _ (random env n) _ n'
               (JsonBot.mkFile fid ftype cap (from_id from) (now env)) u
               Harg Htruthy); try assumption; [reflexivity|].
    cbn [JsonBot.set_files JsonBot.files]. apply lookup_insert_eq.
  - destruct (MongoBot_describe_Some up Hwf) as [[[[fid ftype] fname] fsize] Hd].
    rewrite (MongoBot_upload_with_code cfg env fuel from up _ _ _ fid ftype fname
               fsize Hd
               (MongoBot_fresh_code_run env k fuel (fresh mdb n) Htaken Hfree Hfuel)).
    cbn [fresh store calls drawn app].
    destruct (existsb _ _); cbn [snd calls logged app]; [repeat constructor|].
    apply Forall_app. split; [apply upload_log_no_query|].
    destruct (reply_ok env _); repeat constructor.
  - intros Htakes.
    destruct (MongoBot_describe_Some up Hwf) as [[[[fid ftype] fname] fsize] Hd].
    destruct (MongoBot_describe_media up fid ftype fname fsize Hd)
      as (Hid & Hkind & Hcap).
    rewrite (MongoBot_upload_run cfg env from up mdb n k fuel fid ftype fname
               fsize Hd Htaken Hfree Hfuel Htakes).
    cbv zeta. cbn [fst snd store calls].
    split; [reflexivity|]. split.
    { apply elem_of_app. right. apply elem_of_app. left.
      apply list_elem_of_singleton. reflexivity. }
    set (record := MongoBot.mkFile fid None ftype fname fsize
                     (JS.or_else (msg_caption up) fname) (random env (n + k))
                     (from_id from) 0 0 true (now env)).
    exists record.
    cbn [MongoBot.set_users MongoBot.set_files MongoBot.files].
    do 5 (split; [reflexivity|]).
    split; [exact Hid|]. split; [exact Hkind|]. split; [exact Hcap|].
    split; [reflexivity|].
    intros Htruthy Hsf env2 req u n' Hu Hban Hver Hopen.
    destruct (start_arg_of_code (random env (n + k)) Hsf) as [_ Harg].
    destruct (inc_filesShared_flags env (from_id from) (from_id req)
                (MongoBot.users mdb) u Hu) as (u' & Hu' & Hv' & Hb').
    apply (MongoBot_deliver_start_sends cfg env2 req _ (random env (n + k))
             (MongoBot.set_users (MongoBot.inc_filesShared env (from_id from))
                (MongoBot.set_files (fun fs => fs ++ [record]) mdb))
             n' (length (MongoBot.files mdb)) record u' Harg Htruthy).
    + cbn [MongoBot.set_users MongoBot.set_files MongoBot.files].
      apply fresh_record_found; [exact Hfree|reflexivity|reflexivity].
    + exact Hu'.
    + congruence.
    + congruence.
    + exact Hopen.
  - intros Hlack.
    apply MongoBot_upload_refused; assumption.
Qed.

(** A banned uploader: [src/index.js] accepts the file, and the MongoDB
    bot, whose collection already holds a document, refuses it with the
    error reply. *)
Lemma C10_banned_uploader_witness :
  fst (JsonBot.upload ex_cfg env_redraw ada ex_upload (fresh ex_jdb_unverified 0))
    = Done "a1b2c3d4"
  /\ MongoBot.upload ex_cfg env_redraw 2 ada ex_upload (fresh (ex_mdb false true) 0)
     = (Done None, mkWorld (ex_mdb false true) [Reply MsgUploadError] 2).
Proof.
  destruct (C10_upload_ungated_mongo_refuses_second ex_cfg env_redraw ada ex_upload
              ex_jdb_unverified (ex_mdb false true) 0 1 2)
    as ((Hj & _) & _ & _ & Hm).
  - exact I.
  - intros j Hj. assert (j = 0%nat) as -> by lia.
    apply list_elem_of_singleton. reflexivity.
  - intros H. apply list_elem_of_singleton in H. discriminate.
  - lia.
  - split; [exact Hj|]. apply Hm. constructor. reflexivity.
Defined.

(** The first upload to the MongoDB bot goes through; the second, with a
    code never issued before, is refused and leaves the collections as
    they were. *)
Lemma mongo_second_upload_is_refused :
  let w1 := snd (MongoBot.upload ex_cfg env_redraw 2 ada ex_upload
                   (fresh (ex_mdb_empty true false) 0)) in
  MongoBot.shortCode <$> MongoBot.files (store w1) = ["a1b2c3d4"]
  /\ MongoBot.upload ex_cfg env_redraw 2 ada ex_upload (fresh (store w1) (drawn w1))
     = (Done None, mkWorld (store w1) [Reply MsgUploadError] 2).
Proof. split; reflexivity. Qed.

(** When the draw is the empty string, [src/index.js] stores the record
    under the empty code and answers with a link whose payload is empty;
    following that link sends no file. *)
Lemma json_empty_code_is_not_redeemable :
  let env := mkEnv (getChatMember ex_env) (axios_get ex_env) (sendFile ex_env)
               (reply_ok ex_env) true true (fun _ => "") (now ex_env) in
  let r := JsonBot.upload ex_cfg env ada ex_upload (fresh ex_jdb 0) in
  fst r = Done ""
  /\ last (calls (snd r))
     = Some (Reply (MsgUploaded "https://t.me/filestorebot?start=" ""))
  /\ sends (calls (snd (JsonBot.start ex_cfg env ada "/start "
                          (fresh (store (snd r)) 1)))) = [].
Proof. repeat split; reflexivity. Qed.

(** * Further properties of the code *)

(** ** Percent-encoding *)

Lemma hex_digit_code (k : nat) :
  (k < 16)%nat ->
  nat_of_ascii (JS.hex_digit k) = if (k <? 10)%nat then (48 + k)%nat else (55 + k)%nat.
Proof.
  intros Hk. unfold JS.hex_digit.
  destruct (k <? 10)%nat; apply nat_ascii_embedding; lia.
Qed.

Lemma hex_digit_unreserved (k : nat) :
  (k < 16)%nat -> JS.uri_unreserved (JS.hex_digit k) = true.
Proof.
  intros Hk.
  do 16 (destruct k as [|k]; [reflexivity|]). lia.
Qed.

Lemma hex_digit_inj (j k : nat) :
  (j < 16)%nat -> (k < 16)%nat -> JS.hex_digit j = JS.hex_digit k -> j = k.
Proof.
  intros Hj Hk E. apply (f_equal nat_of_ascii) in E.
  rewrite !hex_digit_code in E by assumption.
  destruct (j <? 10)%nat eqn:Ej, (k <? 10)%nat eqn:Ek;
    try apply Nat.ltb_lt in Ej; try apply Nat.ltb_lt in Ek;
    try apply Nat.ltb_ge in Ej; try apply Nat.ltb_ge in Ek; lia.
Qed.

Lemma nat_of_ascii_bound (c : ascii) : (nat_of_ascii c < 256)%nat.
Proof. apply nat_ascii_bounded. Qed.

Lemma encodeURIComponent_cons (c : ascii) (r : string) :
  JS.encodeURIComponent (String c r) =
    if JS.uri_unreserved c then String c (JS.encodeURIComponent r)
    else String "%" (String (JS.hex_digit (nat_of_ascii c / 16))
           (String (JS.hex_digit (nat_of_ascii c mod 16))
              (JS.encodeURIComponent r))).
Proof. reflexivity. Qed.

Lemma encodeURIComponent_safe (s : string) :
  uri_safe (JS.encodeURIComponent s) = true.
Proof.
  induction s as [|c r IH]; [reflexivity|].
  rewrite encodeURIComponent_cons.
  destruct (JS.uri_unreserved c) eqn:Hc.
  - simpl. rewrite Hc, IH. reflexivity.
  - pose proof (nat_of_ascii_bound c) as Hb.
    assert (nat_of_ascii c / 16 < 16)%nat as Hhi
      by (apply Nat.Div0.div_lt_upper_bound; lia).
    assert (nat_of_ascii c mod 16 < 16)%nat as Hlo
      by (apply Nat.mod_upper_bound; lia).
    generalize dependent (nat_of_ascii c / 16)%nat.
    generalize dependent (nat_of_ascii c mod 16)%nat.
    intros lo Hlo hi Hhi.
    change (uri_safe (String "%" (String (JS.hex_digit hi)
              (String (JS.hex_digit lo) (JS.encodeURIComponent r)))))
      with ((JS.uri_unreserved (JS.hex_digit hi) || Ascii.eqb (JS.hex_digit hi) "%")
            && ((JS.uri_unreserved (JS.hex_digit lo) || Ascii.eqb (JS.hex_digit lo) "%")
                && uri_safe (JS.encodeURIComponent r))).
    rewrite IH, !hex_digit_unreserved by assumption. reflexivity.
Qed.

Lemma encodeURIComponent_inj (s : string) :
  forall t, JS.encodeURIComponent s = JS.encodeURIComponent t -> s = t.
Proof.
  induction s as [|c r IH]; intros [|d r'] E;
    rewrite ?encodeURIComponent_cons in E.
  - reflexivity.
  - destruct (JS.uri_unreserved d); discriminate.
  - destruct (JS.uri_unreserved c); discriminate.
  - destruct (JS.uri_unreserved c) eqn:Hc, (JS.uri_unreserved d) eqn:Hd.
    + injection E as -> E. f_equal. apply IH, E.
    + injection E as -> _. discriminate Hc.
    + injection E as <- _. discriminate Hd.
    + pose proof (nat_of_ascii_bound c) as Hbc.
      pose proof (nat_of_ascii_bound d) as Hbd.
      pose proof (Nat.div_mod_eq (nat_of_ascii c) 16) as Dc.
      pose proof (Nat.div_mod_eq (nat_of_ascii d) 16) as Dd.
      assert (nat_of_ascii c / 16 < 16)%nat as Hhc
        by (apply Nat.Div0.div_lt_upper_bound; lia).
      assert (nat_of_ascii d / 16 < 16)%nat as Hhd
        by (apply Nat.Div0.div_lt_upper_bound; lia).
      assert (nat_of_ascii c mod 16 < 16)%nat as Hlc
        by (apply Nat.mod_upper_bound; lia).
      assert (nat_of_ascii d mod 16 < 16)%nat as Hld
        by (apply Nat.mod_upper_bound; lia).
      set (hc := (nat_of_ascii c / 16)%nat) in *.
      set (lc := (nat_of_ascii c mod 16)%nat) in *.
      set (hd := (nat_of_ascii d / 16)%nat) in *.
      set (ld := (nat_of_ascii d mod 16)%nat) in *.
      clearbody hc lc hd ld.
      injection E as E1 E2 E3.
      apply hex_digit_inj in E1; [|assumption..].
      apply hex_digit_inj in E2; [|assumption..].
      assert (nat_of_ascii c = nat_of_ascii d) as En by lia.
      apply (f_equal ascii_of_nat) in En.
      rewrite !ascii_nat_embedding in En. subst d.
      f_equal. apply IH, E3.
Qed.

Lemma string_app_inv_head (p a b : string) : p +:+ a = p +:+ b -> a = b.
Proof.
  induction p as [|c p IH]; simpl; [tauto|].
  intros E. injection E as E. apply IH, E.
Qed.

Lemma api_url_inj (domain api u1 u2 : string) :
  api_url domain api u1 = api_url domain api u2 -> u1 = u2.
Proof.
  unfold api_url. intros E.
  apply string_app_inv_head in E.
  apply (string_app_inv_head "/api?api=") in E.
  apply string_app_inv_head in E.
  apply (string_app_inv_head "&url=") in E.
  apply encodeURIComponent_inj, E.
Qed.

(** ** The payload of [/start] *)

(** X1: [ctx.message.text.split(' ')[1]] (index.js line 130, MongoDB bot
    line 630) reads the second word of the message: for a text made of
    words without spaces, joined by single spaces, both start handlers
    take the second word as the payload, whatever follows it. *)
Theorem start_payload_is_second_word (ws : list string) (code : string) :
  Forall (fun w => space_free w = true) ws ->
  ws !! 1%nat = Some code ->
  JsonBot.start_arg (join_space ws) = Some code
  /\ MongoBot.start_arg (join_space ws) = Some code.
Proof.
  intros Hws Hcode.
  assert (JS.split_space (join_space ws) = ws) as E.
  { apply split_join_space; [|exact Hws]. intros ->. discriminate. }
  unfold JsonBot.start_arg, MongoBot.start_arg. rewrite E. auto.
Qed.

Lemma start_payload_witness :
  JsonBot.start_arg "/start a1b2c3d4 please" = Some "a1b2c3d4"
  /\ MongoBot.start_arg "/start a1b2c3d4 please" = Some "a1b2c3d4".
Proof.
  apply (start_payload_is_second_word ["/start"; "a1b2c3d4"; "please"] "a1b2c3d4").
  - repeat constructor.
  - reflexivity.
Defined.

(** X2: conversely, whenever a start handler finds a payload, the payload
    has no space in it and the message text is a first word, one space,
    the payload, and then nothing or a space and further words. *)
Theorem start_payload_decomposes (text code : string) :
  JsonBot.start_arg text = Some code ->
  MongoBot.start_arg text = Some code
  /\ space_free code = true
  /\ exists cmd more,
       space_free cmd = true
       /\ Forall (fun w => space_free w = true) more
       /\ text = join_space (cmd :: code :: more).
Proof.
  unfold JsonBot.start_arg, MongoBot.start_arg. intros H.
  split; [exact H|].
  pose proof (split_space_words text) as Hws.
  pose proof (join_split_space text) as Hjoin.
  destruct (JS.split_space text) as [|cmd [|c more]]; try discriminate.
  injection H as ->.
  apply Forall_cons in Hws as [Hcmd Hrest].
  apply Forall_cons in Hrest as [Hc Hmore].
  split; [exact Hc|].
  exists cmd, more. split; [exact Hcmd|]. split; [exact Hmore|].
  symmetry. exact Hjoin.
Qed.

Lemma start_payload_decomposes_witness :
  MongoBot.start_arg "/start a1b2c3d4" = Some "a1b2c3d4"
  /\ space_free "a1b2c3d4" = true
  /\ exists cmd more,
       space_free cmd = true
       /\ Forall (fun w => space_free w = true) more
       /\ "/start a1b2c3d4" = join_space (cmd :: "a1b2c3d4" :: more).
Proof.
  apply (start_payload_decomposes "/start a1b2c3d4" "a1b2c3d4"). reflexivity.
Defined.

(** ** The shortener request *)

(** X3: [createShortLink] (index.js lines 55-81, MongoDB bot lines
    528-553) always resolves, leaves the database and the draws alone,
    and makes no request unless both the domain and the API key are set
    and non-empty; without a request it returns the link it was given.
    When it makes one, it is a single GET of
    [<domain>/api?api=<key>&url=<e>] where [e] is
    [encodeURIComponent(url)], which consists of unreserved characters
    and percent escapes only.  The request determines the link: under the
    same settings, two calls of [createShortLink] that make the same
    requests were given the same link. *)
Theorem createShortLink_request (env : Env) (url : string)
    (jw : World JsonBot.Db) (mw : World MongoBot.Db) :
  let jst := JsonBot.settings (store jw) in
  let mst := MongoBot.settings (store mw) in
  let jset := JS.truthy_str (JsonBot.adlink_domain jst)
              && JS.truthy_str (JsonBot.adlink_api jst) in
  let mset := JS.truthy_opt (MongoBot.adlink_domain mst)
              && JS.truthy_opt (MongoBot.adlink_api mst) in
  let e := JS.encodeURIComponent url in
  (exists v,
     JsonBot.createShortLink env url jw
     = (Done v,
        logged (if jset
                then [AxiosGet (JsonBot.adlink_domain jst +:+ "/api?api="
                                  +:+ JsonBot.adlink_api jst +:+ "&url=" +:+ e)]
                else []) jw)
     /\ (jset = false -> v = JS.Of (JS.JStr url)))
  /\ (exists v,
        MongoBot.createShortLink env url mw
        = (Done v,
           logged (if mset
                   then [AxiosGet (default "" (MongoBot.adlink_domain mst)
                                     +:+ "/api?api="
                                     +:+ default "" (MongoBot.adlink_api mst)
                                     +:+ "&url=" +:+ e)]
                   else []) mw)
        /\ (mset = false -> v = JS.Of (JS.JStr url)))
  /\ uri_safe e = true
  /\ (forall url',
        jset = true ->
        calls (snd (JsonBot.createShortLink env url' jw))
        = calls (snd (JsonBot.createShortLink env url jw)) ->
        url' = url)
  /\ (forall url',
        mset = true ->
        calls (snd (MongoBot.createShortLink env url' mw))
        = calls (snd (MongoBot.createShortLink env url mw)) ->
        url' = url).
Proof.
  cbv zeta. split; [|split; [|split; [|split]]].
  - rewrite JsonBot_createShortLink_run. cbv zeta.
    destruct (_ && _).
    + eexists. split; [reflexivity|]. discriminate.
    + exists (JS.Of (JS.JStr url)). rewrite logged_nil. split; reflexivity.
  - rewrite MongoBot_createShortLink_run. cbv zeta.
    destruct (_ && _).
    + eexists. split; [reflexivity|]. discriminate.
    + exists (JS.Of (JS.JStr url)). rewrite logged_nil. split; reflexivity.
  - apply encodeURIComponent_safe.
  - intros url' Hset. rewrite !JsonBot_createShortLink_run. cbv zeta.
    rewrite Hset. cbn [snd logged calls]. intros E.
    apply app_inv_head in E. injection E as E.
    apply api_url_inj in E. exact E.
  - intros url' Hset. rewrite !MongoBot_createShortLink_run. cbv zeta.
    rewrite Hset. cbn [snd logged calls]. intros E.
    apply app_inv_head in E. injection E as E.
    apply api_url_inj in E. exact E.
Qed.

(** ** Redemption in [src/index.js] *)

(** X4: in [src/index.js] one [/start] update hands at most one file to
    the transport, and only the file stored under the payload of the
    message, with the type, caption and [protect_content] setting of the
    database: no other record, and nothing for a payload that names no
    own record (lines 129-225). *)
Theorem json_start_sends_only_the_requested_file (cfg : Config) (env : Env)
    (from : From) (text : string) (db : JsonBot.Db) (n : nat) :
  let cs := calls (snd (JsonBot.start cfg env from text (fresh db n))) in
  sends cs = []
  \/ exists args f,
       JsonBot.start_arg text = Some args
       /\ JsonBot.files db !! args = Some f
       /\ sends cs = [SendFile (JsonBot.fileType f) (JsonBot.fileId f)
                        (JsonBot.caption f)
                        (JsonBot.protect_content (JsonBot.settings db))].
Proof.
  cbv zeta. rewrite JsonBot_start_calls. unfold json_start_calls.
  destruct (JsonBot.start_arg text) as [args|]; [|left; reflexivity].
  destruct (JS.truthy_str args); [|left; reflexivity].
  unfold JS.obj_get.
  destruct (JsonBot.files db !! args) as [f|] eqn:Hf.
  - unfold json_gates_calls. cbv zeta.
    rewrite sends_app, sends_queries. cbn [app].
    destruct (missing env _ _); [|left; reflexivity].
    destruct (from_option _ _ _).
    + right. exists args, f. repeat split; [exact Hf|].
      rewrite sends_delivery. reflexivity.
    + left. rewrite sends_app, sends_issued. reflexivity.
  - left. destruct (bool_decide _); [|reflexivity].
    unfold json_gates_calls. cbv zeta.
    rewrite sends_app, sends_queries. cbn [app].
    destruct (missing env _ _); [|reflexivity].
    destruct (from_option _ _ _).
    + rewrite sends_delivery. reflexivity.
    + rewrite sends_app, sends_issued. reflexivity.
Qed.

(** X5: in [src/index.js] an upload followed by a redemption of the
    issued code is a round trip: a verified requester whom every channel
    lets through and who sends [/start <code>] is sent the uploaded file,
    with the [fileId], type and caption the upload handler derived from
    the message, once, and the database stays as the upload left it
    (lines 281-348 and 129-225).  The code is a draw of [generateCode],
    non-empty and without a space. *)
Theorem json_upload_then_redeem (cfg : Config) (env1 env2 : Env)
    (uploader requester : From) (up : Upload) (db : JsonBot.Db) (n n' : nat)
    (fid : string) (ftype : FileType) (cap : option string) (u : JsonBot.User) :
  JsonBot.describe up = Some (fid, ftype, cap) ->
  JS.truthy_str (random env1 n) = true ->
  space_free (random env1 n) = true ->
  JsonBot.users db !! from_id requester = Some u ->
  JsonBot.verified u = true ->
  Forall (lets_through env2 (from_id requester)) (JsonBot.channels db) ->
  let code := random env1 n in
  let db1 := store (snd (JsonBot.upload cfg env1 uploader up (fresh db n))) in
  let st := JsonBot.settings db in
  let send := SendFile ftype fid cap (JsonBot.protect_content st) in
  JsonBot.start cfg env2 requester ("/start " +:+ code) (fresh db1 n') =
    (Done tt,
     mkWorld db1
       (queries (from_id requester) (JsonBot.channels db) ++
        match sendFile env2 ftype fid with
        | None => [send; Reply MsgSendError]
        | Some mid =>
            [send] ++ purge_calls (JsonBot.auto_delete st) mid
              ++ [LogSend (LogDownloaded (from_id requester) code)]
        end)
       n').
Proof.
  intros Hd Htruthy Hfree Hu Hv Hsub. cbv zeta.
  rewrite (JsonBot_upload_run cfg env1 uploader up db n fid ftype cap Hd).
  cbn [snd store].
  destruct (start_arg_of_code (random env1 n) Hfree) as [Harg _].
  rewrite (JsonBot_deliver_start_run cfg env2 requester _ (random env1 n) _ n'
             (JsonBot.mkFile fid ftype cap (from_id uploader) (now env1)) u
             Harg Htruthy).
  - reflexivity.
  - cbn [JsonBot.set_files JsonBot.files]. apply lookup_insert_eq.
  - exact Hu.
  - exact Hv.
  - exact Hsub.
Qed.

Lemma json_upload_then_redeem_witness :
  JsonBot.start ex_cfg ex_env ada "/start a1b2c3d4"
    (fresh (store (snd (JsonBot.upload ex_cfg ex_env root ex_upload (fresh ex_jdb 0)))) 1)
  = (Done tt,
     mkWorld (store (snd (JsonBot.upload ex_cfg ex_env root ex_upload (fresh ex_jdb 0))))
       [GetChatMember "-1001234" 42;
        SendFile Document "BQACAgQAAx1" (Some "notes.txt") false;
        SetTimeout 900 60000;
        LogSend (LogDownloaded 42 "a1b2c3d4")]
       1).
Proof.
  apply (json_upload_then_redeem ex_cfg ex_env ex_env root ada ex_upload ex_jdb 0 1
           "BQACAgQAAx1" Document (Some "notes.txt")
           (JsonBot.mkUser true (Some 1695000000) (Some "Ada") (Some "ada")));
    try reflexivity.
  repeat constructor.
Defined.

(** X6: in [src/index.js] pressing the verify button is all it takes: the
    callback sets the flag whatever code its data carries, without any
    check that a challenge was issued or the short link visited, and the
    next redemption of a stored code by that user, if every channel lets
    them through, hands over the file (lines 233-268 and 129-225). *)
Theorem json_verify_then_redeem (cfg : Config) (env1 env2 : Env) (from : From)
    (pressed text args : string) (db : JsonBot.Db) (n n' : nat)
    (f : JsonBot.File) :
  JsonBot.start_arg text = Some args ->
  JS.truthy_str args = true ->
  JsonBot.files db !! args = Some f ->
  Forall (lets_through env2 (from_id from)) (JsonBot.channels db) ->
  let db1 := store (snd (JsonBot.verify env1 from pressed (fresh db n))) in
  let st := JsonBot.settings db in
  let send := SendFile (JsonBot.fileType f) (JsonBot.fileId f)
                (JsonBot.caption f) (JsonBot.protect_content st) in
  JsonBot.start cfg env2 from text (fresh db1 n') =
    (Done tt,
     mkWorld db1
       (queries (from_id from) (JsonBot.channels db) ++
        match sendFile env2 (JsonBot.fileType f) (JsonBot.fileId f) with
        | None => [send; Reply MsgSendError]
        | Some mid =>
            [send] ++ purge_calls (JsonBot.auto_delete st) mid
              ++ [LogSend (LogDownloaded (from_id from) args)]
        end)
       n').
Proof.
  intros Harg Htruthy Hf Hsub. cbv zeta.
  rewrite JsonBot_verify_store. cbn [fresh store].
  erewrite (JsonBot_deliver_start_run cfg env2 from text args _ n' f _ Harg Htruthy).
  - reflexivity.
  - exact Hf.
  - cbn [JsonBot.set_users JsonBot.users]. apply lookup_insert_eq.
  - destruct (JsonBot.users db !! from_id from); reflexivity.
  - exact Hsub.
Qed.

Lemma json_verify_then_redeem_witness :
  JsonBot.start ex_cfg ex_env ada "/start a1b2c3d4"
    (fresh (store (snd (JsonBot.verify ex_env ada "anything"
                          (fresh ex_jdb_unverified 0)))) 0)
  = (Done tt,
     mkWorld (store (snd (JsonBot.verify ex_env ada "anything"
                            (fresh ex_jdb_unverified 0))))
       [GetChatMember "-1001234" 42;
        SendFile Document "BQACAgQAAx0" (Some "report.pdf") false;
        SetTimeout 900 60000;
        LogSend (LogDownloaded 42 "a1b2c3d4")]
       0).
Proof.
  apply (json_verify_then_redeem ex_cfg ex_env ex_env ada "anything"
           "/start a1b2c3d4" "a1b2c3d4" ex_jdb_unverified 0 0 ex_json_file);
    try reflexivity.
  repeat constructor.
Defined.

(** ** Admin commands and sequences of updates, [src/index.js] *)

Lemma JsonBot_verify_sub_run (env : Env) (from : From) (w : World JsonBot.Db) :
  JsonAdmin.verify_sub env from w =
    let chs := JsonBot.channels (store w) in
    let asked := queries (from_id from) chs in
    match missing env (from_id from) chs with
    | [] =>
        (if answer_ok env
         then if reply_ok env MsgSubscriptionOk then Done tt else Thrown "reply"
         else Thrown "answerCbQuery",
         logged (asked ++ [AnswerCbQuery true]
                   ++ (if answer_ok env then [Reply MsgSubscriptionOk] else [])) w)
    | m =>
        if reply_ok env (MsgJoinChannels m) then
          (if answer_ok env then Done tt else Thrown "answerCbQuery",
           logged (asked ++ [Reply (MsgJoinChannels m); AnswerCbQuery false]) w)
        else
          (Thrown "reply", logged (asked ++ [Reply (MsgJoinChannels m)]) w)
    end.
Proof.
  unfold JsonAdmin.verify_sub, bind at 1. rewrite JsonBot_checkSubscription_run.
  cbv zeta.
  destruct (missing env (from_id from) (JsonBot.channels (store w))) as [|c m].
  - unfold tg_answerCbQuery, tg_reply, bind, emit, ret, throw, logged.
    cbn [store calls drawn].
    destruct (answer_ok env); [destruct (reply_ok env _)|];
      cbn [store calls drawn]; rewrite <- ?app_assoc; cbn [app];
      rewrite ?app_nil_r; reflexivity.
  - destruct (reply_ok env _); [|reflexivity].
    unfold tg_answerCbQuery, bind, emit, ret, throw, logged.
    cbn [store calls drawn].
    destruct (answer_ok env); cbn [store calls drawn];
      rewrite <- ?app_assoc; reflexivity.
Qed.

Lemma JsonBot_verify_sub_store (env : Env) (from : From) (w : World JsonBot.Db) :
  store (snd (JsonAdmin.verify_sub env from w)) = store w
  /\ drawn (snd (JsonAdmin.verify_sub env from w)) = drawn w.
Proof.
  rewrite JsonBot_verify_sub_run. cbv zeta.
  destruct (missing env _ _); [|destruct (reply_ok env _)]; split; reflexivity.
Qed.

Lemma JsonBot_upload_store (cfg : Config) (env : Env) (from : From)
    (up : Upload) (w : World JsonBot.Db) :
  store (snd (JsonBot.upload cfg env from up w)) = store w
  \/ exists record,
       store (snd (JsonBot.upload cfg env from up w))
       = JsonBot.set_files (insert (random env (drawn w)) record) (store w).
Proof.
  unfold JsonBot.upload.
  destruct (JsonBot.describe up) as [[[fid ftype] cap]|]; [|left; reflexivity].
  right. exists (JsonBot.mkFile fid ftype cap (from_id from) (now env)).
  unfold bind at 1, generateCode at 1. unfold bind at 1, modify_store at 1.
  cbn [store calls drawn]. unfold bind at 1. rewrite upload_log_run.
  unfold bind. rewrite tg_reply_run.
  destruct (reply_ok env _); reflexivity.
Qed.

Lemma JsonAdmin_users_files (cfg : Config) (db : JsonBot.Db) :
  (forall from text,
     let db' := fst (JsonAdmin.setadlink cfg from text db) in
     JsonBot.users db' = JsonBot.users db /\ JsonBot.files db' = JsonBot.files db
     /\ JsonBot.channels db' = JsonBot.channels db)
  /\ (forall from seconds,
        let db' := fst (JsonAdmin.autodelete cfg from seconds db) in
        JsonBot.users db' = JsonBot.users db /\ JsonBot.files db' = JsonBot.files db
        /\ JsonBot.channels db' = JsonBot.channels db)
  /\ (forall from text,
        let db' := fst (JsonAdmin.protect cfg from text db) in
        JsonBot.users db' = JsonBot.users db /\ JsonBot.files db' = JsonBot.files db
        /\ JsonBot.channels db' = JsonBot.channels db)
  /\ (forall getChat from text,
        let db' := fst (JsonAdmin.addchannel cfg getChat from text db) in
        JsonBot.users db' = JsonBot.users db /\ JsonBot.files db' = JsonBot.files db
        /\ JsonBot.settings db' = JsonBot.settings db)
  /\ (forall from text,
        let db' := fst (JsonAdmin.removechannel cfg from text db) in
        JsonBot.users db' = JsonBot.users db /\ JsonBot.files db' = JsonBot.files db
        /\ JsonBot.settings db' = JsonBot.settings db).
Proof.
  repeat split;
    unfold JsonAdmin.setadlink, JsonAdmin.autodelete, JsonAdmin.protect,
      JsonAdmin.addchannel, JsonAdmin.removechannel;
    repeat (match goal with
            | |- context [if ?b then _ else _] => destruct b
            | |- context [match ?x with _ => _ end] => destruct x
            end; try reflexivity).
Qed.

Lemma JsonAdmin_not_admin (cfg : Config) (from : From) (db : JsonBot.Db) :
  JsonAdmin.isAdmin cfg (from_id from) = false ->
  (forall text, JsonAdmin.setadlink cfg from text db = (db, JsonAdmin.AdminOnly))
  /\ (forall seconds,
        JsonAdmin.autodelete cfg from seconds db = (db, JsonAdmin.AdminOnly))
  /\ (forall text, JsonAdmin.protect cfg from text db = (db, JsonAdmin.AdminOnly))
  /\ (forall getChat text,
        JsonAdmin.addchannel cfg getChat from text db = (db, JsonAdmin.AdminOnly))
  /\ (forall text,
        JsonAdmin.removechannel cfg from text db = (db, JsonAdmin.AdminOnly)).
Proof.
  intros H.
  unfold JsonAdmin.setadlink, JsonAdmin.autodelete, JsonAdmin.protect,
    JsonAdmin.addchannel, JsonAdmin.removechannel.
  rewrite H. repeat split.
Qed.

Lemma find_channelId_None (id : string) (chs : list Channel) :
  List.find (fun ch => String.eqb (channelId ch) id) chs = None ->
  id ∉ map channelId chs.
Proof.
  induction chs as [|ch rest IH]; simpl; intros H.
  - apply not_elem_of_nil.
  - destruct (String.eqb (channelId ch) id) eqn:E; [discriminate|].
    apply String.eqb_neq in E.
    intros Hin. apply elem_of_cons in Hin as [->|Hin]; [congruence|].
    exact (IH H Hin).
Qed.

Lemma NoDup_map_filter {A B : Type} (f : A -> B) (p : A -> bool) (l : list A) :
  NoDup (map f l) -> NoDup (map f (List.filter p l)).
Proof.
  induction l as [|a l IH]; simpl; intros H; [constructor|].
  apply NoDup_cons in H as [Hnotin Hnd].
  destruct (p a); [|auto].
  simpl. apply NoDup_cons. split; [|auto].
  intros Hin. apply Hnotin.
  apply list_elem_of_In in Hin. apply list_elem_of_In.
  apply in_map_iff in Hin as (x & <- & Hx).
  apply in_map. apply filter_In in Hx as [Hx _]. exact Hx.
Qed.

Lemma JsonAdmin_addchannel_NoDup (cfg : Config)
    (getChat : string -> option (string * string)) (from : From)
    (text : string) (db : JsonBot.Db) :
  NoDup (map channelId (JsonBot.channels db)) ->
  NoDup (map channelId
           (JsonBot.channels (fst (JsonAdmin.addchannel cfg getChat from text db)))).
Proof.
  intros Hnd. unfold JsonAdmin.addchannel.
  destruct (negb _); [exact Hnd|].
  destruct (JS.split_space text !! 1%nat) as [username|]; [|exact Hnd].
  destruct (_ || _); [exact Hnd|].
  destruct (getChat username) as [[id title]|]; [|exact Hnd].
  destruct (List.find _ _) eqn:Hfind; [exact Hnd|].
  cbn [fst JsonAdmin.set_channels JsonBot.channels].
  rewrite map_app. cbn [map channelId].
  apply NoDup_app. split; [exact Hnd|]. split.
  - intros x Hx Hin. apply list_elem_of_singleton in Hin. subst x.
    exact (find_channelId_None _ _ Hfind Hx).
  - apply NoDup_singleton.
Qed.

Lemma JsonAdmin_removechannel_NoDup (cfg : Config) (from : From)
    (text : string) (db : JsonBot.Db) :
  NoDup (map channelId (JsonBot.channels db)) ->
  NoDup (map channelId
           (JsonBot.channels (fst (JsonAdmin.removechannel cfg from text db)))).
Proof.
  intros Hnd. unfold JsonAdmin.removechannel.
  destruct (negb _); [exact Hnd|].
  destruct (JS.split_space text !! 1%nat) as [username|]; [|exact Hnd].
  destruct (negb _); [exact Hnd|].
  cbn [fst JsonAdmin.set_channels JsonBot.channels].
  apply NoDup_map_filter, Hnd.
Qed.

Lemma json_frame_refl admin db : json_frame admin db db.
Proof.
  repeat split; auto.
  intros uid u Hu Hv. exists u. auto.
Qed.

Lemma json_frame_users admin db (us : gmap Z JsonBot.User) :
  (forall uid u,
     JsonBot.users db !! uid = Some u -> JsonBot.verified u = true ->
     exists u', us !! uid = Some u' /\ JsonBot.verified u' = true) ->
  json_frame admin db (JsonBot.set_users (fun _ => us) db).
Proof.
  intros H. repeat split; auto.
Qed.

Lemma JsonTrace_step_frame (cfg : Config) (s : JsonBot.Db * nat)
    (x : Env * JsonTrace.Event) :
  json_frame (JsonAdmin.isAdmin cfg (from_id (JsonTrace.sender (snd x))))
    (fst s) (fst (JsonTrace.step cfg s x)).
Proof.
  destruct s as [db n], x as [env ev]. unfold JsonTrace.step.
  cbn [fst snd]. destruct ev; cbn [JsonTrace.sender JsonTrace.after fst snd].
  - (* start *)
    apply JsonBot_start_store; cbn [fresh store].
    + apply json_frame_refl.
    + intros Hnone. apply json_frame_users.
      intros uid u Hu Hv. exists u. split; [|exact Hv].
      rewrite lookup_insert_ne; [exact Hu|]. congruence.
  - (* verify *)
    rewrite JsonBot_verify_store. cbn [fresh store].
    apply json_frame_users. intros uid u Hu Hv.
    destruct (decide (uid = from_id from)) as [->|Hne].
    + rewrite lookup_insert_eq. rewrite Hu. eexists. split; reflexivity.
    + rewrite lookup_insert_ne by congruence. exists u. auto.
  - (* verify_sub *)
    destruct (JsonBot_verify_sub_store env from (fresh db n)) as [-> _].
    apply json_frame_refl.
  - (* upload *)
    destruct (JsonBot_upload_store cfg env from up (fresh db n)) as [->|[rec ->]];
      cbn [fresh store drawn]; [apply json_frame_refl|].
    repeat split; auto.
    + intros uid u Hu Hv. exists u. auto.
    + cbn [JsonBot.set_files JsonBot.files]. rewrite dom_insert_L.
      apply union_subseteq_r.
  - (* setadlink *)
    destruct (JsonAdmin_users_files cfg db) as (H & _). specialize (H from text).
    cbv zeta in H. destruct H as (Hu & Hf & Hc).
    repeat split.
    + intros uid u Hlk Hv. rewrite Hu. exists u. auto.
    + rewrite Hf. reflexivity.
    + destruct (JsonAdmin_not_admin cfg from db H) as (E & _). rewrite E. reflexivity.
    + destruct (JsonAdmin_not_admin cfg from db H) as (E & _). rewrite E. reflexivity.
    + rewrite Hc. auto.
  - (* autodelete *)
    destruct (JsonAdmin_users_files cfg db) as (_ & H & _).
    specialize (H from seconds). cbv zeta in H. destruct H as (Hu & Hf & Hc).
    repeat split.
    + intros uid u Hlk Hv. rewrite Hu. exists u. auto.
    + rewrite Hf. reflexivity.
    + destruct (JsonAdmin_not_admin cfg from db H) as (_ & E & _). rewrite E. reflexivity.
    + destruct (JsonAdmin_not_admin cfg from db H) as (_ & E & _). rewrite E. reflexivity.
    + rewrite Hc. auto.
  - (* protect *)
    destruct (JsonAdmin_users_files cfg db) as (_ & _ & H & _).
    specialize (H from text). cbv zeta in H. destruct H as (Hu & Hf & Hc).
    repeat split.
    + intros uid u Hlk Hv. rewrite Hu. exists u. auto.
    + rewrite Hf. reflexivity.
    + destruct (JsonAdmin_not_admin cfg from db H) as (_ & _ & E & _).
      rewrite E. reflexivity.
    + destruct (JsonAdmin_not_admin cfg from db H) as (_ & _ & E & _).
      rewrite E. reflexivity.
    + rewrite Hc. auto.
  - (* addchannel *)
    destruct (JsonAdmin_users_files cfg db) as (_ & _ & _ & H & _).
    specialize (H getChat from text). cbv zeta in H. destruct H as (Hu & Hf & Hs).
    repeat split.
    + intros uid u Hlk Hv. rewrite Hu. exists u. auto.
    + rewrite Hf. reflexivity.
    + exact Hs.
    + destruct (JsonAdmin_not_admin cfg from db H) as (_ & _ & _ & E & _).
      rewrite E. reflexivity.
    + apply JsonAdmin_addchannel_NoDup.
  - (* removechannel *)
    destruct (JsonAdmin_users_files cfg db) as (_ & _ & _ & _ & H).
    specialize (H from text). cbv zeta in H. destruct H as (Hu & Hf & Hs).
    repeat split.
    + intros uid u Hlk Hv. rewrite Hu. exists u. auto.
    + rewrite Hf. reflexivity.
    + exact Hs.
    + destruct (JsonAdmin_not_admin cfg from db H) as (_ & _ & _ & _ & E).
      rewrite E. reflexivity.
    + apply JsonAdmin_removechannel_NoDup.
Qed.

(** ** Sequences of updates, MongoDB bot *)

Lemma MongoBot_deliver_world (env : Env) (from : From) (args : string) (i : nat)
    (file : MongoBot.File) (user : MongoBot.User) (w : World MongoBot.Db)
    (Q : World MongoBot.Db -> Prop) :
  (forall w', drawn w' = drawn w -> store w' = store w -> Q w') ->
  (forall w', drawn w' = drawn w ->
     store w' = downloaded (from_id from) user i file (store w) -> Q w') ->
  Q (snd (MongoBot.deliver env from args i file user w)).
Proof.
  intros Hsame Hsent. rewrite MongoBot_deliver_run. cbv zeta.
  destruct (sendFile env _ _); [apply Hsent|apply Hsame]; reflexivity.
Qed.

Lemma MongoBot_redeem_world (cfg : Config) (env : Env) (from : From)
    (args : string) (w : World MongoBot.Db) (Q : World MongoBot.Db -> Prop) :
  (forall w', drawn w' = drawn w -> store w' = store w -> Q w') ->
  (forall w' i file, drawn w' = drawn w ->
     MongoBot.files (store w) !! i = Some file ->
     store w' = viewed i file (store w) -> Q w') ->
  (forall w' i file user, drawn w' = drawn w ->
     MongoBot.files (store w) !! i = Some file ->
     MongoBot.users (store w) !! from_id from = Some user ->
     store w' = downloaded (from_id from) user i file (store w) -> Q w') ->
  Q (snd (MongoBot.redeem cfg env from args w)).
Proof.
  intros Hsame Hviews Hsent.
  unfold MongoBot.redeem, bind at 1, get_store at 1.
  destruct (MongoBot.findOne _ _) as [[i file]|] eqn:Hfile;
    [|apply Hsame; reflexivity].
  apply findOne_Some in Hfile as [Hi _].
  assert (Hchallenge : forall w', store w' = store w -> drawn w' = drawn w ->
    Q (snd (MongoBot.challenge cfg env args i file w'))).
  { intros w' Hs Hd. rewrite MongoBot_challenge_issued. cbv zeta.
    apply (Hviews _ i file); [exact Hd|exact Hi|].
    cbn [snd stored logged store]. rewrite Hs. reflexivity. }
  assert (Hdeliver : forall u w', MongoBot.users (store w) !! from_id from = Some u ->
    store w' = store w -> drawn w' = drawn w ->
    Q (snd (MongoBot.deliver env from args i file u w'))).
  { intros u w' Hu Hs Hd. apply MongoBot_deliver_world.
    - intros w2 Hd2 Hs2. apply Hsame; congruence.
    - intros w2 Hd2 Hs2. apply (Hsent _ i file u); try assumption; congruence. }
  destruct (MongoBot.users (store w) !! from_id from) as [u|] eqn:Hu.
  - destruct (MongoBot.isBanned u); [apply Hsame; reflexivity|].
    unfold bind at 1. rewrite MongoBot_checkSubscription_run. cbv zeta.
    destruct (missing env (from_id from) (MongoBot.channels (store w))) as [|c m].
    + cbn [negb]. destruct (MongoBot.isVerified u); cbn [negb].
      * unfold bind.
        pose proof (Hdeliver u (logged (queries (from_id from)
                    (MongoBot.channels (store w))) w) eq_refl eq_refl eq_refl)
          as H1.
        destruct (MongoBot.deliver env from args i file u _) as [[[]|e|] w2];
          exact H1.
      * apply Hchallenge; reflexivity.
    + destruct (reply_ok env _); cbn [negb]; [apply Hsame; reflexivity|].
      destruct (MongoBot.isVerified u); cbn [negb].
      * unfold bind.
        pose proof (Hdeliver u (logged (queries (from_id from)
                    (MongoBot.channels (store w)) ++ [Reply (MsgJoinChannels (c :: m))]) w)
                    eq_refl eq_refl eq_refl)
          as H1.
        destruct (MongoBot.deliver env from args i file u _) as [[[]|e|] w2];
          exact H1.
      * apply Hchallenge; reflexivity.
  - unfold bind at 1. rewrite MongoBot_checkSubscription_run. cbv zeta.
    destruct (missing env (from_id from) (MongoBot.channels (store w))) as [|c m].
    + cbn [negb]. apply Hchallenge; reflexivity.
    + destruct (reply_ok env _); cbn [negb]; [apply Hsame; reflexivity|].
      apply Hchallenge; reflexivity.
Qed.

Lemma MongoBot_start_world (cfg : Config) (env : Env) (from : From)
    (text : string) (db : MongoBot.Db) (n : nat)
    (Q : World MongoBot.Db -> Prop) :
  let db1 := seen env from db in
  (forall w', drawn w' = n -> store w' = db1 -> Q w') ->
  (forall w' i file, drawn w' = n ->
     MongoBot.files db !! i = Some file ->
     store w' = viewed i file db1 -> Q w') ->
  (forall w' i file user, drawn w' = n ->
     MongoBot.files db !! i = Some file ->
     MongoBot.users db1 !! from_id from = Some user ->
     store w' = downloaded (from_id from) user i file db1 -> Q w') ->
  Q (snd (MongoBot.start cfg env from text (fresh db n))).
Proof.
  intros db1 Hsame Hviews Hsent.
  assert (Hwelcome : JS.truthy_opt (MongoBot.start_arg text) = false ->
    Q (snd (MongoBot.start cfg env from text (fresh db n)))).
  { intros Hf. unfold MongoBot.start. rewrite Hf.
    unfold bind, try_catch, MongoBot.updateUserActivity, try_catch,
      modify_store, get_store, tg_reply, tg_reply_detached, bind, emit.
    cbn [fresh store calls drawn].
    destruct (reply_ok env _); cbn; apply Hsame; reflexivity. }
  destruct (MongoBot.start_arg text) as [args|] eqn:Harg; [|apply Hwelcome; reflexivity].
  destruct (JS.truthy_str args) eqn:Htruthy; [|apply Hwelcome; exact Htruthy].
  rewrite (MongoBot_start_run cfg env from text args db n Harg Htruthy).
  pose proof (MongoBot_redeem_world cfg env from args (fresh (seen env from db) n)
    (fun w2 => forall w3, drawn w3 = drawn w2 -> store w3 = store w2 -> Q w3)) as H.
  cbn beta in H. cbn [fresh drawn store] in H. subst db1.
  assert (Hred : forall w3,
    drawn w3 = drawn (snd (MongoBot.redeem cfg env from args (fresh (seen env from db) n))) ->
    store w3 = store (snd (MongoBot.redeem cfg env from args (fresh (seen env from db) n))) ->
    Q w3).
  { apply H.
    - intros w' Hd Hs w3 Hd3 Hs3. apply Hsame; congruence.
    - intros w' i file Hd Hi Hs w3 Hd3 Hs3.
      apply (Hviews _ i file); [congruence|exact Hi|congruence].
    - intros w' i file user Hd Hi Hu Hs w3 Hd3 Hs3.
      apply (Hsent _ i file user); [congruence|exact Hi|exact Hu|congruence]. }
  clear H.
  destruct (MongoBot.redeem cfg env from args _) as [[[m|]|e|] w2];
    cbn [snd] in *; rewrite ?tg_reply_run; cbn [snd]; apply Hred; reflexivity.
Qed.

Lemma mongo_frame_refl (admin : bool) (db : MongoBot.Db) : mongo_frame admin db db.
Proof.
  split; [reflexivity|].
  split; [exists []; rewrite app_nil_r; reflexivity|].
  split; [auto|]. split; [auto|]. split; [auto|].
  intros _. repeat split.
Qed.

Lemma mongo_frame_trans (a1 a2 : bool) (db1 db2 db3 : MongoBot.Db) :
  mongo_frame a1 db1 db2 -> mongo_frame a2 db2 db3 ->
  mongo_frame (a1 || a2) db1 db3.
Proof.
  intros (V1 & [m1 C1] & N1 & R1 & K1 & A1) (V2 & [m2 C2] & N2 & R2 & K2 & A2).
  split; [intros uid; rewrite V2; apply V1|].
  split; [exists (m1 ++ m2); rewrite C2, C1, app_assoc; reflexivity|].
  split; [auto|]. split; [auto|]. split; [auto|].
  intros Ha. apply orb_false_iff in Ha as [Ha1 Ha2].
  destruct (A1 Ha1) as (B1 & S1 & Ch1). destruct (A2 Ha2) as (B2 & S2 & Ch2).
  split; [intros uid; rewrite B2; apply B1|]. split; congruence.
Qed.

Lemma mongo_frame_weaken (a : bool) (db db' : MongoBot.Db) :
  mongo_frame false db db' -> mongo_frame a db db'.
Proof.
  intros (V & C & N & R & K & A).
  do 5 (split; [assumption|]). intros _. apply A. reflexivity.
Qed.

(** Updates of user documents that touch neither flag nor the id. *)
Lemma mongo_frame_users (f : gmap Z MongoBot.User -> gmap Z MongoBot.User)
    (db : MongoBot.Db) :
  (forall uid,
     from_option MongoBot.isVerified false (f (MongoBot.users db) !! uid)
     = from_option MongoBot.isVerified false (MongoBot.users db !! uid)) ->
  (forall uid,
     from_option MongoBot.isBanned false (f (MongoBot.users db) !! uid)
     = from_option MongoBot.isBanned false (MongoBot.users db !! uid)) ->
  (keyed db -> forall uid u, f (MongoBot.users db) !! uid = Some u ->
     MongoBot.userId u = uid) ->
  mongo_frame false db (MongoBot.set_users f db).
Proof.
  intros HV HB HK. split; [exact HV|].
  split; [exists []; rewrite app_nil_r; reflexivity|].
  split; [auto|]. split; [auto|]. split; [exact HK|].
  intros _. split; [exact HB|]. split; reflexivity.
Qed.

Lemma map_shortCode_alter (g : MongoBot.File -> MongoBot.File) (fs : list MongoBot.File) :
  (forall f, MongoBot.shortCode (g f) = MongoBot.shortCode f) ->
  forall i, map MongoBot.shortCode (alter g i fs) = map MongoBot.shortCode fs.
Proof.
  intros Hg. induction fs as [|f fs IH]; intros [|i]; simpl; try reflexivity.
  - rewrite Hg. reflexivity.
  - f_equal. apply IH.
Qed.

Lemma Forall_inactive_alter (g : MongoBot.File -> MongoBot.File) (code : string)
    (fs : list MongoBot.File) :
  (forall f, MongoBot.shortCode (g f) = MongoBot.shortCode f) ->
  (forall f, MongoBot.isActive f = false -> MongoBot.isActive (g f) = false) ->
  forall i,
    Forall (fun f => MongoBot.shortCode f = code -> MongoBot.isActive f = false) fs ->
    Forall (fun f => MongoBot.shortCode f = code -> MongoBot.isActive f = false)
      (alter g i fs).
Proof.
  intros Hc Ha. induction fs as [|f fs IH]; intros [|i] H; simpl;
    inversion H as [|? ? Hf Hrest]; subst; constructor; auto.
  - intros E. rewrite Hc in E. apply Ha, Hf, E.
  - apply IH, Hrest.
Qed.

(** Updates of one file document that keep its code and do not activate it. *)
Lemma mongo_frame_files (g : MongoBot.File -> MongoBot.File) (i : nat)
    (db : MongoBot.Db) :
  (forall f, MongoBot.shortCode (g f) = MongoBot.shortCode f) ->
  (forall f, MongoBot.isActive f = false -> MongoBot.isActive (g f) = false) ->
  mongo_frame false db (MongoBot.set_files (alter g i) db).
Proof.
  intros Hc Ha.
  assert (codes (MongoBot.set_files (alter g i) db) = codes db) as Hcodes.
  { unfold codes. cbn [MongoBot.set_files MongoBot.files].
    apply map_shortCode_alter, Hc. }
  split; [reflexivity|].
  split; [exists []; rewrite app_nil_r; exact Hcodes|].
  split; [rewrite Hcodes; auto|].
  split.
  { intros code [Hin Hall]. split; [rewrite Hcodes; exact Hin|].
    cbn [MongoBot.set_files MongoBot.files].
    apply Forall_inactive_alter; assumption. }
  split; [auto|].
  intros _. repeat split.
Qed.

Lemma upsert_lookup (uid : Z) (t : Z) (upd : list (string * MongoBot.UVal))
    (us : gmap Z MongoBot.User) (k : Z) :
  MongoBot.upsert_user uid t upd us !! k =
    if decide (k = uid)
    then Some (MongoBot.apply_update upd
                 (default (MongoBot.new_user uid t) (us !! uid)))
    else us !! k.
Proof.
  unfold MongoBot.upsert_user.
  destruct (decide (k = uid)) as [->|Hne].
  - destruct (us !! uid); rewrite lookup_insert_eq; reflexivity.
  - destruct (us !! uid); rewrite lookup_insert_ne by congruence; reflexivity.
Qed.

Lemma mongo_frame_upsert (uid t : Z) (upd : list (string * MongoBot.UVal))
    (db : MongoBot.Db) :
  (forall u, MongoBot.isVerified (MongoBot.apply_update upd u) = MongoBot.isVerified u) ->
  (forall u, MongoBot.isBanned (MongoBot.apply_update upd u) = MongoBot.isBanned u) ->
  (forall u, MongoBot.userId (MongoBot.apply_update upd u) = MongoBot.userId u) ->
  mongo_frame false db (MongoBot.set_users (MongoBot.upsert_user uid t upd) db).
Proof.
  intros HV HB HI. apply mongo_frame_users.
  - intros k. rewrite upsert_lookup. destruct (decide (k = uid)) as [->|]; [|reflexivity].
    cbn [from_option]. rewrite HV. destruct (MongoBot.users db !! uid); reflexivity.
  - intros k. rewrite upsert_lookup. destruct (decide (k = uid)) as [->|]; [|reflexivity].
    cbn [from_option]. rewrite HB. destruct (MongoBot.users db !! uid); reflexivity.
  - intros Hk k u. rewrite upsert_lookup.
    destruct (decide (k = uid)) as [->|]; [|apply Hk].
    intros [= <-]. rewrite HI.
    destruct (MongoBot.users db !! uid) as [u0|] eqn:E; [apply Hk, E|reflexivity].
Qed.

Lemma mongo_frame_alter_user (g : MongoBot.User -> MongoBot.User) (uid : Z)
    (db : MongoBot.Db) :
  (forall u, MongoBot.isVerified (g u) = MongoBot.isVerified u) ->
  (forall u, MongoBot.isBanned (g u) = MongoBot.isBanned u) ->
  (forall u, MongoBot.userId (g u) = MongoBot.userId u) ->
  mongo_frame false db (MongoBot.set_users (alter g uid) db).
Proof.
  intros HV HB HI. apply mongo_frame_users.
  - intros k. destruct (decide (k = uid)) as [->|Hne].
    + rewrite lookup_alter_eq. destruct (MongoBot.users db !! uid); cbn; auto.
    + rewrite lookup_alter_ne by congruence. reflexivity.
  - intros k. destruct (decide (k = uid)) as [->|Hne].
    + rewrite lookup_alter_eq. destruct (MongoBot.users db !! uid); cbn; auto.
    + rewrite lookup_alter_ne by congruence. reflexivity.
  - intros Hk k u. destruct (decide (k = uid)) as [->|Hne].
    + rewrite lookup_alter_eq.
      destruct (MongoBot.users db !! uid) as [u0|] eqn:E; cbn; [|discriminate].
      intros [= <-]. rewrite HI. apply Hk, E.
    + rewrite lookup_alter_ne by congruence. apply Hk.
Qed.

Lemma mongo_frame_seen (env : Env) (from : From) (db : MongoBot.Db) :
  mongo_frame false db (seen env from db).
Proof.
  unfold seen. apply mongo_frame_upsert; intros [? ? ? ? ? ? ? ? ? ?]; reflexivity.
Qed.

Lemma mongo_frame_viewed (i : nat) (file : MongoBot.File) (db : MongoBot.Db) :
  mongo_frame false db (viewed i file db).
Proof.
  unfold viewed. apply mongo_frame_files; intros [? ? ? ? ? ? ? ? ? ? ? ?]; auto.
Qed.

Lemma mongo_frame_downloaded (uid : Z) (user : MongoBot.User) (i : nat)
    (file : MongoBot.File) (db : MongoBot.Db) :
  mongo_frame false db (downloaded uid user i file db).
Proof.
  unfold downloaded.
  change false with (false || false).
  eapply mongo_frame_trans.
  - apply (mongo_frame_files (MongoBot.set_downloads (MongoBot.downloads file + 1)) i);
      intros [? ? ? ? ? ? ? ? ? ? ? ?]; auto.
  - apply mongo_frame_alter_user; intros [? ? ? ? ? ? ? ? ? ?]; reflexivity.
Qed.

Lemma MongoBot_start_frame (cfg : Config) (env : Env) (from : From)
    (text : string) (db : MongoBot.Db) (n : nat) :
  mongo_frame false db (store (snd (MongoBot.start cfg env from text (fresh db n))))
  /\ drawn (snd (MongoBot.start cfg env from text (fresh db n))) = n.
Proof.
  apply (MongoBot_start_world cfg env from text db n
           (fun w' => mongo_frame false db (store w') /\ drawn w' = n)).
  - intros w' Hd ->. split; [apply mongo_frame_seen|exact Hd].
  - intros w' i file Hd _ ->. split; [|exact Hd].
    change false with (false || false).
    eapply mongo_frame_trans; [apply mongo_frame_seen|apply mongo_frame_viewed].
  - intros w' i file user Hd _ _ ->. split; [|exact Hd].
    change false with (false || false).
    eapply mongo_frame_trans; [apply mongo_frame_seen|apply mongo_frame_downloaded].
Qed.

Lemma MongoBot_fresh_code_sound (env : Env) (fuel : nat) :
  forall w : World MongoBot.Db,
    (exists k, (k < fuel)%nat
       /\ (random env (drawn w + k) ∉ codes (store w))
       /\ MongoBot.fresh_code env fuel w =
            (Done (random env (drawn w + k)),
             mkWorld (store w) (calls w) (drawn w + Datatypes.S k)))
    \/ MongoBot.fresh_code env fuel w =
         (OutOfFuel, mkWorld (store w) (calls w) (drawn w + fuel)).
Proof.
  induction fuel as [|fuel IH]; intros w.
  - right. cbn [MongoBot.fresh_code]. rewrite Nat.add_0_r. destruct w; reflexivity.
  - assert (MongoBot.fresh_code env (Datatypes.S fuel) w =
            match MongoBot.findOne (MongoBot.with_code (random env (drawn w)))
                    (MongoBot.files (store w)) with
            | None =>
                (Done (random env (drawn w)),
                 mkWorld (store w) (calls w) (Datatypes.S (drawn w)))
            | Some _ =>
                MongoBot.fresh_code env fuel
                  (mkWorld (store w) (calls w) (Datatypes.S (drawn w)))
            end) as Hstep.
    { cbn [MongoBot.fresh_code].
      unfold bind, generateCode, get_store. cbn [store calls drawn].
      destruct (MongoBot.findOne _ _); reflexivity. }
    rewrite Hstep. clear Hstep.
    destruct (MongoBot.findOne (MongoBot.with_code (random env (drawn w)))
                (MongoBot.files (store w))) as [hit|] eqn:Hhit.
    + destruct (IH (mkWorld (store w) (calls w) (Datatypes.S (drawn w))))
        as [(k & Hk & Hfree & E)|E]; cbn [store calls drawn] in *.
      * left. exists (Datatypes.S k). split; [lia|].
        replace (drawn w + Datatypes.S k)%nat with (Datatypes.S (drawn w) + k)%nat by lia.
        split; [exact Hfree|]. rewrite E.
        f_equal; f_equal; lia.
      * right. rewrite E. f_equal; f_equal; lia.
    + left. exists 0%nat. split; [lia|]. rewrite Nat.add_0_r.
      split; [apply with_code_None, Hhit|].
      f_equal; f_equal; lia.
Qed.

(** An upload either leaves the database as it is or stores one active
    record under a code no document carried. *)
Lemma MongoBot_upload_world (cfg : Config) (env : Env) (fuel : nat)
    (from : From) (up : Upload) (w : World MongoBot.Db)
    (Q : World MongoBot.Db -> Prop) :
  (forall w', store w' = store w -> Q w') ->
  (forall w' record,
     MongoBot.shortCode record ∉ codes (store w) ->
     MongoBot.isActive record = true ->
     store w' = uploaded env (from_id from) record (store w) -> Q w') ->
  Q (snd (MongoBot.upload cfg env fuel from up w)).
Proof.
  intros Hsame Hnew.
  destruct (MongoBot.describe up) as [[[[fid ftype] fname] fsize]|] eqn:Hd.
  2:{ unfold MongoBot.upload, try_catch at 1. rewrite Hd.
      unfold throw, tg_reply_detached, bind, emit, ret. cbn. apply Hsame. reflexivity. }
  destruct (MongoBot_fresh_code_sound env fuel w) as [(k & Hk & Hfree & E)|E].
  2:{ unfold MongoBot.upload, try_catch at 1. rewrite Hd.
      unfold bind at 1. rewrite E. apply Hsame. reflexivity. }
  rewrite (MongoBot_upload_with_code cfg env fuel from up _ _ _ fid ftype fname
             fsize Hd E).
  cbn [store calls drawn].
  destruct (existsb _ _); cbn [snd].
  - apply Hsame. reflexivity.
  - apply (Hnew _ (MongoBot.mkFile fid None ftype fname fsize
                     (JS.or_else (msg_caption up) fname)
                     (random env (drawn w + k)) (from_id from) 0 0 true (now env)));
      [exact Hfree|reflexivity|reflexivity].
Qed.

Lemma mongo_frame_uploaded (env : Env) (uid : Z) (record : MongoBot.File)
    (db : MongoBot.Db) :
  MongoBot.shortCode record ∉ codes db ->
  mongo_frame false db (uploaded env uid record db).
Proof.
  intros Hfree. unfold uploaded.
  change false with (false || false).
  eapply (mongo_frame_trans _ _ _
            (MongoBot.set_files (fun fs => fs ++ [record]) db)).
  - assert (codes (MongoBot.set_files (fun fs => fs ++ [record]) db)
            = codes db ++ [MongoBot.shortCode record]) as Hcodes.
    { unfold codes. cbn [MongoBot.set_files MongoBot.files].
      rewrite map_app. reflexivity. }
    split; [reflexivity|].
    split; [eexists; exact Hcodes|].
    split.
    { intros Hnd. rewrite Hcodes. apply NoDup_app. split; [exact Hnd|].
      split; [|apply NoDup_singleton].
      intros x Hx Hin. apply list_elem_of_singleton in Hin. subst x. auto. }
    split.
    { intros code [Hin Hall]. split.
      - rewrite Hcodes. apply elem_of_app. left. exact Hin.
      - cbn [MongoBot.set_files MongoBot.files]. apply Forall_app. split; [exact Hall|].
        constructor; [|constructor]. intros E. subst code. contradiction. }
    split; [auto|]. intros _. repeat split.
  - apply mongo_frame_users.
    + intros k. rewrite inc_filesShared_lookup.
      destruct (decide (k = uid)) as [->|]; [|reflexivity].
      cbn [MongoBot.set_files MongoBot.users].
      destruct (MongoBot.users db !! uid) as [[? ? ? ? ? ? ? ? ? ?]|]; reflexivity.
    + intros k. rewrite inc_filesShared_lookup.
      destruct (decide (k = uid)) as [->|]; [|reflexivity].
      cbn [MongoBot.set_files MongoBot.users].
      destruct (MongoBot.users db !! uid) as [[? ? ? ? ? ? ? ? ? ?]|]; reflexivity.
    + intros Hk k u. rewrite inc_filesShared_lookup.
      destruct (decide (k = uid)) as [->|]; [|apply Hk].
      cbn [MongoBot.set_files MongoBot.users].
      destruct (MongoBot.users db !! uid) as [u0|] eqn:E; intros [= <-].
      * destruct u0; cbn. apply (Hk uid) in E. exact E.
      * reflexivity.
Qed.

Lemma MongoBot_upload_drawn (cfg : Config) (env : Env) (fuel : nat)
    (from : From) (up : Upload) (w : World MongoBot.Db) :
  (drawn w <= drawn (snd (MongoBot.upload cfg env fuel from up w)))%nat.
Proof.
  destruct (MongoBot.describe up) as [[[[fid ftype] fname] fsize]|] eqn:Hd.
  2:{ unfold MongoBot.upload, try_catch at 1. rewrite Hd.
      unfold throw, tg_reply_detached, bind, emit, ret. cbn. lia. }
  destruct (MongoBot_fresh_code_sound env fuel w) as [(k & Hk & Hfree & E)|E].
  2:{ unfold MongoBot.upload, try_catch at 1. rewrite Hd.
      unfold bind at 1. rewrite E. cbn. lia. }
  rewrite (MongoBot_upload_with_code cfg env fuel from up _ _ _ fid ftype fname
             fsize Hd E).
  cbn [store calls drawn].
  destruct (existsb _ _); cbn [snd drawn logged]; lia.
Qed.

Lemma MongoBot_upload_frame (cfg : Config) (env : Env) (fuel : nat)
    (from : From) (up : Upload) (db : MongoBot.Db) (n : nat) :
  mongo_frame false db
    (store (snd (MongoBot.upload cfg env fuel from up (fresh db n)))).
Proof.
  apply (MongoBot_upload_world cfg env fuel from up (fresh db n)
           (fun w' => mongo_frame false db (store w'))).
  - intros w' ->. apply mongo_frame_refl.
  - intros w' record Hfree _ ->. apply mongo_frame_uploaded, Hfree.
Qed.

Lemma MongoBot_verify_frame (env : Env) (from : From) (code : string)
    (db : MongoBot.Db) (n : nat) :
  mongo_frame false db (store (snd (MongoBot.verify env from code (fresh db n)))).
Proof.
  rewrite MongoBot_verify_store. cbn [fresh store].
  apply mongo_frame_upsert; intros [? ? ? ? ? ? ? ? ? ?]; reflexivity.
Qed.

Lemma MongoBot_verify_sub_run (env : Env) (from : From) (w : World MongoBot.Db) :
  MongoAdmin.verify_sub env from w =
    let chs := MongoBot.channels (store w) in
    let asked := queries (from_id from) chs in
    let m := missing env (from_id from) chs in
    let prompt := match m with [] => [] | _ => [Reply (MsgJoinChannels m)] end in
    if match m with [] => true | _ => negb (reply_ok env (MsgJoinChannels m)) end
    then
      (if answer_ok env
       then if reply_ok env MsgSubscriptionOk then Done tt else Thrown "reply"
       else Thrown "answerCbQuery",
       logged (asked ++ prompt ++ [AnswerCbQuery true]
                 ++ (if answer_ok env then [Reply MsgSubscriptionOk] else [])) w)
    else
      (if answer_ok env then Done tt else Thrown "answerCbQuery",
       logged (asked ++ prompt ++ [AnswerCbQuery false]) w).
Proof.
  unfold MongoAdmin.verify_sub, bind at 1. rewrite MongoBot_checkSubscription_run.
  cbv zeta.
  destruct (missing env (from_id from) (MongoBot.channels (store w))) as [|c m].
  - unfold tg_answerCbQuery, tg_reply, bind, emit, ret, throw, logged.
    cbn [store calls drawn].
    destruct (answer_ok env); [destruct (reply_ok env _)|];
      cbn [store calls drawn]; rewrite <- ?app_assoc; cbn [app];
      rewrite ?app_nil_r; reflexivity.
  - destruct (reply_ok env (MsgJoinChannels (c :: m))); cbn [negb];
      unfold tg_answerCbQuery, tg_reply, bind, emit, ret, throw, logged;
      cbn [store calls drawn];
      destruct (answer_ok env); try destruct (reply_ok env MsgSubscriptionOk);
      cbn [store calls drawn]; rewrite <- ?app_assoc; cbn [app];
      rewrite ?app_nil_r; reflexivity.
Qed.

Lemma MongoBot_verify_sub_store (env : Env) (from : From) (w : World MongoBot.Db) :
  store (snd (MongoAdmin.verify_sub env from w)) = store w.
Proof.
  rewrite MongoBot_verify_sub_run. cbv zeta.
  destruct (match missing env _ _ with [] => true | _ => _ end); reflexivity.
Qed.

Lemma MongoBot_ban_store (cfg : Config) (env : Env) (from : From)
    (target : option Z) (w : World MongoBot.Db) :
  store (snd (MongoBot.ban cfg env from target w)) =
    if MongoBot.isAdmin cfg (from_id from) then
      match target with
      | Some uid =>
          if (uid =? 0)%Z then store w
          else MongoBot.set_users
                 (MongoBot.upsert_user uid (now env)
                    [("isBanned", MongoBot.UBool true)]) (store w)
      | None => store w
      end
    else store w.
Proof.
  unfold MongoBot.ban.
  destruct (MongoBot.isAdmin cfg (from_id from)); cbn [negb];
    [|rewrite tg_reply_run; reflexivity].
  destruct target as [uid|]; [|rewrite tg_reply_run; reflexivity].
  destruct (uid =? 0)%Z; [rewrite tg_reply_run; reflexivity|].
  reflexivity.
Qed.

Lemma MongoBot_deletefile_store (cfg : Config) (env : Env) (from : From)
    (code : option string) (w : World MongoBot.Db) :
  store (snd (MongoBot.deletefile cfg env from code w)) =
    if MongoBot.isAdmin cfg (from_id from) && JS.truthy_opt code then
      match MongoBot.findOne (MongoBot.with_code (default "" code))
              (MongoBot.files (store w)) with
      | Some (i, _) =>
          MongoBot.set_files (alter (MongoBot.set_isActive false) i) (store w)
      | None => store w
      end
    else store w.
Proof.
  unfold MongoBot.deletefile.
  destruct (MongoBot.isAdmin cfg (from_id from)); cbn [negb andb];
    [|rewrite tg_reply_run; reflexivity].
  destruct (JS.truthy_opt code); cbn [negb];
    [|rewrite tg_reply_run; reflexivity].
  unfold bind, get_store.
  destruct (MongoBot.findOne _ _) as [[i f]|]; reflexivity.
Qed.

Lemma mongo_frame_admin (db db' : MongoBot.Db) :
  (forall uid, is_verified db' uid = is_verified db uid) ->
  MongoBot.files db' = MongoBot.files db ->
  (keyed db -> keyed db') ->
  mongo_frame true db db'.
Proof.
  intros HV HF HK.
  assert (codes db' = codes db) as Hcodes by (unfold codes; rewrite HF; reflexivity).
  split; [exact HV|].
  split; [exists []; rewrite app_nil_r; exact Hcodes|].
  split; [rewrite Hcodes; auto|].
  split; [unfold retired; rewrite Hcodes, HF; auto|].
  split; [exact HK|]. discriminate.
Qed.

Lemma MongoAdmin_not_admin (cfg : Config) (from : From) (db : MongoBot.Db) :
  MongoBot.isAdmin cfg (from_id from) = false ->
  (forall text, MongoAdmin.setadlink cfg from text db = (db, MongoAdmin.AdminOnly))
  /\ (forall seconds,
        MongoAdmin.autodelete cfg from seconds db = (db, MongoAdmin.AdminOnly))
  /\ (forall text, MongoAdmin.protect cfg from text db = (db, MongoAdmin.AdminOnly))
  /\ (forall getChat text,
        MongoAdmin.addchannel cfg getChat from text db = (db, MongoAdmin.AdminOnly))
  /\ (forall text,
        MongoAdmin.removechannel cfg from text db = (db, MongoAdmin.AdminOnly))
  /\ (forall target,
        MongoAdmin.unban cfg from target db = (db, MongoAdmin.AdminOnly)).
Proof.
  intros H.
  unfold MongoAdmin.setadlink, MongoAdmin.autodelete, MongoAdmin.protect,
    MongoAdmin.addchannel, MongoAdmin.removechannel, MongoAdmin.unban.
  rewrite H. repeat split.
Qed.

Lemma MongoAdmin_users_files (cfg : Config) (db : MongoBot.Db) :
  (forall from text,
     let db' := fst (MongoAdmin.setadlink cfg from text db) in
     MongoBot.users db' = MongoBot.users db /\ MongoBot.files db' = MongoBot.files db)
  /\ (forall from seconds,
        let db' := fst (MongoAdmin.autodelete cfg from seconds db) in
        MongoBot.users db' = MongoBot.users db /\ MongoBot.files db' = MongoBot.files db)
  /\ (forall from text,
        let db' := fst (MongoAdmin.protect cfg from text db) in
        MongoBot.users db' = MongoBot.users db /\ MongoBot.files db' = MongoBot.files db)
  /\ (forall getChat from text,
        let db' := fst (MongoAdmin.addchannel cfg getChat from text db) in
        MongoBot.users db' = MongoBot.users db /\ MongoBot.files db' = MongoBot.files db)
  /\ (forall from text,
        let db' := fst (MongoAdmin.removechannel cfg from text db) in
        MongoBot.users db' = MongoBot.users db /\ MongoBot.files db' = MongoBot.files db).
Proof.
  repeat split;
    unfold MongoAdmin.setadlink, MongoAdmin.autodelete, MongoAdmin.protect,
      MongoAdmin.addchannel, MongoAdmin.removechannel;
    repeat (match goal with
            | |- context [if ?b then _ else _] => destruct b
            | |- context [match ?x with _ => _ end] => destruct x
            end; try reflexivity).
Qed.

Lemma mongo_frame_config (a : bool) (db db' : MongoBot.Db) :
  MongoBot.users db' = MongoBot.users db ->
  MongoBot.files db' = MongoBot.files db ->
  (a = false -> db' = db) ->
  mongo_frame a db db'.
Proof.
  intros HU HF Ha. destruct a.
  - apply mongo_frame_admin; [|exact HF|].
    + intros uid. unfold is_verified. rewrite HU. reflexivity.
    + unfold keyed. rewrite HU. auto.
  - rewrite (Ha eq_refl). apply mongo_frame_refl.
Qed.

Lemma mongo_frame_flag (b : bool) (uid t : Z) (db : MongoBot.Db) :
  mongo_frame true db
    (MongoBot.set_users
       (MongoBot.upsert_user uid t [("isBanned", MongoBot.UBool b)]) db).
Proof.
  apply mongo_frame_admin; [|reflexivity|].
  - intros k. unfold is_verified. cbn [MongoBot.set_users MongoBot.users].
    rewrite upsert_lookup. destruct (decide (k = uid)) as [->|]; [|reflexivity].
    destruct (MongoBot.users db !! uid) as [[? ? ? ? ? ? ? ? ? ?]|]; reflexivity.
  - intros Hk k u. cbn [MongoBot.set_users MongoBot.users].
    rewrite upsert_lookup. destruct (decide (k = uid)) as [->|]; [|apply Hk].
    destruct (MongoBot.users db !! uid) as [u0|] eqn:E; intros [= <-].
    + apply (Hk uid) in E. destruct u0; exact E.
    + reflexivity.
Qed.

Lemma MongoAdmin_unban_frame (cfg : Config) (from : From) (target : option Z)
    (db : MongoBot.Db) :
  mongo_frame (MongoBot.isAdmin cfg (from_id from)) db
    (fst (MongoAdmin.unban cfg from target db)).
Proof.
  unfold MongoAdmin.unban.
  destruct (MongoBot.isAdmin cfg (from_id from)); cbn [negb fst];
    [|apply mongo_frame_refl].
  destruct target as [uid|]; [|apply mongo_frame_refl].
  destruct (uid =? 0)%Z; [apply mongo_frame_refl|]. cbn [fst].
  destruct (MongoBot.users db !! uid) as [u|] eqn:E.
  - pose proof (mongo_frame_flag false uid 0 db) as H.
    unfold MongoBot.upsert_user in H.
    unfold MongoBot.set_users in *. rewrite E in *. exact H.
  - unfold MongoBot.set_users. rewrite E. destruct db; apply mongo_frame_refl.
Qed.

Lemma MongoTrace_step_frame (cfg : Config) (s : MongoBot.Db * nat)
    (x : Env * MongoTrace.Event) :
  mongo_frame (MongoBot.isAdmin cfg (from_id (MongoTrace.sender (snd x))))
    (fst s) (fst (MongoTrace.step cfg s x)).
Proof.
  destruct s as [db n], x as [env ev]. unfold MongoTrace.step.
  cbn [fst snd]. destruct ev; cbn [MongoTrace.sender MongoTrace.after fst snd].
  - apply mongo_frame_weaken, MongoBot_start_frame.
  - apply mongo_frame_weaken, MongoBot_verify_frame.
  - rewrite MongoBot_verify_sub_store. apply mongo_frame_refl.
  - apply mongo_frame_weaken, MongoBot_upload_frame.
  - rewrite MongoBot_ban_store. cbn [fresh store].
    destruct (MongoBot.isAdmin cfg (from_id from)); [|apply mongo_frame_refl].
    destruct target as [uid|]; [|apply mongo_frame_refl].
    destruct (uid =? 0)%Z; [apply mongo_frame_refl|].
    apply mongo_frame_flag.
  - apply MongoAdmin_unban_frame.
  - rewrite MongoBot_deletefile_store. cbn [fresh store].
    apply mongo_frame_weaken.
    destruct (_ && _); [|apply mongo_frame_refl].
    destruct (MongoBot.findOne _ _) as [[i f]|]; [|apply mongo_frame_refl].
    apply mongo_frame_files; intros [? ? ? ? ? ? ? ? ? ? ? ?]; auto.
  - destruct (MongoAdmin_users_files cfg db) as (H & _). specialize (H from text).
    cbv zeta in H. destruct H as [HU HF].
    apply mongo_frame_config; [exact HU|exact HF|].
    intros Ha. destruct (MongoAdmin_not_admin cfg from db Ha) as (E & _).
    rewrite E. reflexivity.
  - destruct (MongoAdmin_users_files cfg db) as (_ & H & _).
    specialize (H from seconds). cbv zeta in H. destruct H as [HU HF].
    apply mongo_frame_config; [exact HU|exact HF|].
    intros Ha. destruct (MongoAdmin_not_admin cfg from db Ha) as (_ & E & _).
    rewrite E. reflexivity.
  - destruct (MongoAdmin_users_files cfg db) as (_ & _ & H & _).
    specialize (H from text). cbv zeta in H. destruct H as [HU HF].
    apply mongo_frame_config; [exact HU|exact HF|].
    intros Ha. destruct (MongoAdmin_not_admin cfg from db Ha) as (_ & _ & E & _).
    rewrite E. reflexivity.
  - destruct (MongoAdmin_users_files cfg db) as (_ & _ & _ & H & _).
    specialize (H getChat from text). cbv zeta in H. destruct H as [HU HF].
    apply mongo_frame_config; [exact HU|exact HF|].
    intros Ha. destruct (MongoAdmin_not_admin cfg from db Ha) as (_ & _ & _ & E & _).
    rewrite E. reflexivity.
  - destruct (MongoAdmin_users_files cfg db) as (_ & _ & _ & _ & H).
    specialize (H from text). cbv zeta in H. destruct H as [HU HF].
    apply mongo_frame_config; [exact HU|exact HF|].
    intros Ha. destruct (MongoAdmin_not_admin cfg from db Ha) as (_ & _ & _ & _ & E & _).
    rewrite E. reflexivity.
Qed.

(** A sequence of updates stays within the frame; the flag tells whether
    some update of the sequence comes from an admin. *)
Lemma MongoTrace_run_frame (cfg : Config) (evs : list (Env * MongoTrace.Event)) :
  forall s : MongoBot.Db * nat,
    mongo_frame
      (existsb (fun x => MongoBot.isAdmin cfg (from_id (MongoTrace.sender (snd x)))) evs)
      (fst s) (fst (MongoTrace.run cfg evs s)).
Proof.
  induction evs as [|x evs IH]; intros s.
  - apply mongo_frame_refl.
  - cbn [existsb MongoTrace.run fold_left].
    eapply mongo_frame_trans; [apply MongoTrace_step_frame|apply IH].
Qed.

Lemma json_frame_trans (a1 a2 : bool) (db1 db2 db3 : JsonBot.Db) :
  json_frame a1 db1 db2 -> json_frame a2 db2 db3 -> json_frame (a1 || a2) db1 db3.
Proof.
  intros (V1 & F1 & A1 & N1) (V2 & F2 & A2 & N2).
  split.
  { intros uid u Hu Hv. destruct (V1 uid u Hu Hv) as (u' & Hu' & Hv').
    apply (V2 uid u' Hu' Hv'). }
  split; [etransitivity; eassumption|].
  split; [|auto].
  intros Ha. apply orb_false_iff in Ha as [Ha1 Ha2].
  destruct (A1 Ha1), (A2 Ha2). split; congruence.
Qed.

Lemma JsonTrace_run_frame (cfg : Config) (evs : list (Env * JsonTrace.Event)) :
  forall s : JsonBot.Db * nat,
    json_frame
      (existsb (fun x => JsonAdmin.isAdmin cfg (from_id (JsonTrace.sender (snd x)))) evs)
      (fst s) (fst (JsonTrace.run cfg evs s)).
Proof.
  induction evs as [|x evs IH]; intros s.
  - apply json_frame_refl.
  - cbn [existsb JsonTrace.run fold_left].
    eapply json_frame_trans; [apply JsonTrace_step_frame|apply IH].
Qed.

(** ** Round trip in the MongoDB bot *)

(** X7: in the MongoDB bot an upload that the collection takes (no
    document of it lacks [fileUniqueId], so the unique index of the
    schema does not refuse the insert), followed by a redemption of the
    issued code, is a round trip: a verified, not banned requester whom
    every channel lets through and who sends [/start <code>] is sent the
    uploaded file, with the caption of the message or else the file name;
    the download is then logged and, last, the deletion timer is set; the
    new document, the last of the collection, then counts one download
    and no view (lines 829-934 and 628-749).  The code is the first draw
    that no document carries. *)
Theorem mongo_upload_then_redeem (cfg : Config) (env1 env2 : Env)
    (uploader requester : From) (up : Upload) (db : MongoBot.Db)
    (n k fuel n' : nat) (fid : string) (ftype : FileType)
    (fname : option string) (fsize mid : Z) (u : MongoBot.User) :
  MongoBot.describe up = Some (fid, ftype, fname, fsize) ->
  takes_upload db ->
  (forall j, (j < k)%nat -> random env1 (n + j) ∈ codes db) ->
  random env1 (n + k) ∉ codes db ->
  (k < fuel)%nat ->
  JS.truthy_str (random env1 (n + k)) = true ->
  space_free (random env1 (n + k)) = true ->
  MongoBot.users db !! from_id requester = Some u ->
  MongoBot.isBanned u = false ->
  MongoBot.isVerified u = true ->
  Forall (lets_through env2 (from_id requester)) (MongoBot.channels db) ->
  sendFile env2 ftype fid = Some mid ->
  let code := random env1 (n + k) in
  let db1 := store (snd (MongoBot.upload cfg env1 fuel uploader up (fresh db n))) in
  let r := MongoBot.start cfg env2 requester ("/start " +:+ code) (fresh db1 n') in
  let st := MongoBot.settings db in
  fst r = Done tt
  /\ calls (snd r)
     = queries (from_id requester) (MongoBot.channels db)
         ++ [SendFile ftype fid (JS.or_else (msg_caption up) fname)
               (default false (MongoBot.protect_content st))]
         ++ [LogSend (LogDownloaded (from_id requester) code)]
         ++ purge_calls (default 0 (MongoBot.auto_delete st)) mid
  /\ exists record,
       MongoBot.files (store (snd r)) = MongoBot.files db ++ [record]
       /\ MongoBot.shortCode record = code
       /\ MongoBot.fileId record = fid
       /\ MongoBot.fileType record = ftype
       /\ MongoBot.uploadedBy record = from_id uploader
       /\ MongoBot.isActive record = true
       /\ MongoBot.downloads record = 1
       /\ MongoBot.views record = 0.
Proof.
  intros Hd Htakes Htaken Hfree Hfuel Htruthy Hsf Hu Hban Hver Hsub Hsend. cbv zeta.
  rewrite (MongoBot_upload_run cfg env1 uploader up db n k fuel fid ftype fname fsize
             Hd Htaken Hfree Hfuel Htakes).
  cbn [snd store].
  set (record := MongoBot.mkFile fid None ftype fname fsize
                   (JS.or_else (msg_caption up) fname) (random env1 (n + k))
                   (from_id uploader) 0 0 true (now env1)).
  set (db1 := MongoBot.set_users (MongoBot.inc_filesShared env1 (from_id uploader))
                (MongoBot.set_files (fun fs => fs ++ [record]) db)).
  destruct (start_arg_of_code (random env1 (n + k)) Hsf) as [_ Harg].
  destruct (inc_filesShared_flags env1 (from_id uploader) (from_id requester)
              (MongoBot.users db) u Hu) as (u' & Hu' & Hv' & Hb').
  assert (Hfound : MongoBot.findOne (MongoBot.active_with_code (random env1 (n + k)))
                     (MongoBot.files db1)
                   = Some (length (MongoBot.files db), record)).
  { subst db1. cbn [MongoBot.set_users MongoBot.set_files MongoBot.files].
    apply fresh_record_found; [exact Hfree|reflexivity|reflexivity]. }
  rewrite (MongoBot_deliver_start_run cfg env2 requester _ (random env1 (n + k)) db1 n'
             (length (MongoBot.files db)) record u' Harg Htruthy Hfound Hu').
  2: congruence. 2: congruence. 2: exact Hsub.
  change (MongoBot.fileType record) with ftype.
  change (MongoBot.fileId record) with fid.
  rewrite Hsend. cbn [fst snd calls store].
  split; [reflexivity|]. split; [reflexivity|].
  exists (MongoBot.mkFile fid None ftype fname fsize
            (JS.or_else (msg_caption up) fname) (random env1 (n + k))
            (from_id uploader) 0 1 true (now env1)).
  split; [|repeat split].
  cbn [MongoBot.set_users MongoBot.set_files MongoBot.files seen db1].
  unfold db1. cbn [MongoBot.set_users MongoBot.set_files MongoBot.files].
  apply list_eq. intros j.
  destruct (decide (j = length (MongoBot.files db))) as [->|Hj].
  - rewrite list_lookup_alter_eq.
    rewrite !lookup_app_r by lia. rewrite Nat.sub_diag. reflexivity.
  - rewrite list_lookup_alter_ne by congruence.
    destruct (decide (j < length (MongoBot.files db))%nat) as [Hlt|Hge].
    + rewrite !lookup_app_l by exact Hlt. reflexivity.
    + rewrite !lookup_app_r by lia.
      destruct (j - length (MongoBot.files db))%nat as [|m] eqn:E; [lia|].
      reflexivity.
Qed.

Lemma mongo_upload_then_redeem_witness :
  let db1 := store (snd (MongoBot.upload ex_cfg ex_env 1 root ex_upload
                           (fresh (ex_mdb_empty true false) 0))) in
  let r := MongoBot.start ex_cfg ex_env ada "/start a1b2c3d4" (fresh db1 0) in
  fst r = Done tt
  /\ calls (snd r)
     = [GetChatMember "-1001234" 42;
        SendFile Document "BQACAgQAAx1" (Some "notes.txt") false;
        LogSend (LogDownloaded 42 "a1b2c3d4");
        SetTimeout 900 60000]
  /\ exists record,
       MongoBot.files (store (snd r)) = [record]
       /\ MongoBot.shortCode record = "a1b2c3d4"
       /\ MongoBot.fileId record = "BQACAgQAAx1"
       /\ MongoBot.fileType record = Document
       /\ MongoBot.uploadedBy record = 1
       /\ MongoBot.isActive record = true
       /\ MongoBot.downloads record = 1
       /\ MongoBot.views record = 0.
Proof.
  apply (mongo_upload_then_redeem ex_cfg ex_env ex_env root ada ex_upload
           (ex_mdb_empty true false) 0 0 1 0 "BQACAgQAAx1" Document
           (Some "notes.txt") 2048 900 (ex_mongo_user true false)); try reflexivity.
  - constructor.
  - intros j Hj. lia.
  - intros Hin. apply list_elem_of_In in Hin. destruct Hin.
  - lia.
  - repeat constructor.
Defined.

(** ** Invariants of [src/index.js] over sequences of updates *)

(** X8: in [src/index.js] a verified user stays verified: no sequence of
    [/start] messages, verify callbacks, subscription callbacks, uploads
    and admin commands, by whomever and with whatever answers of the
    outside world, removes a user record or clears its [verified] flag
    (the flag is only ever assigned [true], lines 240 and 246, and a
    record is only created when absent, lines 142-151). *)
Theorem json_verified_user_stays_verified (cfg : Config)
    (evs : list (Env * JsonTrace.Event)) (db : JsonBot.Db) (n : nat) (uid : Z)
    (u : JsonBot.User) :
  JsonBot.users db !! uid = Some u ->
  JsonBot.verified u = true ->
  exists u',
    JsonBot.users (fst (JsonTrace.run cfg evs (db, n))) !! uid = Some u'
    /\ JsonBot.verified u' = true.
Proof.
  intros Hu Hv.
  destruct (JsonTrace_run_frame cfg evs (db, n)) as (HV & _).
  exact (HV uid u Hu Hv).
Qed.

Lemma json_verified_user_stays_verified_witness :
  exists u',
    JsonBot.users (fst (JsonTrace.run ex_cfg ex_json_trace (ex_jdb, 0%nat))) !! 42
      = Some u'
    /\ JsonBot.verified u' = true.
Proof.
  apply (json_verified_user_stays_verified ex_cfg ex_json_trace ex_jdb 0 42
           (JsonBot.mkUser true (Some 1695000000) (Some "Ada") (Some "ada")));
    reflexivity.
Defined.

(** X9: in [src/index.js] only admins change the configuration: after a
    sequence of updates none of which comes from a user listed in
    [config.admins], the settings and the channel list are what they
    were, whatever commands were sent (every admin command starts with
    the [isAdmin] test, and no other handler assigns [db.settings] or
    [db.channels]). *)
Theorem json_only_admins_change_configuration (cfg : Config)
    (evs : list (Env * JsonTrace.Event)) (db : JsonBot.Db) (n : nat) :
  Forall (fun x => JsonAdmin.isAdmin cfg (from_id (JsonTrace.sender (snd x))) = false)
    evs ->
  JsonBot.settings (fst (JsonTrace.run cfg evs (db, n))) = JsonBot.settings db
  /\ JsonBot.channels (fst (JsonTrace.run cfg evs (db, n))) = JsonBot.channels db.
Proof.
  intros Hall.
  destruct (JsonTrace_run_frame cfg evs (db, n)) as (_ & _ & HA & _).
  apply HA. apply not_true_iff_false. intros H.
  apply existsb_exists in H as (x & Hx & Hadmin).
  rewrite Forall_forall in Hall. apply list_elem_of_In in Hx.
  rewrite (Hall x Hx) in Hadmin. discriminate.
Qed.

Lemma json_only_admins_change_configuration_witness :
  JsonBot.settings (fst (JsonTrace.run ex_cfg ex_json_trace (ex_jdb, 0%nat)))
    = JsonBot.settings ex_jdb
  /\ JsonBot.channels (fst (JsonTrace.run ex_cfg ex_json_trace (ex_jdb, 0%nat)))
     = JsonBot.channels ex_jdb.
Proof.
  apply (json_only_admins_change_configuration ex_cfg ex_json_trace ex_jdb 0).
  repeat constructor.
Defined.

(** X10: in [src/index.js] the channel ids of [db.channels] stay pairwise
    distinct under every sequence of updates: [/addchannel] refuses an id
    that is already listed (lines 469-473) and [/removechannel] only
    filters the list. *)
Theorem json_channel_ids_stay_distinct (cfg : Config)
    (evs : list (Env * JsonTrace.Event)) (db : JsonBot.Db) (n : nat) :
  NoDup (map channelId (JsonBot.channels db)) ->
  NoDup (map channelId (JsonBot.channels (fst (JsonTrace.run cfg evs (db, n))))).
Proof.
  intros Hnd.
  destruct (JsonTrace_run_frame cfg evs (db, n)) as (_ & _ & _ & HN).
  exact (HN Hnd).
Qed.

Lemma json_channel_ids_stay_distinct_witness :
  NoDup (map channelId
           (JsonBot.channels
              (fst (JsonTrace.run ex_cfg
                      [(ex_env, JsonTrace.Addchannel ex_getChat root "/addchannel @news");
                       (ex_env, JsonTrace.Addchannel ex_getChat root "/addchannel @news")]
                      (ex_jdb, 0%nat))))).
Proof.
  apply (json_channel_ids_stay_distinct ex_cfg
           [(ex_env, JsonTrace.Addchannel ex_getChat root "/addchannel @news");
            (ex_env, JsonTrace.Addchannel ex_getChat root "/addchannel @news")]
           ex_jdb 0).
  simpl. apply NoDup_singleton.
Defined.

(** X11: in [src/index.js] no file record ever goes away: after any
    sequence of updates every code that had a record still has one (the
    program has no handler that deletes from [db.files]; an upload may
    replace the record of a code but never removes one). *)
Theorem json_file_codes_are_never_removed (cfg : Config)
    (evs : list (Env * JsonTrace.Event)) (db : JsonBot.Db) (n : nat) :
  dom (JsonBot.files db) ⊆ dom (JsonBot.files (fst (JsonTrace.run cfg evs (db, n)))).
Proof.
  destruct (JsonTrace_run_frame cfg evs (db, n)) as (_ & HF & _).
  exact HF.
Qed.

(** ** Invariants of the MongoDB bot over sequences of updates *)

(** X12: in the MongoDB bot no handler ever changes [isVerified]: after
    any sequence of [/start] messages, verify callbacks, subscription
    callbacks, uploads, bans, unbans, file deletions and configuration
    commands, every user is verified exactly if they were before, and a
    user created on the way is not (the only update meant to set the flag
    names the path [verified], line 787, which the schema drops). *)
Theorem mongo_isVerified_never_changes (cfg : Config)
    (evs : list (Env * MongoTrace.Event)) (db : MongoBot.Db) (n : nat) (uid : Z) :
  is_verified (fst (MongoTrace.run cfg evs (db, n))) uid = is_verified db uid.
Proof.
  destruct (MongoTrace_run_frame cfg evs (db, n)) as (HV & _).
  apply HV.
Qed.

(** X13: hence in the MongoDB bot a user who is not verified in the
    database never receives a file, whatever they and everybody else do
    first: after any sequence of updates, no [/start] of that user hands
    a file to the transport. *)
Theorem mongo_unverified_user_never_receives (cfg : Config)
    (evs : list (Env * MongoTrace.Event)) (db : MongoBot.Db) (n n' : nat)
    (env : Env) (from : From) (text : string) :
  is_verified db (from_id from) = false ->
  ~ delivered
      (calls (snd (MongoBot.start cfg env from text
                     (fresh (fst (MongoTrace.run cfg evs (db, n))) n')))).
Proof.
  intros Hnot Hdel.
  apply MongoBot_delivery_requires_gates in Hdel as (u & Hu & Hv & _).
  pose proof (MongoTrace_run_frame cfg evs (db, n)) as (HV & _).
  specialize (HV (from_id from)). cbn [fst] in HV. rewrite Hnot in HV.
  pose proof HV as E.
  unfold is_verified in E at 1. rewrite Hu in E. cbn in E. congruence.
Qed.

Lemma mongo_unverified_user_never_receives_witness :
  ~ delivered
      (calls (snd (MongoBot.start ex_cfg ex_env ada "/start a1b2c3d4"
                     (fresh (fst (MongoTrace.run ex_cfg ex_mongo_trace
                                    (ex_mdb false false, 0%nat))) 0)))).
Proof.
  apply (mongo_unverified_user_never_receives ex_cfg ex_mongo_trace
           (ex_mdb false false) 0 0 ex_env ada "/start a1b2c3d4").
  reflexivity.
Defined.



Lemma retire_at (code : string) (fs : list MongoBot.File) (i : nat)
    (f : MongoBot.File) :
  NoDup (map MongoBot.shortCode fs) ->
  fs !! i = Some f ->
  MongoBot.shortCode f = code ->
  Forall (fun g => MongoBot.shortCode g = code -> MongoBot.isActive g = false)
    (alter (MongoBot.set_isActive false) i fs).
Proof.
  intros Hnd Hi Hcode. apply Forall_lookup. intros j g Hj Hg.
  destruct (decide (j = i)) as [->|Hne].
  - rewrite list_lookup_alter_eq, Hi in Hj. injection Hj as <-. reflexivity.
  - rewrite list_lookup_alter_ne in Hj by congruence.
    exfalso. apply Hne.
    apply (NoDup_lookup (map MongoBot.shortCode fs) j i code Hnd).
    + change (map MongoBot.shortCode fs) with (MongoBot.shortCode <$> fs).
      rewrite list_lookup_fmap, Hj. cbn. congruence.
    + change (map MongoBot.shortCode fs) with (MongoBot.shortCode <$> fs).
      rewrite list_lookup_fmap, Hi. cbn. congruence.
Qed.

Lemma MongoBot_deletefile_retires (cfg : Config) (env : Env) (admin : From)
    (code : string) (db : MongoBot.Db) (n : nat) :
  MongoBot.isAdmin cfg (from_id admin) = true ->
  JS.truthy_str code = true ->
  NoDup (codes db) ->
  code ∈ codes db ->
  retired code
    (store (snd (MongoBot.deletefile cfg env admin (Some code) (fresh db n)))).
Proof.
  intros Hadmin Htruthy Hnd Hin.
  rewrite MongoBot_deletefile_store. rewrite Hadmin. cbn [JS.truthy_opt andb].
  rewrite Htruthy. cbn [from_option fresh store]. unfold id.
  destruct (MongoBot.findOne (MongoBot.with_code code) (MongoBot.files db))
    as [[i f]|] eqn:Hfind.
  - apply findOne_Some in Hfind as [Hi Hf].
    unfold MongoBot.with_code in Hf. apply String.eqb_eq in Hf.
    split.
    + pose proof (map_shortCode_alter (MongoBot.set_isActive false)
                    (MongoBot.files db) ltac:(intros []; reflexivity) i) as E.
      unfold codes. cbn [MongoBot.set_files MongoBot.files].
      rewrite E. exact Hin.
    + cbn [MongoBot.set_files MongoBot.files].
      apply (retire_at code _ i f); assumption.
  - exfalso. apply with_code_None in Hfind. exact (Hfind Hin).
Qed.

(** X15: in the MongoDB bot a deleted file stays deleted: once an admin
    has run [/deletefile <code>] for a code some document carries (and
    codes are distinct), no later sequence of updates, uploads and admin
    commands included, makes the code redeemable again; every
    [/start <code>] is answered with "File not found" and nothing else
    (lines 1045-1063: the delete only clears [isActive]; the document
    keeps reserving its code, and nothing sets [isActive] back). *)
Theorem mongo_deleted_file_stays_deleted (cfg : Config) (env0 env : Env)
    (admin from : From) (code text : string) (db : MongoBot.Db) (n n' : nat)
    (evs : list (Env * MongoTrace.Event)) :
  MongoBot.isAdmin cfg (from_id admin) = true ->
  JS.truthy_str code = true ->
  NoDup (codes db) ->
  code ∈ codes db ->
  MongoBot.start_arg text = Some code ->
  let db1 := store (snd (MongoBot.deletefile cfg env0 admin (Some code) (fresh db n))) in
  let db2 := fst (MongoTrace.run cfg evs (db1, n)) in
  MongoBot.start cfg env from text (fresh db2 n') =
    (if reply_ok env MsgNotFound then Done tt else Thrown "reply",
     mkWorld (seen env from db2) [Reply MsgNotFound] n').
Proof.
  intros Hadmin Htruthy Hnd Hin Harg. cbv zeta.
  pose proof (MongoBot_deletefile_retires cfg env0 admin code db n
                Hadmin Htruthy Hnd Hin) as Hret.
  destruct (MongoTrace_run_frame cfg evs
              (store (snd (MongoBot.deletefile cfg env0 admin (Some code) (fresh db n))), n))
    as (_ & _ & _ & HR & _).
  apply HR in Hret. cbn [fst] in Hret. destruct Hret as [_ Hall].
  apply (MongoBot_unknown_is_not_found cfg env from text code); assumption.
Qed.

Lemma mongo_deleted_file_stays_deleted_witness :
  let db1 := store (snd (MongoBot.deletefile ex_cfg ex_env root (Some "a1b2c3d4")
                           (fresh (ex_mdb true false) 0))) in
  let db2 := fst (MongoTrace.run ex_cfg
                    [(ex_env, MongoTrace.FileMessage 3 ada ex_upload);
                     (ex_env, MongoTrace.Unban root (Some 42))] (db1, 0%nat)) in
  MongoBot.start ex_cfg ex_env ada "/start a1b2c3d4" (fresh db2 0) =
    (Done tt, mkWorld (seen ex_env ada db2) [Reply MsgNotFound] 0).
Proof.
  apply (mongo_deleted_file_stays_deleted ex_cfg ex_env ex_env root ada "a1b2c3d4"
           "/start a1b2c3d4" (ex_mdb true false) 0 0
           [(ex_env, MongoTrace.FileMessage 3 ada ex_upload);
            (ex_env, MongoTrace.Unban root (Some 42))]);
    try reflexivity.
  - simpl. apply NoDup_singleton.
  - apply list_elem_of_In. simpl. auto.
Defined.

(** X16: in the MongoDB bot a ban holds until an admin lifts it: after an
    admin has run [/ban <id>], and after any further updates none of
    which comes from an admin, the user is still banned and no [/start]
    of theirs hands over a file, verified or not (lines 1010-1025 and
    645-650; [/unban] is the only handler that clears [isBanned], and it
    starts with the [isAdmin] test). *)
Theorem mongo_ban_holds_until_an_admin_acts (cfg : Config) (env0 env : Env)
    (admin from : From) (text : string) (db : MongoBot.Db) (n n' : nat)
    (evs : list (Env * MongoTrace.Event)) :
  MongoBot.isAdmin cfg (from_id admin) = true ->
  from_id from <> 0 ->
  Forall (fun x => MongoBot.isAdmin cfg (from_id (MongoTrace.sender (snd x))) = false)
    evs ->
  let db1 := store (snd (MongoBot.ban cfg env0 admin (Some (from_id from)) (fresh db n))) in
  let db2 := fst (MongoTrace.run cfg evs (db1, n)) in
  is_banned db2 (from_id from) = true
  /\ ~ delivered (calls (snd (MongoBot.start cfg env from text (fresh db2 n')))).
Proof.
  intros Hadmin Hne Hall. cbv zeta.
  rewrite MongoBot_ban_store, Hadmin. cbn [fresh store].
  destruct (from_id from =? 0)%Z eqn:E0; [apply Z.eqb_eq in E0; contradiction|].
  set (db1 := MongoBot.set_users _ db).
  assert (is_banned db1 (from_id from) = true) as Hb1.
  { unfold is_banned, db1. cbn [MongoBot.set_users MongoBot.users].
    rewrite upsert_lookup. rewrite decide_True by reflexivity.
    destruct (MongoBot.users db !! from_id from) as [[? ? ? ? ? ? ? ? ? ?]|];
      reflexivity. }
  destruct (MongoTrace_run_frame cfg evs (db1, n)) as (_ & _ & _ & _ & _ & HA).
  assert (existsb
            (fun x => MongoBot.isAdmin cfg (from_id (MongoTrace.sender (snd x)))) evs
          = false) as Hnone.
  { apply not_true_iff_false. intros H.
    apply existsb_exists in H as (x & Hx & Hx').
    rewrite Forall_forall in Hall. apply list_elem_of_In in Hx.
    rewrite (Hall x Hx) in Hx'. discriminate. }
  destruct (HA Hnone) as (HB & _). cbn [fst] in HB.
  assert (is_banned (fst (MongoTrace.run cfg evs (db1, n))) (from_id from) = true)
    as Hb2 by (rewrite HB; exact Hb1).
  split; [exact Hb2|].
  intros Hdel.
  apply MongoBot_delivery_requires_gates in Hdel as (u & Hu & _ & Hnb & _).
  unfold is_banned in Hb2. rewrite Hu in Hb2. cbn in Hb2. congruence.
Qed.

Lemma mongo_ban_holds_witness :
  let db1 := store (snd (MongoBot.ban ex_cfg ex_env root (Some 42)
                           (fresh (ex_mdb true false) 0))) in
  let db2 := fst (MongoTrace.run ex_cfg ex_mongo_trace (db1, 0%nat)) in
  is_banned db2 42 = true
  /\ ~ delivered (calls (snd (MongoBot.start ex_cfg ex_env ada "/start k9z8y7x6"
                                (fresh db2 0)))).
Proof.
  apply (mongo_ban_holds_until_an_admin_acts ex_cfg ex_env ex_env root ada
           "/start k9z8y7x6" (ex_mdb true false) 0 0 ex_mongo_trace).
  - reflexivity.
  - discriminate.
  - repeat constructor.
Defined.

(** X17: in the MongoDB bot [/unban] undoes [/ban] but, unlike it, never
    creates a user: [/ban] of an id without a document inserts one
    (upsert) that is banned from the start, [/unban] of such an id leaves
    the collection as it is, and for a user who has a document and was
    not banned, [/ban] followed by [/unban] restores the users collection
    exactly (lines 1010-1042). *)
Theorem mongo_unban_undoes_ban (cfg : Config) (env : Env) (admin : From)
    (uid : Z) (db : MongoBot.Db) (n : nat) :
  MongoBot.isAdmin cfg (from_id admin) = true ->
  uid <> 0 ->
  let db1 := store (snd (MongoBot.ban cfg env admin (Some uid) (fresh db n))) in
  let db2 := fst (MongoAdmin.unban cfg admin (Some uid) db1) in
  is_banned db1 uid = true
  /\ is_banned db2 uid = false
  /\ (MongoBot.users db !! uid = None ->
      MongoAdmin.unban cfg admin (Some uid) db = (db, MongoAdmin.Unbanned uid)
      /\ exists u, MongoBot.users db1 !! uid = Some u)
  /\ (forall u, MongoBot.users db !! uid = Some u -> MongoBot.isBanned u = false ->
      db2 = db).
Proof.
  intros Hadmin Hne. cbv zeta.
  rewrite MongoBot_ban_store, Hadmin. cbn [fresh store].
  destruct (uid =? 0)%Z eqn:E0; [apply Z.eqb_eq in E0; contradiction|].
  unfold MongoAdmin.unban. rewrite Hadmin, E0. cbn [negb fst].
  unfold is_banned. cbn [MongoBot.set_users MongoBot.users].
  rewrite upsert_lookup, decide_True by reflexivity.
  rewrite lookup_insert_eq.
  split; [destruct (MongoBot.users db !! uid) as [[? ? ? ? ? ? ? ? ? ?]|]; reflexivity|].
  split; [destruct (MongoBot.users db !! uid) as [[? ? ? ? ? ? ? ? ? ?]|]; reflexivity|].
  split.
  - intros Hnone. split.
    + unfold MongoBot.set_users. rewrite Hnone. destruct db; reflexivity.
    + eexists. reflexivity.
  - intros u Hu Hnb. unfold MongoBot.set_users, MongoBot.upsert_user.
    cbn [MongoBot.users MongoBot.files MongoBot.settings MongoBot.channels].
    rewrite Hu, lookup_insert_eq, insert_insert_eq.
    destruct u as [? ? ? ? b ? ? ? ? ?]. cbn in Hnb. subst b.
    cbn [MongoBot.apply_update fold_left MongoBot.set_path String.eqb Ascii.eqb
           Bool.eqb MongoBot.userId MongoBot.firstName MongoBot.username
           MongoBot.isVerified MongoBot.isBanned MongoBot.verifiedAt
           MongoBot.lastActive MongoBot.filesShared MongoBot.filesAccessed
           MongoBot.joinedAt].
    rewrite insert_id by exact Hu. destruct db; reflexivity.
Qed.

Lemma mongo_unban_undoes_ban_witness :
  let db1 := store (snd (MongoBot.ban ex_cfg ex_env root (Some 42)
                           (fresh (ex_mdb true false) 0))) in
  let db2 := fst (MongoAdmin.unban ex_cfg root (Some 42) db1) in
  is_banned db1 42 = true
  /\ is_banned db2 42 = false
  /\ (MongoBot.users (ex_mdb true false) !! 42 = None ->
      MongoAdmin.unban ex_cfg root (Some 42) (ex_mdb true false)
        = (ex_mdb true false, MongoAdmin.Unbanned 42)
      /\ exists u, MongoBot.users db1 !! 42 = Some u)
  /\ (forall u, MongoBot.users (ex_mdb true false) !! 42 = Some u ->
      MongoBot.isBanned u = false -> db2 = ex_mdb true false).
Proof.
  apply (mongo_unban_undoes_ban ex_cfg ex_env root 42 (ex_mdb true false) 0).
  - reflexivity.
  - discriminate.
Defined.

(** ** Admin commands of [src/index.js] *)

Lemma second_word (cmd arg : string) (more : list string) :
  space_free cmd = true -> space_free arg = true ->
  Forall (fun w => space_free w = true) more ->
  JS.split_space (join_space (cmd :: arg :: more)) = cmd :: arg :: more.
Proof.
  intros Hc Ha Hm. apply split_join_space; [discriminate|].
  constructor; [exact Hc|]. constructor; [exact Ha|exact Hm].
Qed.

Lemma filter_all {A : Type} (p : A -> bool) (l : list A) :
  Forall (fun x => p x = true) l -> List.filter p l = l.
Proof.
  induction 1 as [|x l Hx _ IH]; simpl; [reflexivity|].
  rewrite Hx, IH. reflexivity.
Qed.

Lemma length_filter_lt {A : Type} (p : A -> bool) (l : list A) :
  (length (List.filter p l) <? length l)%nat = true <->
  exists x, x ∈ l /\ p x = false.
Proof.
  rewrite Nat.ltb_lt. induction l as [|a l IH]; simpl.
  - split; [lia|]. intros (x & Hx & _). apply not_elem_of_nil in Hx. contradiction.
  - pose proof (List.filter_length_le p l) as Hle.
    destruct (p a) eqn:Ha; simpl.
    + rewrite <- Nat.succ_lt_mono, IH. split.
      * intros (x & Hx & Hp). exists x. split; [right; exact Hx|exact Hp].
      * intros (x & Hx & Hp). apply elem_of_cons in Hx as [->|Hx]; [congruence|].
        exists x. auto.
    + split; [|lia]. intros _. exists a. split; [left|exact Ha].
Qed.

(** X18: in [src/index.js] adding a channel and removing it again is a
    round trip: when an admin adds [@name], which Telegram resolves to an
    id not yet listed, the channel is appended to [db.channels] with that
    id and title; if no listed channel had that user name before, the
    following [/removechannel @name] answers that the channel was removed
    and the database is exactly what it was (lines 450-525). *)
Theorem json_addchannel_then_removechannel (cfg : Config)
    (getChat : string -> option (string * string)) (admin : From)
    (name id title : string) (db : JsonBot.Db) :
  JsonAdmin.isAdmin cfg (from_id admin) = true ->
  space_free name = true ->
  JsonAdmin.startsWith_at name = true ->
  getChat name = Some (id, title) ->
  Forall (fun ch => channelId ch <> id) (JsonBot.channels db) ->
  Forall (fun ch => ch_username ch <> name) (JsonBot.channels db) ->
  let added := JsonAdmin.addchannel cfg getChat admin ("/addchannel " +:+ name) db in
  let removed :=
    JsonAdmin.removechannel cfg admin ("/removechannel " +:+ name) (fst added) in
  snd added = JsonAdmin.ChannelAdded name title
  /\ JsonBot.channels (fst added)
     = JsonBot.channels db ++ [mkChannel id name title]
  /\ removed = (db, JsonAdmin.ChannelRemoved name).
Proof.
  intros Hadmin Hsf Hat Hchat Hids Hnames. cbv zeta.
  assert (JS.truthy_str name = true) as Htruthy
    by (destruct name; [discriminate|reflexivity]).
  assert (List.find (fun ch => String.eqb (channelId ch) id) (JsonBot.channels db)
          = None) as Hfind.
  { clear Hnames. induction Hids as [|ch chs Hch _ IH]; [reflexivity|].
    cbn [List.find]. apply String.eqb_neq in Hch. rewrite Hch. exact IH. }
  assert (JsonAdmin.addchannel cfg getChat admin ("/addchannel " +:+ name) db
          = (JsonAdmin.set_channels (fun chs => chs ++ [mkChannel id name title]) db,
             JsonAdmin.ChannelAdded name title)) as Eadd.
  { unfold JsonAdmin.addchannel. rewrite Hadmin. cbn [negb].
    change ("/addchannel " +:+ name) with (join_space ["/addchannel"; name]).
    rewrite second_word by (try reflexivity; try assumption; constructor).
    cbn [lookup list_lookup]. rewrite Htruthy, Hat. cbn [negb orb].
    rewrite Hchat, Hfind. reflexivity. }
  rewrite Eadd. cbn [fst snd].
  split; [reflexivity|]. split; [reflexivity|].
  unfold JsonAdmin.removechannel. rewrite Hadmin. cbn [negb].
  change ("/removechannel " +:+ name) with (join_space ["/removechannel"; name]).
  rewrite second_word by (try reflexivity; try assumption; constructor).
  cbn [lookup list_lookup]. rewrite Htruthy. cbn [negb].
  assert (List.filter (fun ch => negb (String.eqb (ch_username ch) name))
            (JsonBot.channels db ++ [mkChannel id name title])
          = JsonBot.channels db) as Hfilter.
  { rewrite List.filter_app. cbn [List.filter ch_username].
    rewrite String.eqb_refl. cbn [negb]. rewrite app_nil_r.
    apply filter_all.
    eapply Forall_impl; [exact Hnames|]. intros ch Hch. cbn beta.
    apply negb_true_iff, String.eqb_neq, Hch. }
  unfold JsonAdmin.set_channels.
  cbn [JsonBot.channels JsonBot.users JsonBot.files JsonBot.settings].
  rewrite Hfilter, length_app. cbn [length].
  replace (length (JsonBot.channels db) <? length (JsonBot.channels db) + 1)%nat
    with true by (symmetry; apply Nat.ltb_lt; lia).
  destruct db; reflexivity.
Qed.

Lemma json_addchannel_then_removechannel_witness :
  let added := JsonAdmin.addchannel ex_cfg ex_getChat root "/addchannel @news" ex_jdb in
  let removed := JsonAdmin.removechannel ex_cfg root "/removechannel @news" (fst added) in
  snd added = JsonAdmin.ChannelAdded "@news" "News"
  /\ JsonBot.channels (fst added)
     = JsonBot.channels ex_jdb ++ [mkChannel "-1005678" "@news" "News"]
  /\ removed = (ex_jdb, JsonAdmin.ChannelRemoved "@news").
Proof.
  apply (json_addchannel_then_removechannel ex_cfg ex_getChat root "@news"
           "-1005678" "News" ex_jdb); try reflexivity.
  - repeat constructor. discriminate.
  - repeat constructor. discriminate.
Defined.

(** X19: in [src/index.js] [/removechannel <name>] by an admin removes
    every listed channel with that user name and no other; it answers
    "removed" exactly when some channel had the name, and otherwise
    answers "not found in the list" and leaves the database as it is
    (lines 502-525). *)
Theorem json_removechannel_removes_all_named (cfg : Config) (admin : From)
    (text name : string) (db : JsonBot.Db) :
  JsonAdmin.isAdmin cfg (from_id admin) = true ->
  JS.split_space text !! 1%nat = Some name ->
  JS.truthy_str name = true ->
  let r := JsonAdmin.removechannel cfg admin text db in
  (forall ch, ch ∈ JsonBot.channels (fst r) <->
              ch ∈ JsonBot.channels db /\ ch_username ch <> name)
  /\ (snd r = JsonAdmin.ChannelRemoved name <->
      exists ch, ch ∈ JsonBot.channels db /\ ch_username ch = name)
  /\ (snd r = JsonAdmin.ChannelNotListed name \/ snd r = JsonAdmin.ChannelRemoved name)
  /\ (snd r = JsonAdmin.ChannelNotListed name -> fst r = db).
Proof.
  intros Hadmin Harg Htruthy. cbv zeta.
  unfold JsonAdmin.removechannel. rewrite Hadmin, Harg, Htruthy. cbn [negb fst snd].
  cbn [JsonAdmin.set_channels JsonBot.channels].
  set (keep := fun ch => negb (String.eqb (ch_username ch) name)).
  pose proof (length_filter_lt keep (JsonBot.channels db)) as Hlt.
  split.
  { intros ch. rewrite !list_elem_of_In, filter_In. unfold keep.
    rewrite negb_true_iff, String.eqb_neq. reflexivity. }
  destruct (length (List.filter keep (JsonBot.channels db))
              <? length (JsonBot.channels db))%nat eqn:E.
  - split.
    + split; [intros _|reflexivity].
      destruct (proj1 Hlt eq_refl) as (ch & Hch & Hk).
      exists ch. split; [exact Hch|]. unfold keep in Hk.
      apply negb_false_iff, String.eqb_eq in Hk. exact Hk.
    + split; [right; reflexivity|discriminate].
  - assert (Forall (fun ch => keep ch = true) (JsonBot.channels db)) as Hall.
    { apply Forall_forall. intros ch Hch.
      destruct (keep ch) eqn:Hk; [reflexivity|].
      assert (false = true) as Habs; [|discriminate Habs].
      apply (proj2 Hlt). exists ch. split; [exact Hch|exact Hk]. }
    split.
    + split; [discriminate|]. intros (ch & Hch & Hn).
      rewrite Forall_forall in Hall.
      specialize (Hall ch Hch). unfold keep in Hall.
      apply negb_true_iff, String.eqb_neq in Hall. contradiction.
    + split; [left; reflexivity|]. intros _.
      unfold JsonAdmin.set_channels.
      rewrite (filter_all keep _ Hall). destruct db; reflexivity.
Qed.

Lemma json_removechannel_witness :
  let r := JsonAdmin.removechannel ex_cfg root "/removechannel @updates" ex_jdb in
  (forall ch, ch ∈ JsonBot.channels (fst r) <->
              ch ∈ JsonBot.channels ex_jdb /\ ch_username ch <> "@updates")
  /\ (snd r = JsonAdmin.ChannelRemoved "@updates" <->
      exists ch, ch ∈ JsonBot.channels ex_jdb /\ ch_username ch = "@updates")
  /\ (snd r = JsonAdmin.ChannelNotListed "@updates"
      \/ snd r = JsonAdmin.ChannelRemoved "@updates")
  /\ (snd r = JsonAdmin.ChannelNotListed "@updates" -> fst r = ex_jdb).
Proof.
  apply (json_removechannel_removes_all_named ex_cfg root "/removechannel @updates"
           "@updates" ex_jdb); reflexivity.
Defined.

Lemma missing_app (env : Env) (uid : Z) (a b : list Channel) :
  missing env uid (a ++ b) = missing env uid a ++ missing env uid b.
Proof. apply List.filter_app. Qed.

Lemma queries_app (uid : Z) (a b : list Channel) :
  queries uid (a ++ b) = queries uid a ++ queries uid b.
Proof. apply map_app. Qed.

(** X20: in [src/index.js] a channel added with [/addchannel] gates every
    later redemption: after an admin has added a channel, a requester
    whose membership query for it answers with a status other than
    member, administrator or creator is not sent the file they ask for,
    verified or not; the answer to [/start <code>] for a stored code is
    the join prompt, which lists the new channel last (lines 450-499 with
    84-116 and 129-225). *)
Theorem json_added_channel_gates_delivery (cfg : Config) (env : Env)
    (getChat : string -> option (string * string)) (admin from : From)
    (name id title status text args : string) (db : JsonBot.Db) (n : nat)
    (f : JsonBot.File) :
  JsonAdmin.isAdmin cfg (from_id admin) = true ->
  space_free name = true ->
  JsonAdmin.startsWith_at name = true ->
  getChat name = Some (id, title) ->
  Forall (fun ch => channelId ch <> id) (JsonBot.channels db) ->
  getChatMember env id (from_id from) = Some status ->
  satisfying status = false ->
  JsonBot.start_arg text = Some args ->
  JS.truthy_str args = true ->
  JsonBot.files db !! args = Some f ->
  let new := mkChannel id name title in
  let db1 := fst (JsonAdmin.addchannel cfg getChat admin ("/addchannel " +:+ name) db) in
  calls (snd (JsonBot.start cfg env from text (fresh db1 n)))
  = queries (from_id from) (JsonBot.channels db ++ [new])
      ++ [Reply (MsgJoinChannels
                   (missing env (from_id from) (JsonBot.channels db) ++ [new]))].
Proof.
  intros Hadmin Hsf Hat Hchat Hids Hmember Hstatus Harg Htruthy Hf. cbv zeta.
  assert (JS.truthy_str name = true) as Hname
    by (destruct name; [discriminate|reflexivity]).
  assert (List.find (fun ch => String.eqb (channelId ch) id) (JsonBot.channels db)
          = None) as Hfind.
  { induction Hids as [|ch chs Hch _ IH]; [reflexivity|].
    cbn [List.find]. apply String.eqb_neq in Hch. rewrite Hch. exact IH. }
  assert (JsonAdmin.addchannel cfg getChat admin ("/addchannel " +:+ name) db
          = (JsonAdmin.set_channels (fun chs => chs ++ [mkChannel id name title]) db,
             JsonAdmin.ChannelAdded name title)) as Eadd.
  { unfold JsonAdmin.addchannel. rewrite Hadmin. cbn [negb].
    change ("/addchannel " +:+ name) with (join_space ["/addchannel"; name]).
    rewrite second_word by (try reflexivity; try assumption; constructor).
    cbn [lookup list_lookup]. rewrite Hname, Hat. cbn [negb orb].
    rewrite Hchat, Hfind. reflexivity. }
  rewrite Eadd. cbn [fst].
  rewrite JsonBot_start_calls. unfold json_start_calls.
  rewrite Harg, Htruthy. unfold JS.obj_get.
  cbn [JsonAdmin.set_channels JsonBot.files]. rewrite Hf.
  unfold json_gates_calls. cbv zeta.
  cbn [JsonAdmin.set_channels JsonBot.channels].
  rewrite missing_app.
  assert (missing env (from_id from) [mkChannel id name title]
          = [mkChannel id name title]) as Hnew.
  { unfold missing, not_joined. cbn [List.filter channelId].
    rewrite Hmember, Hstatus. reflexivity. }
  rewrite Hnew.
  destruct (missing env (from_id from) (JsonBot.channels db)); reflexivity.
Qed.

Lemma json_added_channel_witness :
  calls (snd (JsonBot.start ex_cfg env_left_prompt_fails ada "/start a1b2c3d4"
                (fresh (fst (JsonAdmin.addchannel ex_cfg ex_getChat root
                               "/addchannel @news" ex_jdb)) 0)))
  = queries 42 (JsonBot.channels ex_jdb ++ [mkChannel "-1005678" "@news" "News"])
      ++ [Reply (MsgJoinChannels
                   (missing env_left_prompt_fails 42 (JsonBot.channels ex_jdb)
                      ++ [mkChannel "-1005678" "@news" "News"]))].
Proof.
  apply (json_added_channel_gates_delivery ex_cfg env_left_prompt_fails ex_getChat
           root ada "@news" "-1005678" "News" "left" "/start a1b2c3d4" "a1b2c3d4"
           ex_jdb 0 ex_json_file); try reflexivity.
  repeat constructor. discriminate.
Defined.

(** X21: in [src/index.js] [/setadlink <domain> <key>] by an admin stores
    the second and third word of the message, and from then on
    [createShortLink] asks that shortener: its one request goes to
    [<domain>/api?api=<key>&url=<encoded link>].  Words after the key are
    ignored; with an empty second or third word (two spaces in a row, or
    a trailing space) the command still answers that the configuration
    was updated, and [createShortLink] makes no request and returns the
    link itself (lines 351-377 with 55-81). *)
Theorem json_setadlink_configures_shortener (cfg : Config) (env : Env)
    (admin : From) (domain key url : string) (more : list string)
    (db : JsonBot.Db) (n : nat) :
  JsonAdmin.isAdmin cfg (from_id admin) = true ->
  space_free domain = true ->
  space_free key = true ->
  Forall (fun w => space_free w = true) more ->
  let r := JsonAdmin.setadlink cfg admin
             (join_space ("/setadlink" :: domain :: key :: more)) db in
  let link := issued env (Some domain) (Some key) url in
  snd r = JsonAdmin.AdlinkUpdated domain (String.substring 0 10 key)
  /\ JsonBot.createShortLink env url (fresh (fst r) n)
     = (Done (fst link), mkWorld (fst r) (snd link) n)
  /\ (JS.truthy_str domain && JS.truthy_str key = true ->
      link = (shortener_answer env (api_url domain key url) url,
              [AxiosGet (api_url domain key url)]))
  /\ (JS.truthy_str domain && JS.truthy_str key = false ->
      link = (JS.Of (JS.JStr url), [])).
Proof.
  intros Hadmin Hd Hk Hm. cbv zeta.
  unfold JsonAdmin.setadlink. rewrite Hadmin. cbn [negb].
  rewrite split_join_space.
  2: discriminate.
  2:{ repeat (constructor; [reflexivity || assumption|]). exact Hm. }
  cbn [drop fst snd].
  split; [reflexivity|]. split.
  - rewrite JsonBot_createShortLink_issued. reflexivity.
  - unfold issued. cbn [JS.truthy_opt default from_option]. unfold id.
    split; intros ->; reflexivity.
Qed.

Lemma json_setadlink_witness :
  let r := JsonAdmin.setadlink ex_cfg root "/setadlink https://go.example K9 extra"
             ex_jdb in
  let link := issued ex_env (Some "https://go.example") (Some "K9") "https://t.me/x" in
  snd r = JsonAdmin.AdlinkUpdated "https://go.example" "K9"
  /\ JsonBot.createShortLink ex_env "https://t.me/x" (fresh (fst r) 0)
     = (Done (fst link), mkWorld (fst r) (snd link) 0)
  /\ (JS.truthy_str "https://go.example" && JS.truthy_str "K9" = true ->
      link = (shortener_answer ex_env
                (api_url "https://go.example" "K9" "https://t.me/x") "https://t.me/x",
              [AxiosGet (api_url "https://go.example" "K9" "https://t.me/x")]))
  /\ (JS.truthy_str "https://go.example" && JS.truthy_str "K9" = false ->
      link = (JS.Of (JS.JStr "https://t.me/x"), [])).
Proof.
  apply (json_setadlink_configures_shortener ex_cfg ex_env root "https://go.example"
           "K9" "https://t.me/x" ["extra"] ex_jdb 0); try reflexivity.
  repeat constructor.
Defined.

(** X22: in [src/index.js] the [/protect] and [/autodelete] settings
    govern the next delivery: after an admin has sent [/protect on] or
    [/protect off] and [/autodelete <s>], a successful delivery sends the
    file with that protection, and sets a deletion timer of [s * 1000]
    milliseconds for the sent message exactly when [s] is positive; for
    [s] zero or negative no timer is set, although for a negative [s] the
    command answers that auto-delete was set (lines 422-447 and 548-572
    with 119-126 and 179-220). *)
Theorem json_protect_and_autodelete_govern_delivery (cfg : Config) (env : Env)
    (admin from : From) (on : bool) (s mid : Z) (text args : string)
    (db : JsonBot.Db) (n : nat) (f : JsonBot.File) (u : JsonBot.User) :
  JsonAdmin.isAdmin cfg (from_id admin) = true ->
  JsonBot.start_arg text = Some args ->
  JS.truthy_str args = true ->
  JsonBot.files db !! args = Some f ->
  JsonBot.users db !! from_id from = Some u ->
  JsonBot.verified u = true ->
  Forall (lets_through env (from_id from)) (JsonBot.channels db) ->
  sendFile env (JsonBot.fileType f) (JsonBot.fileId f) = Some mid ->
  let p := JsonAdmin.protect cfg admin (if on then "/protect on" else "/protect off") db in
  let a := JsonAdmin.autodelete cfg admin (Some s) (fst p) in
  snd p = (if on then JsonAdmin.ProtectEnabled else JsonAdmin.ProtectDisabled)
  /\ snd a = (if (s =? 0)%Z then JsonAdmin.AutoDeleteDisabled
              else JsonAdmin.AutoDeleteSet s)
  /\ calls (snd (JsonBot.start cfg env from text (fresh (fst a) n)))
     = queries (from_id from) (JsonBot.channels db)
         ++ [SendFile (JsonBot.fileType f) (JsonBot.fileId f) (JsonBot.caption f) on]
         ++ (if (0 <? s)%Z then [SetTimeout mid (s * 1000)] else [])
         ++ [LogSend (LogDownloaded (from_id from) args)].
Proof.
  intros Hadmin Harg Htruthy Hf Hu Hv Hsub Hsend. cbv zeta.
  assert (JsonAdmin.protect cfg admin (if on then "/protect on" else "/protect off") db
          = (JsonAdmin.set_settings (JsonAdmin.set_protect_content on) db,
             if on then JsonAdmin.ProtectEnabled else JsonAdmin.ProtectDisabled)) as Ep.
  { unfold JsonAdmin.protect. rewrite Hadmin. destruct on; reflexivity. }
  rewrite Ep. cbn [fst snd].
  unfold JsonAdmin.autodelete. rewrite Hadmin. cbn [negb fst snd].
  split; [reflexivity|]. split; [reflexivity|].
  rewrite (JsonBot_deliver_start_run cfg env from text args _ n f u Harg Htruthy);
    try assumption.
  cbn [calls JsonAdmin.set_settings JsonBot.settings JsonBot.channels
         JsonAdmin.set_auto_delete JsonAdmin.set_protect_content
         JsonBot.auto_delete JsonBot.protect_content].
  rewrite Hsend. reflexivity.
Qed.

Lemma json_protect_and_autodelete_witness :
  let p := JsonAdmin.protect ex_cfg root "/protect on" ex_jdb in
  let a := JsonAdmin.autodelete ex_cfg root (Some (-5)) (fst p) in
  snd p = JsonAdmin.ProtectEnabled
  /\ snd a = JsonAdmin.AutoDeleteSet (-5)
  /\ calls (snd (JsonBot.start ex_cfg ex_env ada "/start a1b2c3d4" (fresh (fst a) 0)))
     = queries 42 (JsonBot.channels ex_jdb)
         ++ [SendFile Document "BQACAgQAAx0" (Some "report.pdf") true]
         ++ []
         ++ [LogSend (LogDownloaded 42 "a1b2c3d4")].
Proof.
  apply (json_protect_and_autodelete_govern_delivery ex_cfg ex_env root ada true (-5)
           900 "/start a1b2c3d4" "a1b2c3d4" ex_jdb 0 ex_json_file
           (JsonBot.mkUser true (Some 1695000000) (Some "Ada") (Some "ada")));
    try reflexivity.
  repeat constructor.
Defined.

(** ** Broadcast, MongoDB bot *)

Lemma broadcast_loop_tally (send_ok : Z -> bool) (users : list MongoBot.User) :
  forall t : MongoAdmin.Tally,
    let t' := MongoAdmin.broadcast_loop send_ok users t in
    (MongoAdmin.success t' + MongoAdmin.failed t'
     = MongoAdmin.success t + MongoAdmin.failed t + length users)%nat
    /\ MongoAdmin.success t'
       = (MongoAdmin.success t
          + length (List.filter (fun u => send_ok (MongoBot.userId u)) users))%nat
    /\ MongoAdmin.tried t' = MongoAdmin.tried t ++ map MongoBot.userId users
    /\ (length (MongoAdmin.progress t) = (MongoAdmin.success t / 10)%nat ->
        length (MongoAdmin.progress t') = (MongoAdmin.success t' / 10)%nat).
Proof.
  induction users as [|user rest IH]; intros t; cbv zeta.
  - cbn [MongoAdmin.broadcast_loop length map List.filter].
    rewrite app_nil_r. repeat split; auto; lia.
  - cbn [MongoAdmin.broadcast_loop List.filter].
    destruct (send_ok (MongoBot.userId user)) eqn:Hok.
    + match goal with
      | |- context [MongoAdmin.broadcast_loop send_ok rest ?t1] =>
          specialize (IH t1); cbv zeta in IH
      end.
      cbn [MongoAdmin.success MongoAdmin.failed MongoAdmin.tried
             MongoAdmin.progress] in IH.
      destruct IH as (H1 & H2 & H3 & H4).
      split; [rewrite H1; cbn [length]; lia|].
      split; [rewrite H2; cbn [length]; lia|].
      split; [rewrite H3, <- app_assoc; reflexivity|].
      intros Hlen. apply H4.
      destruct (Datatypes.S (MongoAdmin.success t) mod 10 =? 0)%nat eqn:Hmod.
      * apply Nat.eqb_eq in Hmod.
        rewrite length_app, Hlen. cbn [length].
        pose proof (Nat.div_mod_eq (Datatypes.S (MongoAdmin.success t)) 10) as D1.
        pose proof (Nat.div_mod_eq (MongoAdmin.success t) 10) as D2.
        pose proof (Nat.mod_upper_bound (MongoAdmin.success t) 10 ltac:(lia)) as B2.
        lia.
      * apply Nat.eqb_neq in Hmod. rewrite Hlen.
        pose proof (Nat.div_mod_eq (Datatypes.S (MongoAdmin.success t)) 10) as D1.
        pose proof (Nat.div_mod_eq (MongoAdmin.success t) 10) as D2.
        pose proof (Nat.mod_upper_bound (MongoAdmin.success t) 10 ltac:(lia)) as B2.
        pose proof (Nat.mod_upper_bound (Datatypes.S (MongoAdmin.success t)) 10
                      ltac:(lia)) as B1.
        lia.
    + match goal with
      | |- context [MongoAdmin.broadcast_loop send_ok rest ?t1] =>
          specialize (IH t1); cbv zeta in IH
      end.
      cbn [MongoAdmin.success MongoAdmin.failed MongoAdmin.tried
             MongoAdmin.progress] in IH.
      destruct IH as (H1 & H2 & H3 & H4).
      split; [rewrite H1; cbn [length]; lia|].
      split; [exact H2|].
      split; [rewrite H3, <- app_assoc; reflexivity|].
      exact H4.
Qed.

(** X23: in the MongoDB bot [/broadcast] by the owner tries every user
    that is not banned exactly once and no banned user at all; a failed
    send is counted and does not stop the loop, so that in the end the
    sent and failed counters add up to the number of users that are not
    banned, the sent counter is the number of users the message reached,
    and the progress message was edited once for every ten messages sent
    (lines 962-1007). *)
Theorem mongo_broadcast_tally (cfg : Config) (send_ok : Z -> bool)
    (owner : From) (msg : string) (db : MongoBot.Db) :
  MongoBot.isOwner cfg (from_id owner) = true ->
  msg <> "/broadcast" ->
  keyed db ->
  exists t,
    MongoAdmin.broadcast cfg send_ok true owner msg db = Some t
    /\ (MongoAdmin.success t + MongoAdmin.failed t
        = length (MongoAdmin.find_not_banned db))%nat
    /\ MongoAdmin.tried t = map MongoBot.userId (MongoAdmin.find_not_banned db)
    /\ NoDup (MongoAdmin.tried t)
    /\ (forall uid, uid ∈ MongoAdmin.tried t <-> is_banned db uid = false
                                                 /\ uid ∈ dom (MongoBot.users db))
    /\ MongoAdmin.success t
       = length (List.filter send_ok (MongoAdmin.tried t))
    /\ length (MongoAdmin.progress t) = (MongoAdmin.success t / 10)%nat.
Proof.
  intros Howner Hmsg Hkeyed.
  unfold MongoAdmin.broadcast. rewrite Howner. cbn [negb].
  apply String.eqb_neq in Hmsg. rewrite Hmsg. cbn [negb].
  eexists. split; [reflexivity|].
  destruct (broadcast_loop_tally send_ok (MongoAdmin.find_not_banned db)
              (MongoAdmin.mkTally 0 0 [] [])) as (H1 & H2 & H3 & H4).
  cbn [MongoAdmin.success MongoAdmin.failed MongoAdmin.tried MongoAdmin.progress
         app Nat.add] in H1, H2, H3, H4.
  assert (Hmem : forall uid,
    uid ∈ map MongoBot.userId (MongoAdmin.find_not_banned db) <->
    is_banned db uid = false /\ uid ∈ dom (MongoBot.users db)).
  { intros uid. unfold MongoAdmin.find_not_banned, is_banned.
    rewrite list_elem_of_In, in_map_iff. split.
    - intros (u & <- & Hin). apply filter_In in Hin as [Hin Hnb].
      apply list_elem_of_In in Hin.
      apply list_elem_of_fmap in Hin as ([k u'] & -> & Hku).
      apply elem_of_map_to_list in Hku. cbn [snd] in *.
      rewrite (Hkeyed k u' Hku). rewrite Hku. cbn.
      split; [apply negb_true_iff, Hnb|]. apply elem_of_dom. eauto.
    - intros [Hnb Hdom]. apply elem_of_dom in Hdom as [u Hu].
      rewrite Hu in Hnb. cbn in Hnb.
      exists u. split; [apply Hkeyed, Hu|].
      apply filter_In. split; [|rewrite Hnb; reflexivity].
      apply list_elem_of_In. apply list_elem_of_fmap. exists (uid, u).
      split; [reflexivity|]. apply elem_of_map_to_list, Hu. }
  split; [exact H1|]. split; [exact H3|].
  split.
  { rewrite H3. unfold MongoAdmin.find_not_banned.
    apply (NoDup_fmap_2_strong MongoBot.userId).
    - intros u1 u2 Hu1 Hu2 E.
      apply list_elem_of_In, filter_In in Hu1 as [Hu1 _].
      apply list_elem_of_In, filter_In in Hu2 as [Hu2 _].
      apply list_elem_of_In, list_elem_of_fmap in Hu1 as ([k1 v1] & -> & Hk1).
      apply list_elem_of_In, list_elem_of_fmap in Hu2 as ([k2 v2] & -> & Hk2).
      apply elem_of_map_to_list in Hk1, Hk2. cbn [snd] in *.
      rewrite (Hkeyed k1 v1 Hk1), (Hkeyed k2 v2 Hk2) in E. subst k2.
      congruence.
    - apply NoDup_ListNoDup, List.NoDup_filter, NoDup_ListNoDup.
      apply NoDup_fmap_2_strong; [|apply NoDup_map_to_list].
      intros [k1 v1] [k2 v2] Hk1 Hk2 E. cbn in E. subst v2.
      apply elem_of_map_to_list in Hk1, Hk2.
      rewrite <- (Hkeyed k1 v1 Hk1), <- (Hkeyed k2 v1 Hk2). reflexivity. }
  split; [intros uid; rewrite H3; apply Hmem|].
  split.
  { rewrite H2, H3. clear. induction (MongoAdmin.find_not_banned db) as [|u l IH];
      [reflexivity|].
    cbn [map List.filter]. destruct (send_ok (MongoBot.userId u)); cbn [length]; lia. }
  apply H4. reflexivity.
Qed.

Lemma mongo_broadcast_tally_witness :
  exists t,
    MongoAdmin.broadcast ex_cfg (fun uid => negb (uid =? 42)%Z) true root "hello"
      (ex_mdb true false) = Some t
    /\ (MongoAdmin.success t + MongoAdmin.failed t
        = length (MongoAdmin.find_not_banned (ex_mdb true false)))%nat
    /\ MongoAdmin.tried t
       = map MongoBot.userId (MongoAdmin.find_not_banned (ex_mdb true false))
    /\ NoDup (MongoAdmin.tried t)
    /\ (forall uid, uid ∈ MongoAdmin.tried t <->
                    is_banned (ex_mdb true false) uid = false
                    /\ uid ∈ dom (MongoBot.users (ex_mdb true false)))
    /\ MongoAdmin.success t
       = length (List.filter (fun uid => negb (uid =? 42)%Z) (MongoAdmin.tried t))
    /\ length (MongoAdmin.progress t) = (MongoAdmin.success t / 10)%nat.
Proof.
  apply (mongo_broadcast_tally ex_cfg (fun uid => negb (uid =? 42)%Z) root "hello"
           (ex_mdb true false)).
  - reflexivity.
  - discriminate.
  - intros uid u Hu. unfold ex_mdb in Hu. cbn [MongoBot.users] in Hu.
    apply lookup_singleton_Some in Hu as [<- <-]. reflexivity.
Defined.

(** ** The log channel *)

Lemma fresh_code_with_log_ok (b : bool) (env : Env) (fuel : nat) :
  forall w : World MongoBot.Db,
    MongoBot.fresh_code (with_log_ok b env) fuel w = MongoBot.fresh_code env fuel w.
Proof.
  induction fuel as [|fuel IH]; intros w; [reflexivity|].
  cbn [MongoBot.fresh_code]. unfold bind, generateCode, get_store.
  cbn [with_log_ok random store calls drawn].
  destruct (MongoBot.findOne _ _); [apply IH|reflexivity].
Qed.

Lemma replies_upload_log (env : Env) (from : From) (up : Upload) (code : string)
    (rest : list Call) :
  List.filter (fun c => match c with Reply _ => true | _ => false end)
    (upload_log env from up code ++ rest)
  = List.filter (fun c => match c with Reply _ => true | _ => false end) rest.
Proof.
  unfold upload_log. destruct (log_ok env); reflexivity.
Qed.

(** X24: in both bots the log channel cannot fail an upload: whether the
    forward to the log channel and the log message succeed or not, the
    upload handler returns the same result, sends the uploader the same
    replies and leaves the same database (the log block has its own
    [try] whose [catch] only writes to the console, index.js lines
    317-337, MongoDB bot lines 886-908). *)
Theorem upload_does_not_depend_on_log_channel (cfg : Config) (env : Env)
    (b : bool) (from : From) (up : Upload) (jdb : JsonBot.Db)
    (mdb : MongoBot.Db) (n fuel : nat) :
  let jr := JsonBot.upload cfg env from up (fresh jdb n) in
  let jr' := JsonBot.upload cfg (with_log_ok b env) from up (fresh jdb n) in
  let mr := MongoBot.upload cfg env fuel from up (fresh mdb n) in
  let mr' := MongoBot.upload cfg (with_log_ok b env) fuel from up (fresh mdb n) in
  let replies := List.filter (fun c => match c with Reply _ => true | _ => false end) in
  (fst jr' = fst jr /\ store (snd jr') = store (snd jr)
   /\ replies (calls (snd jr')) = replies (calls (snd jr)))
  /\ (fst mr' = fst mr /\ store (snd mr') = store (snd mr)
      /\ replies (calls (snd mr')) = replies (calls (snd mr))).
Proof.
  cbv zeta. split.
  - destruct (JsonBot.describe up) as [[[fid ftype] cap]|] eqn:Hd.
    + rewrite (JsonBot_upload_run cfg env from up jdb n fid ftype cap Hd).
      rewrite (JsonBot_upload_run cfg (with_log_ok b env) from up jdb n fid ftype cap Hd).
      cbn [fst snd store calls with_log_ok random reply_ok now].
      rewrite !replies_upload_log. repeat split.
    + unfold JsonBot.upload. rewrite Hd. repeat split.
  - destruct (MongoBot.describe up) as [[[[fid ftype] fname] fsize]|] eqn:Hd.
    2:{ unfold MongoBot.upload. rewrite Hd. repeat split. }
    pose proof (fresh_code_with_log_ok b env fuel (fresh mdb n)) as Efc.
    destruct (MongoBot_fresh_code_sound env fuel (fresh mdb n))
      as [(k & Hk & Hfree & E)|E].
    + rewrite E in Efc.
      rewrite (MongoBot_upload_with_code cfg env fuel from up _ _ _ fid ftype fname
                 fsize Hd E).
      rewrite (MongoBot_upload_with_code cfg (with_log_ok b env) fuel from up _ _ _
                 fid ftype fname fsize Hd Efc).
      cbn [fst snd store calls fresh with_log_ok random reply_ok now app].
      destruct (existsb _ _); cbn [fst snd store calls logged]; [repeat split|].
      rewrite !replies_upload_log. repeat split.
    + rewrite E in Efc.
      unfold MongoBot.upload, try_catch at 1 3 5 7 9 11. rewrite Hd.
      unfold bind. rewrite E, Efc. repeat split.
Qed.

(** ** The subscription callback *)

Lemma answers_app (a b : list Call) : answers (a ++ b) = answers a ++ answers b.
Proof. apply omap_app. Qed.

Lemma answers_queries (uid : Z) (chs : list Channel) : answers (queries uid chs) = [].
Proof. induction chs as [|ch chs IH]; [reflexivity|exact IH]. Qed.

(** X25: the [verify_sub] callback of both bots only checks: it changes
    nothing in the database, sends no file, and answers the callback
    positively exactly when the subscription check passes.  In
    [src/index.js] that is when no channel counts as not joined, and when
    the join prompt cannot be sent the callback is not answered at all;
    in the MongoDB bot the check also passes, and the callback is
    answered positively, when some channel is not joined but the join
    prompt could not be sent (index.js lines 271-278, MongoDB bot lines
    819-826). *)
Theorem verify_sub_only_checks (env : Env) (from : From) (jdb : JsonBot.Db)
    (mdb : MongoBot.Db) (n : nat) :
  let jr := snd (JsonAdmin.verify_sub env from (fresh jdb n)) in
  let mr := snd (MongoAdmin.verify_sub env from (fresh mdb n)) in
  let jm := missing env (from_id from) (JsonBot.channels jdb) in
  let mm := missing env (from_id from) (MongoBot.channels mdb) in
  (store jr = jdb /\ drawn jr = n /\ sends (calls jr) = []
   /\ answers (calls jr)
      = match jm with
        | [] => [true]
        | _ => if reply_ok env (MsgJoinChannels jm) then [false] else []
        end)
  /\ (store mr = mdb /\ drawn mr = n /\ sends (calls mr) = []
      /\ answers (calls mr)
         = match mm with
           | [] => [true]
           | _ => [negb (reply_ok env (MsgJoinChannels mm))]
           end).
Proof.
  cbv zeta. split.
  - rewrite JsonBot_verify_sub_run. cbv zeta. cbn [fresh store].
    destruct (missing env (from_id from) (JsonBot.channels jdb)) as [|c m].
    + cbn [snd logged store calls drawn fresh app].
      rewrite sends_app, sends_queries, answers_app, answers_queries.
      destruct (answer_ok env); repeat split.
    + destruct (reply_ok env _); cbn [snd logged store calls drawn fresh app];
        rewrite sends_app, sends_queries, answers_app, answers_queries;
        repeat split.
  - rewrite MongoBot_verify_sub_run. cbv zeta. cbn [fresh store].
    destruct (missing env (from_id from) (MongoBot.channels mdb)) as [|c m].
    + cbn [snd logged store calls drawn fresh app].
      rewrite sends_app, sends_queries, answers_app, answers_queries.
      destruct (answer_ok env); repeat split.
    + destruct (reply_ok env _); cbn [negb snd logged store calls drawn fresh app];
        rewrite sends_app, sends_queries, answers_app, answers_queries;
        destruct (answer_ok env); repeat split.
Qed.

(** ** Configuration of the MongoDB bot *)

(** X26: in the MongoDB bot only admins (the owner included) ban, unban
    or configure: after a sequence of updates none of which comes from an
    admin, every user's ban flag, the settings and the channel list are
    what they were (every such command starts with the [isAdmin] test). *)
Theorem mongo_only_admins_ban_or_configure (cfg : Config)
    (evs : list (Env * MongoTrace.Event)) (db : MongoBot.Db) (n : nat) :
  Forall (fun x => MongoBot.isAdmin cfg (from_id (MongoTrace.sender (snd x))) = false)
    evs ->
  let db' := fst (MongoTrace.run cfg evs (db, n)) in
  (forall uid, is_banned db' uid = is_banned db uid)
  /\ MongoBot.settings db' = MongoBot.settings db
  /\ MongoBot.channels db' = MongoBot.channels db.
Proof.
  intros Hall. cbv zeta.
  destruct (MongoTrace_run_frame cfg evs (db, n)) as (_ & _ & _ & _ & _ & HA).
  apply HA. apply not_true_iff_false. intros H.
  apply existsb_exists in H as (x & Hx & Hadmin).
  rewrite Forall_forall in Hall. apply list_elem_of_In in Hx.
  rewrite (Hall x Hx) in Hadmin. discriminate.
Qed.

Lemma mongo_only_admins_witness :
  let db' := fst (MongoTrace.run ex_cfg ex_mongo_trace (ex_mdb true false, 0%nat)) in
  (forall uid, is_banned db' uid = is_banned (ex_mdb true false) uid)
  /\ MongoBot.settings db' = MongoBot.settings (ex_mdb true false)
  /\ MongoBot.channels db' = MongoBot.channels (ex_mdb true false).
Proof.
  apply (mongo_only_admins_ban_or_configure ex_cfg ex_mongo_trace (ex_mdb true false) 0).
  repeat constructor.
Defined.

Lemma deleteOne_split (name : string) (before after : list Channel) (ch : Channel) :
  Forall (fun c => ch_username c <> name) before ->
  ch_username ch = name ->
  MongoAdmin.deleteOne name (before ++ ch :: after) = before ++ after.
Proof.
  intros Hb Hch. induction Hb as [|c l Hc _ IH]; cbn [app MongoAdmin.deleteOne].
  - rewrite Hch, String.eqb_refl. reflexivity.
  - apply String.eqb_neq in Hc. rewrite Hc, IH. reflexivity.
Qed.

Lemma deleteOne_none (name : string) (chs : list Channel) :
  Forall (fun c => ch_username c <> name) chs ->
  MongoAdmin.deleteOne name chs = chs.
Proof.
  induction 1 as [|c l Hc _ IH]; cbn [MongoAdmin.deleteOne]; [reflexivity|].
  apply String.eqb_neq in Hc. rewrite Hc, IH. reflexivity.
Qed.

(** X27: in the MongoDB bot [/removechannel <name>] by an admin removes
    the first channel with that user name and only that one: channels
    before it and after it stay, a later channel with the same user name
    included, which therefore keeps gating; and the command answers that
    the channel was removed whether or not any channel had the name, in
    which case the list is unchanged (lines 1137-1147,
    [Channel.deleteOne]). *)
Theorem mongo_removechannel_removes_first_only (cfg : Config) (admin : From)
    (text name : string) (db : MongoBot.Db) :
  MongoBot.isAdmin cfg (from_id admin) = true ->
  JS.split_space text !! 1%nat = Some name ->
  JS.truthy_str name = true ->
  let r := MongoAdmin.removechannel cfg admin text db in
  snd r = MongoAdmin.ChannelRemoved name
  /\ MongoBot.users (fst r) = MongoBot.users db
  /\ MongoBot.files (fst r) = MongoBot.files db
  /\ (Forall (fun c => ch_username c <> name) (MongoBot.channels db) -> fst r = db)
  /\ (forall before ch after,
        MongoBot.channels db = before ++ ch :: after ->
        Forall (fun c => ch_username c <> name) before ->
        ch_username ch = name ->
        MongoBot.channels (fst r) = before ++ after).
Proof.
  intros Hadmin Harg Htruthy. cbv zeta.
  unfold MongoAdmin.removechannel. rewrite Hadmin, Harg, Htruthy. cbn [negb fst snd].
  repeat split.
  - intros Hnone. unfold MongoAdmin.set_channels.
    rewrite (deleteOne_none name _ Hnone). destruct db; reflexivity.
  - intros before ch after E Hb Hch.
    cbn [MongoAdmin.set_channels MongoBot.channels]. rewrite E.
    apply deleteOne_split; assumption.
Qed.

Lemma mongo_removechannel_witness :
  let db := MongoBot.mkDb ∅ [] (MongoBot.settings (ex_mdb true false))
              [ex_channel; mkChannel "-1009" "@updates" "Mirror"] in
  let r := MongoAdmin.removechannel ex_cfg root "/removechannel @updates" db in
  snd r = MongoAdmin.ChannelRemoved "@updates"
  /\ MongoBot.users (fst r) = MongoBot.users db
  /\ MongoBot.files (fst r) = MongoBot.files db
  /\ (Forall (fun c => ch_username c <> "@updates") (MongoBot.channels db) -> fst r = db)
  /\ (forall before ch after,
        MongoBot.channels db = before ++ ch :: after ->
        Forall (fun c => ch_username c <> "@updates") before ->
        ch_username ch = "@updates" ->
        MongoBot.channels (fst r) = before ++ after).
Proof.
  apply (mongo_removechannel_removes_first_only ex_cfg root "/removechannel @updates"
           "@updates"); reflexivity.
Defined.

(** ** Activity records, MongoDB bot *)

